(** * Submission ingestion: a shallow embedding of the TypeScript sources

    The development follows the source tree:
    - [Js]: the JavaScript built-ins the code calls (strings, [parseInt],
      [String(n)], [Buffer] conversions, regular expressions);
    - [Cursor]: [src/utils/cursor.ts];
    - [PdfHeuristics]: [src/utils/pdfHeuristics.ts];
    - [Db]: the tables and constraints of [db/migrations], and the queries
      that the service sends;
    - [Service]: [src/types/storage.ts] and
      [src/modules/submissions/service.ts];
    - [Controller]: [src/core/http/respond.ts] and
      [src/modules/submissions/controller.ts];
    - [Examples]: an in-memory artifact store and sample requests;
    - [Schema]: the primary key of the submissions as a property of a
      database;
    - [Cache], [MemoryCache]: [src/core/cache/db.ts] and
      [src/core/cache/memory.ts]; [Courses]: the cache keys of the
      courses controller;
    - [Uploads]: [src/utils/uploads.ts],
      [src/core/http/middlewares/multerErrors.ts] and the error handler;
    - [Path], [LocalFs]: Node's [path] on a POSIX host and
      [src/storage/local.ts];
    - [Refusing]: the service on a database that can refuse any
      statement, with other requests at every [await];
    then the facts about the built-ins, and the properties of the
    classifier, the service, the cursors, the controller, the caches, the
    upload errors and the local artifact store.

    Conventions.  A [Buffer] is a [list byte].  A JavaScript string is a
    Rocq [string] of 8-bit units: a text decoded as latin1 is held by its
    code units, any other text by its UTF-8 bytes; every literal of the
    sources is ASCII, where the two agree.  A number that holds an integer
    is its value in [Z]; [NaN] and the infinities are separate
    constructors of [Js.number].  An [async] function is a function from
    the state before to an outcome and the state after; what goes to
    [console] is left out. *)

From Stdlib Require Import ZArith List Strings.String Strings.Ascii Strings.Byte Bool Lia.
From stdpp Require Import base gmap strings list.

Local Open Scope Z_scope.

(* stdpp blocks the unfolding of string append; the proofs below compute with it. *)
#[local] Arguments String.append !s1 s2 : simpl nomatch.

(* ===================================================================== *)
(** * JavaScript built-ins *)
(* ===================================================================== *)

Module Js.

(** ** Strings *)

(** [buf.toString("latin1")]: byte [k] becomes the code unit [k]. *)
Fixpoint latin1 (buf : list byte) : string :=
  match buf with
  | [] => ""
  | b :: rest => String (ascii_of_byte b) (latin1 rest)
  end.

(** [Buffer.from(s, "latin1")], the inverse reading. *)
Fixpoint bytes_of (s : string) : list byte :=
  match s with
  | EmptyString => []
  | String c rest => byte_of_ascii c :: bytes_of rest
  end.

(** [buf.length] *)
Definition buf_length (buf : list byte) : Z := Z.of_nat (List.length buf).

(** [buf.subarray(0, n)] for [0 <= n]. *)
Definition subarray0 (buf : list byte) (n : Z) : list byte :=
  take (Z.to_nat n) buf.

(** ** Regular expressions

    The fragment of the pattern language that the sources use.  Matching is
    written in continuation-passing style, as the language standard does: a
    matcher receives the rest of the input and a continuation that decides
    whether the rest of the pattern matches from where it stopped. *)

Inductive regex : Type :=
| Eps                          (* the empty pattern *)
| Chr (c : ascii)              (* a literal character *)
| AnyChar                      (* [\s\S] *)
| Seq (r1 r2 : regex)          (* r1r2 *)
| Alt (r1 r2 : regex)          (* r1|r2 *)
| PlusLazy (r : regex).        (* r+? *)

(** A literal word as a pattern. *)
Fixpoint word (w : string) : regex :=
  match w with
  | EmptyString => Eps
  | String c rest => Seq (Chr c) (word rest)
  end.

(** The rounds of [r+?]: one round of [r], then (lazily) the continuation
    first and another round only if that fails.  [step] is the matcher of
    [r]; the rounds are bounded by the length of the input. *)
Fixpoint rounds (step : string -> (string -> bool) -> bool) (k : string -> bool)
    (fuel : nat) (s : string) {struct fuel} : bool :=
  match fuel with
  | O => false
  | S fuel' => step s (fun s1 => k s1 || rounds step k fuel' s1)
  end.

Fixpoint run (r : regex) (s : string) (k : string -> bool) {struct r} : bool :=
  match r with
  | Eps => k s
  | Chr c =>
      match s with
      | String c' s' => Ascii.eqb c c' && k s'
      | EmptyString => false
      end
  | AnyChar =>
      match s with
      | String _ s' => k s'
      | EmptyString => false
      end
  | Seq r1 r2 => run r1 s (fun s1 => run r2 s1 k)
  | Alt r1 r2 => run r1 s k || run r2 s k
  | PlusLazy r1 => rounds (run r1) k (S (String.length s)) s
  end.

(** [r.test(s)] for a pattern without flags: try every start index, from
    the left. *)
Fixpoint test (r : regex) (s : string) : bool :=
  run r s (fun _ => true)
  || match s with
     | EmptyString => false
     | String _ s' => test r s'
     end.

(** What [test] is meant to decide for a literal word. *)
Definition contains (w s : string) : Prop :=
  exists pre post, s = pre +:+ w +:+ post.

(** ** Numbers

    An integer-valued number is its value in [Z].  Numbers are binary64
    floats: above [2^53] only some integers are numbers, and a conversion
    to a number rounds to the nearest of them, ties to even. *)

Inductive number : Type :=
| NaN
| Num (z : Z)
| Infinity (negative : bool).

(** Nearest binary64 value of a natural number (53 significant bits). *)
Definition round53 (m : Z) : Z :=
  let e := Z.log2 m - 52 in
  if e <=? 0 then m
  else
    let p := 2 ^ e in
    let q := m / p in
    let r := m mod p in
    let q' := if 2 * r <? p then q
              else if p <? 2 * r then q + 1
              else if Z.even q then q else q + 1 in
    q' * p.

(** The least magnitude that rounds to an infinity. *)
Definition OVERFLOW : Z := 2 ^ 1024 - 2 ^ 970.

(** The number value of a mathematical integer. *)
Definition to_number (m : Z) : number :=
  let a := Z.abs m in
  if OVERFLOW <=? a then Infinity (m <? 0) else Num (Z.sgn m * round53 a).

(** [x] is a non-negative integer that is a number. *)
Definition is_natural_number (x : Z) : Prop :=
  0 <= x < OVERFLOW /\ round53 x = x.

Definition MAX_SAFE_INTEGER : Z := 2 ^ 53 - 1.

(** [Number.isFinite(n)] *)
Definition isFinite (n : number) : bool :=
  match n with Num _ => true | _ => false end.

(** [n >= 0] *)
Definition ge0 (n : number) : bool :=
  match n with
  | Num z => 0 <=? z
  | Infinity negative => negb negative
  | NaN => false
  end.

(** Truthiness of a number: [NaN] and zero are falsy. *)
Definition truthy (n : number) : bool :=
  match n with
  | NaN => false
  | Num z => negb (z =? 0)
  | Infinity _ => true
  end.

(** [a === b] on numbers. *)
Definition strict_eq (a b : number) : bool :=
  match a, b with
  | Num x, Num y => x =? y
  | Infinity s, Infinity t => Bool.eqb s t
  | _, _ => false
  end.

(** [a || b] on numbers. *)
Definition or_else (a b : number) : number := if truthy a then a else b.

(** [Math.min(a, b)] *)
Definition Math_min (a b : number) : number :=
  match a, b with
  | NaN, _ | _, NaN => NaN
  | Infinity true, _ | _, Infinity true => Infinity true
  | Infinity false, y => y
  | x, Infinity false => x
  | Num x, Num y => Num (Z.min x y)
  end.

(** ** Decimal digits *)

Definition digit_char (d : Z) : ascii := ascii_of_N (48 + Z.to_N d).

Definition digit_of (c : ascii) : option Z :=
  let n := Z.of_N (N_of_ascii c) in
  if (48 <=? n) && (n <=? 57) then Some (n - 48) else None.

Fixpoint decimal_loop (fuel : nat) (n : Z) (acc : string) : string :=
  match fuel with
  | O => acc
  | S fuel' =>
      let acc' := String (digit_char (n mod 10)) acc in
      if n <? 10 then acc' else decimal_loop fuel' (n / 10) acc'
  end.

(** The decimal expansion of a natural number, without leading zeros. *)
Definition decimal (n : Z) : string :=
  decimal_loop (S (Z.to_nat (Z.log2 n))) n "".

(** ** [String(n)] for a non-negative integer-valued number

    The standard prints the digits of the shortest decimal that reads
    back as the same number (the closest one when several are as short),
    followed by the zeros that bring it to its magnitude, and switches to
    exponent notation from [10^21] on. *)

(** The candidates with [j] trailing zeros around [x]. *)
Definition shortest_at (x j : Z) : option Z :=
  let p := 10 ^ j in
  let lo := (x / p) * p in
  let hi := lo + p in
  match round53 lo =? x, round53 hi =? x with
  | true, true =>
      Some (if x - lo <? hi - x then lo
            else if hi - x <? x - lo then hi
            else if Z.even (x / p) then lo else hi)
  | true, false => Some lo
  | false, true => Some hi
  | false, false => None
  end.

(** Fewest digits first: try [j] trailing zeros, then [j - 1], ... *)
Fixpoint shortest_from (x : Z) (j : nat) : Z :=
  match shortest_at x (Z.of_nat j) with
  | Some v => v
  | None =>
      match j with
      | O => x
      | S j' => shortest_from x j'
      end
  end.

Definition shortest_decimal (x : Z) : Z :=
  shortest_from x (Nat.pred (String.length (decimal x))).

Fixpoint strip_zeros (fuel : nat) (v : Z) : Z :=
  match fuel with
  | O => v
  | S fuel' => if (0 <? v) && (v mod 10 =? 0) then strip_zeros fuel' (v / 10) else v
  end.

(** [d.ddde+NN] *)
Definition exponent_form (v : Z) : string :=
  let n := String.length (decimal v) in
  let digits := decimal (strip_zeros n v) in
  let exponent := "e+" +:+ decimal (Z.of_nat (Nat.pred n)) in
  match digits with
  | String d EmptyString => String d exponent
  | String d more => String d ("." +:+ more +:+ exponent)
  | EmptyString => exponent
  end.

Definition String_of_number (x : Z) : string :=
  let v := shortest_decimal x in
  if v <? 10 ^ 21 then decimal v else exponent_form v.

(** ** [parseInt(s, 10)]

    The text is read in UTF-8 form.  Leading white space and line
    terminators are skipped; they are listed here by their encodings. *)

Definition units (l : list Z) : string :=
  fold_right (fun z s => String (ascii_of_N (Z.to_N z)) s) "" l.

Definition white_space : list string :=
  [ units [9]; units [10]; units [11]; units [12]; units [13]; units [32];
    units [194; 160];                 (* U+00A0 *)
    units [225; 154; 128];            (* U+1680 *)
    units [226; 128; 128]; units [226; 128; 129]; units [226; 128; 130];
    units [226; 128; 131]; units [226; 128; 132]; units [226; 128; 133];
    units [226; 128; 134]; units [226; 128; 135]; units [226; 128; 136];
    units [226; 128; 137]; units [226; 128; 138];   (* U+2000 .. U+200A *)
    units [226; 128; 168]; units [226; 128; 169];   (* U+2028, U+2029 *)
    units [226; 128; 175];            (* U+202F *)
    units [226; 129; 159];            (* U+205F *)
    units [227; 128; 128];            (* U+3000 *)
    units [239; 187; 191] ].          (* U+FEFF *)

(** [Some rest] when [s] is [w] followed by [rest]. *)
Fixpoint strip_prefix (w s : string) : option string :=
  match w, s with
  | EmptyString, _ => Some s
  | String a w', String b s' => if Ascii.eqb a b then strip_prefix w' s' else None
  | String _ _, EmptyString => None
  end.

Definition strip_one_space (s : string) : option string :=
  fold_right (fun w found =>
                match strip_prefix w s with
                | Some rest => Some rest
                | None => found
                end) None white_space.

Fixpoint skip_spaces (fuel : nat) (s : string) : string :=
  match fuel with
  | O => s
  | S fuel' =>
      match strip_one_space s with
      | Some rest => skip_spaces fuel' rest
      | None => s
      end
  end.

Definition trim_start (s : string) : string := skip_spaces (String.length s) s.

(** The value of the longest prefix of decimal digits, if there is one. *)
Fixpoint digits_value (s : string) (acc : option Z) : option Z :=
  match s with
  | EmptyString => acc
  | String c s' =>
      match digit_of c with
      | Some d => digits_value s' (Some (10 * default 0 acc + d))
      | None => acc
      end
  end.

Definition parseInt10 (s : string) : number :=
  let s1 := trim_start s in
  let '(negative, s2) :=
    match s1 with
    | String "-" rest => (true, rest)
    | String "+" rest => (false, rest)
    | _ => (false, s1)
    end in
  match digits_value s2 None with
  | None => NaN
  | Some m => to_number (if negative then - m else m)
  end.

(** ** Buffers and base64url *)

Definition Z_of_byte (b : byte) : Z := Z.of_N (Byte.to_N b).

Definition byte_of_Z (z : Z) : byte := byte_of_ascii (ascii_of_N (Z.to_N z)).

(** [Buffer.from(s, "utf8")] and [buf.toString("utf8")]: the text is kept
    in UTF-8 form, so both keep the bytes.  (An ill-formed sequence, which
    [toString] replaces by U+FFFD, is neither white space, a sign nor a
    digit before or after the replacement.) *)
Definition utf8_bytes (s : string) : list byte := bytes_of s.
Definition utf8_text (buf : list byte) : string := latin1 buf.

Definition BASE64URL : string :=
  "ABCDEFGHIJKLMNOPQRSTUVWXYZabcdefghijklmnopqrstuvwxyz0123456789-_".

Definition sextet_char (v : Z) : ascii :=
  default "A"%char (String.get (Z.to_nat v) BASE64URL).

(** The decoder accepts both alphabets. *)
Definition unbase64 (c : ascii) : option Z :=
  let n := Z.of_N (N_of_ascii c) in
  if (65 <=? n) && (n <=? 90) then Some (n - 65)
  else if (97 <=? n) && (n <=? 122) then Some (n - 71)
  else if (48 <=? n) && (n <=? 57) then Some (n + 4)
  else if (n =? 43) || (n =? 45) then Some 62
  else if (n =? 47) || (n =? 95) then Some 63
  else None.

(** [buf.toString("base64url")]: no padding. *)
Fixpoint base64url_encode (buf : list byte) : string :=
  match buf with
  | [] => ""
  | [b1] =>
      let x := Z_of_byte b1 in
      String (sextet_char (x / 4)) (String (sextet_char (x mod 4 * 16)) "")
  | [b1; b2] =>
      let x := Z_of_byte b1 in
      let y := Z_of_byte b2 in
      String (sextet_char (x / 4))
        (String (sextet_char (x mod 4 * 16 + y / 16))
           (String (sextet_char (y mod 16 * 4)) ""))
  | b1 :: b2 :: b3 :: rest =>
      let x := Z_of_byte b1 in
      let y := Z_of_byte b2 in
      let z := Z_of_byte b3 in
      String (sextet_char (x / 4))
        (String (sextet_char (x mod 4 * 16 + y / 16))
           (String (sextet_char (y mod 16 * 4 + z / 64))
              (String (sextet_char (z mod 64)) (base64url_encode rest))))
  end.

(** The sextets of the characters before the first [=]; characters outside
    the alphabets are skipped. *)
Fixpoint sextets (s : string) : list Z :=
  match s with
  | EmptyString => []
  | String c rest =>
      if Ascii.eqb c "="%char then []
      else match unbase64 c with
           | Some v => v :: sextets rest
           | None => sextets rest
           end
  end.

Fixpoint bytes_of_sextets (l : list Z) : list byte :=
  match l with
  | a :: b :: c :: d :: rest =>
      byte_of_Z (a * 4 + b / 16)
      :: byte_of_Z (b mod 16 * 16 + c / 4)
      :: byte_of_Z (c mod 4 * 64 + d)
      :: bytes_of_sextets rest
  | [a; b; c] =>
      [byte_of_Z (a * 4 + b / 16); byte_of_Z (b mod 16 * 16 + c / 4)]
  | [a; b] => [byte_of_Z (a * 4 + b / 16)]
  | _ => []
  end.

(** [Buffer.from(s, "base64url")] *)
Definition base64url_decode (s : string) : list byte :=
  bytes_of_sextets (sextets s).

End Js.

(* ===================================================================== *)
(** * src/utils/cursor.ts *)
(* ===================================================================== *)

(** [encodeCursor] and [decodeCursor], imported by the controllers from
    [utils/cursor]; the source tree at hand keeps them after the storage
    types, in [src/types/storage.ts]. *)

Module Cursor.

(** [encodeCursor(n)], for a non-negative integer-valued [n]. *)
Definition encodeCursor (n : Z) : string :=
  Js.base64url_encode (Js.utf8_bytes (Js.String_of_number n)).

(** [decodeCursor(c)]; [None] is an absent argument. *)
Definition decodeCursor (c : option string) : Z :=
  match c with
  | None | Some EmptyString => 0
  | Some c =>
      let s := Js.utf8_text (Js.base64url_decode c) in
      let n := Js.parseInt10 s in
      match n with
      | Js.Num z => if Js.isFinite n && Js.ge0 n then z else 0
      | _ => 0
      end
  end.

End Cursor.

(* ===================================================================== *)
(** * src/utils/pdfHeuristics.ts *)
(* ===================================================================== *)

Module PdfHeuristics.

(** [/\/Font|\/ToUnicode|BT[\s\S]+?ET/] *)
Definition marker_pattern : Js.regex :=
  Js.Alt (Js.word "/Font")
    (Js.Alt (Js.word "/ToUnicode")
       (Js.Seq (Js.word "BT") (Js.Seq (Js.PlusLazy Js.AnyChar) (Js.word "ET")))).

Definition SCAN_BYTES : Z := 2 * 1024 * 1024.

Definition pdfLikelyHasTextLayer (buf : list byte) : bool :=
  let head := Js.subarray0 buf (Z.min (Js.buf_length buf) SCAN_BYTES) in
  let s := Js.latin1 head in
  Js.test marker_pattern s.

(** The markers in the words of the specification: a font reference, a
    Unicode mapping table, or text-showing operators between a [BT] and a
    later [ET]. *)
Definition has_text_marker (s : string) : Prop :=
  Js.contains "/Font" s
  \/ Js.contains "/ToUnicode" s
  \/ exists pre mid post, s = pre +:+ "BT" +:+ mid +:+ "ET" +:+ post /\ mid <> "".

End PdfHeuristics.

(* ===================================================================== *)
(** * The database: db/migrations *)
(* ===================================================================== *)

(** Migration [001_init] creates the two tables and their constraints (in
    the source tree at hand it is the second part of [unnamed/part_000]);
    003 adds the unique index on the triple, 004 the cache table, 005 the
    current check on event types. *)

Module Db.

(** [app.extraction_status] and [app.submission_status] (001_init). *)
Inductive ExtractionStatus : Type := parsed | pending_ocr.
Inductive SubmissionStatus : Type := received | error | deleted.

#[global] Instance ExtractionStatus_eq_dec : EqDecision ExtractionStatus.
Proof. solve_decision. Defined.

(** A row of [app.submissions].  The table is kept in the order of
    [created_at] ([DEFAULT now()]), oldest row first. *)
Record SubmissionRow : Type := {
  submission_id : string;
  assignment_id : string;
  student_id : string;
  mime : string;
  size : Z;
  sha256 : option string;
  storage_path : string;
  status : SubmissionStatus;
  extraction_status : ExtractionStatus;
  ocr_required : bool;
  extracted_text : option string;
  correlation_id : option string
}.

(** A JSON value of an event payload. *)
Inductive Json : Type :=
| JStr (s : string)
| JNum (z : Z)
| JBool (b : bool).

(** A row of [app.submission_events], oldest first ([event_id] is a
    [BIGSERIAL]). *)
Record EventRow : Type := {
  event_submission_id : string;
  event_type : string;
  payload : list (string * Json);
  event_correlation_id : option string
}.

(** A row of [app.cache] (004_app_cache), keyed by [key]. *)
Record CacheRow : Type := {
  cache_payload : string;
  expires_at : Z
}.

Record Database : Type := {
  submissions : list SubmissionRow;
  submission_events : list EventRow;
  cache : gmap string CacheRow
}.

(** SQLSTATE codes. *)
Definition unique_violation : string := "23505".
Definition check_violation : string := "23514".
Definition foreign_key_violation : string := "23503".
Definition invalid_text_representation : string := "22P02".
Definition numeric_value_out_of_range : string := "22003".
Definition invalid_row_count_in_limit_clause : string := "2201W".
Definition invalid_row_count_in_result_offset_clause : string := "2201X".

Definition same_triple (a s h : string) (r : SubmissionRow) : bool :=
  bool_decide (assignment_id r = a)
  && bool_decide (student_id r = s)
  && bool_decide (sha256 r = Some h).

(** [SELECT ... WHERE assignment_id = $1 AND student_id = $2 AND sha256 = $3
     ORDER BY created_at ASC LIMIT 1] *)
Definition select_by_triple (db : Database) (a s h : string) : option SubmissionRow :=
  head (List.filter (same_triple a s h) (submissions db)).

(** [SELECT ... WHERE submission_id = $1] *)
Definition select_by_id (db : Database) (id : string) : option SubmissionRow :=
  head (List.filter (fun r => bool_decide (submission_id r = id)) (submissions db)).

(** [CHECK (size > 0 AND size <= 10485760)] (001_init) *)
Definition size_check (r : SubmissionRow) : bool :=
  (0 <? size r) && (size r <=? 10485760).

(** [submission_id TEXT PRIMARY KEY] (001_init) *)
Definition primary_key_taken (db : Database) (r : SubmissionRow) : bool :=
  existsb (fun r' => bool_decide (submission_id r' = submission_id r)) (submissions db).

(** [UNIQUE INDEX submissions_unique_triplet (assignment_id, student_id,
    sha256)] (003); rows without a hash never conflict. *)
Definition triplet_taken (db : Database) (r : SubmissionRow) : bool :=
  match sha256 r with
  | Some h => existsb (same_triple (assignment_id r) (student_id r) h) (submissions db)
  | None => false
  end.

(** [INSERT INTO app.submissions ...]: the new database, or the SQLSTATE
    of the error. *)
Definition insert_submission (db : Database) (r : SubmissionRow) : string + Database :=
  if negb (size_check r) then inl check_violation
  else if primary_key_taken db r || triplet_taken db r then inl unique_violation
  else inr {| submissions := submissions db ++ [r];
              submission_events := submission_events db;
              cache := cache db |}.

(** [submission_events_event_type_check] as of 005. *)
Definition legacy_event_type : string := "submission.received".

Definition event_type_check : list string :=
  [ "submission.created"; "submission.updated"; "submission.parsed";
    "submission.ocr_pending"; legacy_event_type ].

(** [INSERT INTO app.submission_events ...] *)
Definition insert_event (db : Database) (e : EventRow) : string + Database :=
  if negb (bool_decide (event_type e ∈ event_type_check)) then inl check_violation
  else if negb (existsb (fun r => bool_decide (submission_id r = event_submission_id e))
                  (submissions db))
  then inl foreign_key_violation
  else inr {| submissions := submissions db;
              submission_events := submission_events db ++ [e];
              cache := cache db |}.

(** [DELETE FROM app.cache WHERE key LIKE $1] with [$1 = prefix + "%"],
    for a prefix without the wildcards [%], [_] and [\] (the one prefix
    the service passes has none): the rows whose key starts with the
    prefix go.  Returns the number of rows deleted. *)
Definition delete_cache_by_prefix (db : Database) (prefix : string) : Z * Database :=
  let gone := filter (fun kv => String.prefix prefix kv.1 = true) (cache db) in
  (Z.of_nat (base.size gone),
   {| submissions := submissions db;
      submission_events := submission_events db;
      cache := filter (fun kv => String.prefix prefix kv.1 <> true) (cache db) |}).

(** The parameter of [LIMIT]/[OFFSET] is sent as [String(n)] and read as
    a [bigint]. *)
Definition bigint_param (n : Js.number) : string + Z :=
  match n with
  | Js.Num z =>
      if 10 ^ 21 <=? Z.abs z then inl invalid_text_representation
      else if (z <? - 2 ^ 63) || (2 ^ 63 <=? z) then inl numeric_value_out_of_range
      else inr z
  | _ => inl invalid_text_representation
  end.

(** [SELECT ... ORDER BY created_at DESC LIMIT $1 OFFSET $2] *)
Definition select_page (db : Database) (limit offset : Js.number)
  : string + list SubmissionRow :=
  match bigint_param limit, bigint_param offset with
  | inl e, _ => inl e
  | _, inl e => inl e
  | inr l, inr o =>
      if o <? 0 then inl invalid_row_count_in_result_offset_clause
      else if l <? 0 then inl invalid_row_count_in_limit_clause
      else inr (take (Z.to_nat l) (drop (Z.to_nat o) (rev (submissions db))))
  end.

End Db.

(* ===================================================================== *)
(** * src/types/storage.ts and src/modules/submissions/service.ts *)
(* ===================================================================== *)

Module Service.
Import Db.

(** An error object: [http] and [code] are the optional fields that the
    code looks at. *)
Record Exn : Type := {
  exn_http : option Z;
  exn_code : option string;
  exn_message : string
}.

Inductive outcome (A : Type) : Type :=
| Return (a : A)
| Throw (e : Exn).
Arguments Return {A} a.
Arguments Throw {A} e.

(** ** src/types/storage.ts *)

Record SavedObject : Type := {
  storagePath : string;
  absolutePath : string;
  saved_sha256 : string;
  saved_size : Z
}.

Inductive ReadLocator : Type :=
| LocalLocator (absolutePath : string)
| UrlLocator (url : string).

Record SaveArgs : Type := {
  save_buf : list byte;
  save_grade : option string;
  save_assignmentId : string;
  save_submissionId : string;
  save_ext : string
}.

(** [interface StorageProvider], over the state [Store] of the artifact
    store.  [saveOriginal] may throw, and may have written or not when it
    does. *)
Class StorageProvider (Store : Type) : Type := {
  saveOriginal : SaveArgs -> Store -> outcome SavedObject * Store;
  getReadLocator : string -> Store -> outcome ReadLocator
}.

(** ** Pure helpers of service.ts *)

Definition pickExt (mime : string) : string :=
  if bool_decide (mime = "application/pdf") then ".pdf"
  else if bool_decide (mime = "image/jpeg") then ".jpg"
  else if bool_decide (mime = "image/png") then ".png"
  else if bool_decide (mime = "text/plain") then ".txt"
  else if bool_decide
            (mime = "application/vnd.openxmlformats-officedocument.wordprocessingml.document")
       then ".docx"
  else "".

Record Extraction : Type := {
  ocrRequired : bool;
  extractionStatus : ExtractionStatus;
  extractedText : option string
}.

Definition DOCX : string :=
  "application/vnd.openxmlformats-officedocument.wordprocessingml.document".

Definition decideExtraction (mime : string) (buf : list byte) : Extraction :=
  if bool_decide (mime = "image/jpeg") || bool_decide (mime = "image/png") then
    {| ocrRequired := true; extractionStatus := pending_ocr; extractedText := None |}
  else if bool_decide (mime = "application/pdf") then
    let hasText := PdfHeuristics.pdfLikelyHasTextLayer buf in
    if hasText
    then {| ocrRequired := false; extractionStatus := parsed;
            extractedText := Some "[stub] Extracted text from PDF" |}
    else {| ocrRequired := true; extractionStatus := pending_ocr; extractedText := None |}
  else if bool_decide (mime = DOCX) || bool_decide (mime = "text/plain") then
    {| ocrRequired := false; extractionStatus := parsed;
       extractedText := Some "[stub] Extracted text from document" |}
  else
    {| ocrRequired := true; extractionStatus := pending_ocr; extractedText := None |}.

(** [10 * 1024 * 1024] *)
Definition MAX_BYTES : Z := 10 * 1024 * 1024.

(** ** The service *)

Record CreateOpts : Type := {
  assignmentId : string;
  studentId : string;
  grade : option string;
  buf : list byte;
  opt_mime : string;
  originalName : option string;
  correlationId : option string;
  dataMode : option string
}.

Record CreateResult : Type := {
  submissionId : string;
  result_status : SubmissionStatus;
  result_extractionStatus : ExtractionStatus;
  result_ocrRequired : bool
}.

Record ListResult : Type := {
  items : list SubmissionRow;
  count : Z
}.

(** What one call does not decide itself: the id it draws from the clock
    and the random generator, and what the other requests commit between
    its look-up and its [INSERT] (it awaits the artifact store there;
    nothing is locked). *)
Record Env : Type := {
  candidateId : string;
  meanwhile : Database -> Database
}.

(** A call that can change a collaborator. *)
Inductive Call : Type :=
| CallSaveOriginal (args : SaveArgs)
| CallInsertSubmission (row : SubmissionRow)
| CallInsertEvent (e : EventRow)
| CallCacheDelByPrefix (prefix : string).

Section WithProvider.

Context {Store : Type} `{StorageProvider Store}.

(** [crypto.createHash("sha256").update(buf).digest("hex")] *)
Variable sha256_hex : list byte -> string.

(** The database, the artifact store, and the journal of the changing
    calls issued so far (oldest first). *)
Record Machine : Type := {
  db : Database;
  store : Store;
  journal : list Call
}.

Definition M (A : Type) : Type := Machine -> outcome A * Machine.

#[local] Instance M_ret : MRet M := fun A a m => (Return a, m).

#[local] Instance M_bind : MBind M := fun A B f c m =>
  match c m with
  | (Return a, m') => f a m'
  | (Throw e, m') => (Throw e, m')
  end.

Definition throw {A : Type} (e : Exn) : M A := fun m => (Throw e, m).

(** [try { c } catch (e) { handler e }] *)
Definition try_catch {A : Type} (c : M A) (handler : Exn -> M A) : M A := fun m =>
  match c m with
  | (Return a, m') => (Return a, m')
  | (Throw e, m') => handler e m'
  end.

Definition log (c : Call) (m : Machine) : Machine :=
  {| db := db m; store := store m; journal := journal m ++ [c] |}.

Definition pg_error (sqlstate : string) : Exn :=
  {| exn_http := None; exn_code := Some sqlstate; exn_message := "database error" |}.

(** The look-up by triple, used before and after the [INSERT]. *)
Definition query_by_triple (a s h : string) : M (option SubmissionRow) := fun m =>
  (Return (select_by_triple (db m) a s h), m).

Definition query_insert_submission (row : SubmissionRow) : M () := fun m =>
  let m1 := log (CallInsertSubmission row) m in
  match insert_submission (db m) row with
  | inl sqlstate => (Throw (pg_error sqlstate), m1)
  | inr db' => (Return (), {| db := db'; store := store m1; journal := journal m1 |})
  end.

Definition query_insert_event (e : EventRow) : M () := fun m =>
  let m1 := log (CallInsertEvent e) m in
  match insert_event (db m) e with
  | inl sqlstate => (Throw (pg_error sqlstate), m1)
  | inr db' => (Return (), {| db := db'; store := store m1; journal := journal m1 |})
  end.

(** [cacheDelByPrefix(prefix)] of [core/cache/db] (in the source tree at
    hand: the second part of [src/core/auth/verify.ts]) *)
Definition cacheDelByPrefix (prefix : string) : M Z := fun m =>
  let m1 := log (CallCacheDelByPrefix prefix) m in
  let '(removed, db') := delete_cache_by_prefix (db m) prefix in
  (Return removed, {| db := db'; store := store m1; journal := journal m1 |}).

Definition storage_saveOriginal (args : SaveArgs) : M SavedObject := fun m =>
  let m1 := log (CallSaveOriginal args) m in
  let '(r, store') := saveOriginal args (store m) in
  (r, {| db := db m1; store := store'; journal := journal m1 |}).

(** The other requests take their turn. *)
Definition yield (others : Database -> Database) : M () := fun m =>
  (Return (), {| db := others (db m); store := store m; journal := journal m |}).

Definition hit_result (hit : SubmissionRow) : CreateResult :=
  {| submissionId := submission_id hit;
     result_status := received;
     result_extractionStatus := extraction_status hit;
     result_ocrRequired := ocr_required hit |}.

Definition too_large : Exn :=
  {| exn_http := Some 413; exn_code := Some "too_large";
     exn_message := "Max file size is 10 MB" |}.

Definition created_event (opts : CreateOpts) (id : string) (saved : SavedObject) : EventRow :=
  {| event_submission_id := id;
     event_type := "submission.created";
     payload := [ ("fileName", JStr (default "editor.txt" (originalName opts)));
                  ("size", JNum (saved_size saved));
                  ("dataMode", JStr (default "sandbox" (dataMode opts))) ];
     event_correlation_id := correlationId opts |}.

Definition parsed_event (opts : CreateOpts) (id : string) : EventRow :=
  {| event_submission_id := id;
     event_type := "submission.parsed";
     payload := [ ("stub", JBool true) ];
     event_correlation_id := correlationId opts |}.

Definition ocr_pending_event (opts : CreateOpts) (id : string) : EventRow :=
  {| event_submission_id := id;
     event_type := "submission.ocr_pending";
     payload := [ ("reason", JStr "image_or_scanned_pdf") ];
     event_correlation_id := correlationId opts |}.

Definition new_row (opts : CreateOpts) (id contentSha : string)
    (saved : SavedObject) (d : Extraction) : SubmissionRow :=
  {| submission_id := id;
     assignment_id := assignmentId opts;
     student_id := studentId opts;
     mime := opt_mime opts;
     size := saved_size saved;
     sha256 := Some contentSha;
     storage_path := storagePath saved;
     status := received;
     extraction_status := extractionStatus d;
     ocr_required := ocrRequired d;
     extracted_text := extractedText d;
     correlation_id := correlationId opts |}.

(** The event that follows [created], by classification. *)
Definition follow_up (opts : CreateOpts) (id : string) (d : Extraction) : list EventRow :=
  if bool_decide (extractionStatus d = parsed) then [parsed_event opts id]
  else if ocrRequired d then [ocr_pending_event opts id]
  else [].

(** The events of the [INSERT INTO app.submission_events] calls of a journal. *)
Definition events_of (calls : list Call) : list EventRow :=
  omap (fun c => match c with CallInsertEvent e => Some e | _ => None end) calls.

(** The arguments that [createSubmission] passes to the artifact store. *)
Definition save_args (env : Env) (opts : CreateOpts) : SaveArgs :=
  {| save_buf := buf opts; save_grade := grade opts;
     save_assignmentId := assignmentId opts;
     save_submissionId := candidateId env; save_ext := pickExt (opt_mime opts) |}.

(** [SubmissionsService.createSubmission] *)
Definition createSubmission (env : Env) (opts : CreateOpts) : M CreateResult :=
  (* Defensive max-size check (10 MB) *)
  if MAX_BYTES <? Js.buf_length (buf opts) then throw too_large
  else
    (* Idempotency pre-check using (assignmentId, studentId, sha256) *)
    let contentSha := sha256_hex (buf opts) in
    q ← query_by_triple (assignmentId opts) (studentId opts) contentSha;
    match q with
    | Some hit => mret (hit_result hit)
    | None =>
        let ext := pickExt (opt_mime opts) in
        let submissionId := candidateId env in
        (* Persist original in storage *)
        saved ← storage_saveOriginal
                  {| save_buf := buf opts; save_grade := grade opts;
                     save_assignmentId := assignmentId opts;
                     save_submissionId := submissionId; save_ext := ext |};
        yield (meanwhile env);;
        (* Initial extraction state *)
        let d := decideExtraction (opt_mime opts) (buf opts) in
        (* Insert main submission row *)
        inserted ←
          try_catch
            (query_insert_submission (new_row opts submissionId contentSha saved d);;
             mret None)
            (fun e =>
               if bool_decide (exn_code e = Some "23505") then
                 r ← query_by_triple (assignmentId opts) (studentId opts) contentSha;
                 match r with
                 | Some hit => mret (Some (hit_result hit))
                 | None => throw e
                 end
               else throw e);
        match inserted with
        | Some winner => mret winner
        | None =>
            (* Emit created event *)
            query_insert_event (created_event opts submissionId saved);;
            (* Invalidate related caches *)
            cacheDelByPrefix "courses:v1:";;
            (* Emit a follow-up event when parsed immediately *)
            (if bool_decide (extractionStatus d = parsed)
             then query_insert_event (parsed_event opts submissionId)
             else if ocrRequired d
                  then query_insert_event (ocr_pending_event opts submissionId)
                  else mret ());;
            mret {| submissionId := submissionId;
                    result_status := received;
                    result_extractionStatus := extractionStatus d;
                    result_ocrRequired := ocrRequired d |}
        end
    end.

(** The row that a call tries to insert once the artifact is [saved]. *)
Definition the_row (env : Env) (opts : CreateOpts) (saved : SavedObject) : SubmissionRow :=
  new_row opts (candidateId env) (sha256_hex (buf opts)) saved
    (decideExtraction (opt_mime opts) (buf opts)).

(** The database after a new submission has gone in, from the database
    [d] that the [INSERT] met. *)
Definition stored (env : Env) (opts : CreateOpts) (saved : SavedObject)
    (d : Database) : Database :=
  {| submissions := submissions d ++ [the_row env opts saved];
     submission_events :=
       submission_events d
       ++ created_event opts (candidateId env) saved
          :: follow_up opts (candidateId env)
               (decideExtraction (opt_mime opts) (buf opts));
     cache := filter (fun kv => String.prefix "courses:v1:" kv.1 <> true) (cache d) |}.

(** [SubmissionsService.listSubmissions] *)
Definition listSubmissions (limit offset : Js.number) : M ListResult := fun m =>
  match select_page (db m) limit offset with
  | inl sqlstate => (Throw (pg_error sqlstate), m)
  | inr rows => (Return {| items := rows; count := Z.of_nat (List.length rows) |}, m)
  end.

(** [SubmissionsService.getSubmission] *)
Definition getSubmission (id : string) : M (option SubmissionRow) := fun m =>
  (Return (select_by_id (db m) id), m).

(** [SubmissionsService.getArtifactLocator]: [None] is [null]. *)
Definition getArtifactLocator (id : string) : M (option ReadLocator) := fun m =>
  match select_by_id (db m) id with
  | None => (Return None, m)
  | Some row =>
      match getReadLocator (storage_path row) (store m) with
      | Return locator => (Return (Some locator), m)
      | Throw e => (Throw e, m)
      end
  end.

End WithProvider.

Arguments Machine : clear implicits.
Arguments M : clear implicits.

End Service.

(* ===================================================================== *)
(** * src/core/http/respond.ts and src/modules/submissions/controller.ts *)
(* ===================================================================== *)

Module Controller.
Import Db Service.

(** A value of [req.body]: absent, a string, or anything else, which is
    given by its truthiness and its conversion to a string. *)
Inductive JsValue : Type :=
| JUndefined
| JString (s : string)
| JOther (truthy : bool) (text : string).

(** A value of [req.query]. *)
Inductive QueryValue : Type :=
| QString (s : string)
| QArray (l : list string)
| QObject.

(** [req.file] as multer's memory storage fills it. *)
Record UploadedFile : Type := {
  buffer : list byte;
  mimetype : string;
  originalname : string
}.

Record Request : Type := {
  body_assignmentId : JsValue;
  body_studentId : JsValue;
  body_grade : JsValue;
  body_editorText : JsValue;
  file : option UploadedFile;
  req_correlationId : option string;
  header_x_data_mode : option string;
  query_pageSize : option QueryValue;
  query_cursor : option QueryValue
}.

(** Public shape of a submission ([toApi]); the two timestamps, which the
    database fills in, are left out. *)
Record Submission : Type := {
  api_id : string;
  api_assignmentId : string;
  api_studentId : string;
  api_mime : string;
  api_size : Z;
  api_status : SubmissionStatus;
  api_extractionStatus : ExtractionStatus;
  api_ocrRequired : bool;
  api_extractedText : option string;
  api_storagePath : string
}.

Inductive Body : Type :=
| CreatedBody (r : CreateResult)
| ListBody (items : list Submission) (count : Z)
| ErrorBody (code message : string) (correlationId : option string).

(** What a handler sets on [res]. *)
Record Response : Type := {
  res_status : Z;
  res_headers : list (string * string);
  res_body : Body
}.

(** respond.ts *)
Definition ERROR_CODES : list string :=
  [ "BadRequest"; "Unauthorized"; "Forbidden"; "NotFound"; "TooManyRequests";
    "InternalError" ].

Definition normalizeErrorCode (x : option string) : string :=
  match x with
  | Some c => if bool_decide (c ∈ ERROR_CODES) then c else "InternalError"
  | None => "InternalError"
  end.

Definition withCorrelationHeader (req : Request) : list (string * string) :=
  match req_correlationId req with
  | Some c => if bool_decide (c = "") then [] else [("x-correlation-id", c)]
  | None => []
  end.

Definition sendError (req : Request) (http : Z) (code message : string) : Response :=
  {| res_status := http;
     res_headers := withCorrelationHeader req;
     res_body := ErrorBody code message (req_correlationId req) |}.

(** ** Conversions of values *)

Definition js_truthy (v : JsValue) : bool :=
  match v with
  | JUndefined => false
  | JString s => negb (bool_decide (s = ""))
  | JOther t _ => t
  end.

(** [String(v)] *)
Definition js_String (v : JsValue) : string :=
  match v with
  | JUndefined => "undefined"
  | JString s => s
  | JOther _ text => text
  end.

(** [String(v || "")] *)
Definition string_or_empty (v : JsValue) : string :=
  if js_truthy v then js_String v else "".

Definition reverse (s : string) : string := String.rev s.

(** [s.trim()]: white space and line terminators go from both ends. *)
Definition trim (s : string) : string :=
  let strip_end (t : string) : string :=
    (fix go (fuel : nat) (r : string) {struct fuel} : string :=
       match fuel with
       | O => r
       | S fuel' =>
           match fold_right (fun w found =>
                               match Js.strip_prefix (reverse w) r with
                               | Some rest => Some rest
                               | None => found
                               end) None Js.white_space with
           | Some rest => go fuel' rest
           | None => r
           end
       end) (String.length t) (reverse t) in
  reverse (strip_end (Js.trim_start s)).

Definition toApi (row : SubmissionRow) : Submission :=
  {| api_id := submission_id row;
     api_assignmentId := assignment_id row;
     api_studentId := student_id row;
     api_mime := mime row;
     api_size := size row;
     api_status := status row;
     api_extractionStatus := extraction_status row;
     api_ocrRequired := ocr_required row;
     api_extractedText := extracted_text row;
     api_storagePath := storage_path row |}.

(** [String(req.query.x ?? fallback)] *)
Definition query_String (v : option QueryValue) (fallback : string) : string :=
  match v with
  | None => fallback
  | Some (QString s) => s
  | Some (QArray l) => String.concat "," l
  | Some QObject => "[object Object]"
  end.

(** The content source that [postSubmission] picks: the uploaded file
    first, the editor text otherwise, none when neither is there. *)
Definition content_source (req : Request) : option (list byte * string * string) :=
  match file req with
  | Some f => Some (buffer f, mimetype f, originalname f)
  | None =>
      match body_editorText req with
      | JString text => Some (Js.utf8_bytes text, "text/plain", "editor.txt")
      | _ => None
      end
  end.

(** [Math.min(parseInt(String(req.query.pageSize ?? "20"), 10) || 20, 200)] *)
Definition pageSize_of (req : Request) : Js.number :=
  Js.Math_min
    (Js.or_else (Js.parseInt10 (query_String (query_pageSize req) "20")) (Js.Num 20))
    (Js.Num 200).

Section WithProvider.

Context {Store : Type} `{StorageProvider Store}.
Variable sha256_hex : list byte -> string.

(** The options that [postSubmission] passes to the service for a content
    source. *)
Definition create_opts (req : Request) (source : list byte * string * string)
  : CreateOpts :=
  let '(buf, mime, originalName) := source in
  {| assignmentId := trim (string_or_empty (body_assignmentId req));
     studentId := trim (string_or_empty (body_studentId req));
     grade := if js_truthy (body_grade req)
              then Some (js_String (body_grade req)) else None;
     buf := buf; opt_mime := mime;
     originalName := Some originalName;
     correlationId := req_correlationId req;
     dataMode := Some (default "sandbox" (header_x_data_mode req)) |}.

(** The same request with another [editorText]. *)
Definition with_editorText (v : JsValue) (req : Request) : Request :=
  {| body_assignmentId := body_assignmentId req;
     body_studentId := body_studentId req;
     body_grade := body_grade req;
     body_editorText := v;
     file := file req;
     req_correlationId := req_correlationId req;
     header_x_data_mode := header_x_data_mode req;
     query_pageSize := query_pageSize req;
     query_cursor := query_cursor req |}.

(** [postSubmission]: the response, and the machine after it. *)
Definition postSubmission (env : Env) (req : Request)
  : Machine Store -> Response * Machine Store := fun m =>
  let assignmentId := trim (string_or_empty (body_assignmentId req)) in
  let studentId := trim (string_or_empty (body_studentId req)) in
  if bool_decide (assignmentId = "") || bool_decide (studentId = "") then
    (sendError req 400 "BadRequest" "assignmentId and studentId are required", m)
  else
    match content_source req with
    | None =>
        (sendError req 400 "BadRequest" "Upload a file (file) or provide editorText.", m)
    | Some (buf, mime, originalName) =>
        let grade := if js_truthy (body_grade req)
                     then Some (js_String (body_grade req)) else None in
        match createSubmission sha256_hex env
                {| assignmentId := assignmentId; studentId := studentId;
                   grade := grade; buf := buf; opt_mime := mime;
                   originalName := Some originalName;
                   correlationId := req_correlationId req;
                   dataMode := Some (default "sandbox" (header_x_data_mode req)) |} m with
        | (Return result, m') =>
            ({| res_status := 201; res_headers := []; res_body := CreatedBody result |}, m')
        | (Throw err, m') =>
            let http := default 500 (exn_http err) in
            let code := normalizeErrorCode (exn_code err) in
            (sendError req http code (exn_message err), m')
        end
    end.

(** How [postSubmission] answers for an outcome of the service. *)
Definition respond (req : Request) (r : outcome CreateResult * Machine Store)
  : Response * Machine Store :=
  match r with
  | (Return result, m') =>
      ({| res_status := 201; res_headers := []; res_body := CreatedBody result |}, m')
  | (Throw err, m') =>
      (sendError req (default 500 (exn_http err)) (normalizeErrorCode (exn_code err))
         (exn_message err), m')
  end.

(** [listSubmissions] of the controller: the handler has no [catch], an
    error of the service leaves it as a rejection. *)
Definition listSubmissions (req : Request)
  : Machine Store -> outcome Response * Machine Store := fun m =>
  let pageSize := pageSize_of req in
  let cursor := query_String (query_cursor req) "" in
  let offset := Cursor.decodeCursor (Some cursor) in
  match Service.listSubmissions pageSize (Js.Num offset) m with
  | (Throw e, m') => (Throw e, m')
  | (Return r, m') =>
      let nextCursor :=
        if Js.strict_eq (Js.Num (Z.of_nat (List.length (items r)))) pageSize
        then match pageSize with
             | Js.Num l => Cursor.encodeCursor (Js.round53 (offset + l))
             | _ => ""
             end
        else "" in
      let headers := if bool_decide (nextCursor = "") then []
                     else [("X-Next-Cursor", nextCursor)] in
      (Return {| res_status := 200; res_headers := headers;
                 res_body := ListBody (map toApi (items r)) (count r) |}, m')
  end.

(** What the two read handlers do with [res]. *)
Inductive Reply : Type :=
| ReplyError (r : Response)                      (* [sendError(...)] *)
| ReplyJson (payload : Submission)               (* [res.json(payload)] *)
| ReplyRedirect (status : Z) (url : string)      (* [res.redirect(status, url)] *)
| ReplyFile (absolutePath : string).             (* [res.sendFile(absolutePath)] *)

(** [getSubmission] of the controller; [id] is [String(req.params.id)]. *)
Definition getSubmission (req : Request) (id : string)
  : Machine Store -> outcome Reply * Machine Store := fun m =>
  match Service.getSubmission id m with
  | (Throw e, m') => (Throw e, m')
  | (Return None, m') =>
      (Return (ReplyError (sendError req 404 "NotFound" "Submission not found")), m')
  | (Return (Some row), m') => (Return (ReplyJson (toApi row)), m')
  end.

(** [getSubmissionArtifact] *)
Definition getSubmissionArtifact (req : Request) (id : string)
  : Machine Store -> outcome Reply * Machine Store := fun m =>
  match Service.getArtifactLocator id m with
  | (Throw e, m') => (Throw e, m')
  | (Return None, m') =>
      (Return (ReplyError (sendError req 404 "NotFound" "Submission not found")), m')
  | (Return (Some (UrlLocator url)), m') => (Return (ReplyRedirect 302 url), m')
  | (Return (Some (LocalLocator absolutePath)), m') => (Return (ReplyFile absolutePath), m')
  end.

End WithProvider.

End Controller.

(* ===================================================================== *)
(** * A provider and a digest to run the service on examples *)
(* ===================================================================== *)

Module Examples.
Import Db Service.

(** A stand-in for SHA-256 in the examples.  The service only compares
    digests; this one tells all contents apart. *)
Definition digest (buf : list byte) : string := "sha:" +:+ Js.latin1 buf.

(** An artifact store kept in memory, laid out as the local one:
    [class/<assignmentId>/<submissionId>/original<ext>]. *)
Definition memory_path (args : SaveArgs) : string :=
  default "class" (save_grade args) +:+ "/" +:+ save_assignmentId args +:+ "/"
  +:+ save_submissionId args +:+ "/original" +:+ save_ext args.

#[global] Instance MemoryProvider : StorageProvider (gmap string (list byte)) := {|
  saveOriginal args st :=
    (Return {| storagePath := memory_path args;
               absolutePath := "/artifacts/" +:+ memory_path args;
               saved_sha256 := digest (save_buf args);
               saved_size := Js.buf_length (save_buf args) |},
     <[memory_path args := save_buf args]> st);
  getReadLocator path st := Return (LocalLocator ("/artifacts/" +:+ path))
|}.

Definition empty_db : Database :=
  {| submissions := []; submission_events := []; cache := ∅ |}.

Definition start : Machine (gmap string (list byte)) :=
  {| db := empty_db; store := ∅; journal := [] |}.

(** The request of the specification's scenario: plain text [hello]. *)
Definition hello : CreateOpts :=
  {| assignmentId := "a1"; studentId := "s1"; grade := None;
     buf := Js.utf8_bytes "hello"; opt_mime := "text/plain";
     originalName := Some "editor.txt"; correlationId := Some "c-1";
     dataMode := Some "sandbox" |}.

Definition quiet (id : string) : Env :=
  {| candidateId := id; meanwhile := fun db => db |}.

(** The machine after [hello] has been submitted once. *)
Definition after_hello : Machine (gmap string (list byte)) :=
  (createSubmission digest (quiet "sub_1") hello start).2.

(** A second submission, by another student. *)
Definition bye : CreateOpts :=
  {| assignmentId := "a1"; studentId := "s2"; grade := None;
     buf := Js.utf8_bytes "bye"; opt_mime := "text/plain";
     originalName := Some "editor.txt"; correlationId := Some "c-2";
     dataMode := Some "sandbox" |}.

Definition after_two : Machine (gmap string (list byte)) :=
  (createSubmission digest (quiet "sub_2") bye after_hello).2.

(** The same upload committed by another request in the meantime. *)
Definition raced : Env :=
  {| candidateId := "sub_2"; meanwhile := fun _ => db after_hello |}.

(** A database where the id [sub_1] is taken by another student's
    submission. *)
Definition taken : Machine (gmap string (list byte)) :=
  {| db := {| submissions :=
                [ {| submission_id := "sub_1"; assignment_id := "a1";
                     student_id := "s9"; mime := "text/plain"; size := 3;
                     sha256 := Some "sha:bye"; storage_path := "class/a1/sub_1/original.txt";
                     status := received; extraction_status := parsed;
                     ocr_required := false;
                     extracted_text := Some "[stub] Extracted text from document";
                     correlation_id := None |} ];
              submission_events := []; cache := ∅ |};
     store := ∅; journal := [] |}.

(** Uploads of [n] zero bytes. *)
Definition zeros (n : Z) : CreateOpts :=
  {| assignmentId := "a1"; studentId := "s1"; grade := None;
     buf := replicate (Z.to_nat n) "000"%byte; opt_mime := "text/plain";
     originalName := Some "zeros.txt"; correlationId := None;
     dataMode := None |}.

(** A PDF with a font reference, and one without any marker. *)
Definition pdf (text : string) : CreateOpts :=
  {| assignmentId := "a1"; studentId := "s1"; grade := None;
     buf := Js.bytes_of text; opt_mime := "application/pdf";
     originalName := Some "essay.pdf"; correlationId := None;
     dataMode := None |}.

Definition post (upload : option Controller.UploadedFile) (editorText : Controller.JsValue)
  : Controller.Request :=
  {| Controller.body_assignmentId := Controller.JString "a1";
     Controller.body_studentId := Controller.JString " s1 ";
     Controller.body_grade := Controller.JUndefined;
     Controller.body_editorText := editorText;
     Controller.file := upload;
     Controller.req_correlationId := Some "c-1";
     Controller.header_x_data_mode := None;
     Controller.query_pageSize := None;
     Controller.query_cursor := None |}.

Definition essay : Controller.UploadedFile :=
  {| Controller.buffer := Js.bytes_of "%PDF-1.4 /Font";
     Controller.mimetype := "application/pdf";
     Controller.originalname := "essay.pdf" |}.

(** [GET /submissions?pageSize=...] *)
Definition get (pageSize : option string) : Controller.Request :=
  {| Controller.body_assignmentId := Controller.JUndefined;
     Controller.body_studentId := Controller.JUndefined;
     Controller.body_grade := Controller.JUndefined;
     Controller.body_editorText := Controller.JUndefined;
     Controller.file := None;
     Controller.req_correlationId := Some "c-2";
     Controller.header_x_data_mode := None;
     Controller.query_pageSize := Controller.QString <$> pageSize;
     Controller.query_cursor := None |}.

End Examples.

(* ===================================================================== *)
(** * migration 001_init: the primary key of the submissions *)
(* ===================================================================== *)

Module Schema.
Import Db.

(** [submission_id TEXT PRIMARY KEY], as a property of a database. *)
Definition primary_key (d : Database) : Prop :=
  NoDup (map submission_id (submissions d)).

End Schema.

(* ===================================================================== *)
(** * core/cache/db.ts: the cache kept in [app.cache] *)
(* ===================================================================== *)

(** The app clock [Date.now()] counts milliseconds since the epoch.  The
    clock [NOW()] of the database and the column [expires_at] count
    microseconds, the resolution of [timestamptz].  A payload is the
    [jsonb] value as text. *)

Module Cache.
Import Db.

(** The largest time value of a [Date]. *)
Definition MAX_TIME : Z := 8640000000000000.

(** [new Date(Date.now() + ttlMs)] for a whole number of milliseconds:
    the time value, [None] for an invalid date. *)
Definition new_Date (now : Z) (ttlMs : Js.number) : option Z :=
  match ttlMs with
  | Js.Num t => if Z.abs (now + t) <=? MAX_TIME then Some (now + t) else None
  | _ => None
  end.

Inductive CacheError : Type :=
| InvalidTime                    (* [RangeError: Invalid time value] of [toISOString] *)
| UndefinedValue (message : string)
| QueryFailed.                   (* the [INSERT] was refused *)

(** [cacheGet(key)] when the database clock shows [now]. *)
Definition cacheGet (now : Z) (key : string) (d : Database) : option string :=
  match cache d !! key with
  | Some row => if now <? expires_at row then Some (cache_payload row) else None
  | None => None
  end.

(** [cacheDel(key)]: the number of rows deleted and the database after. *)
Definition cacheDel (key : string) (d : Database) : Z * Database :=
  (match cache d !! key with Some _ => 1 | None => 0 end,
   {| submissions := submissions d;
      submission_events := submission_events d;
      cache := delete key (cache d) |}).

(** [cacheSweepExpired()] when the database clock shows [now]. *)
Definition cacheSweepExpired (now : Z) (d : Database) : Z * Database :=
  let gone := filter (fun kv => expires_at kv.2 <= now) (cache d) in
  (Z.of_nat (base.size gone),
   {| submissions := submissions d;
      submission_events := submission_events d;
      cache := filter (fun kv => ~ expires_at kv.2 <= now) (cache d) |}).

Section WithCasts.

(** The two casts of the [INSERT] are the database's: [$2::jsonb] of a
    JSON text, and [$3::timestamptz] of the ISO string of a time value;
    [None] when the cast is refused. *)
Variable jsonb_in : string -> option string.
Variable timestamptz_in : Z -> option Z.

(** [cacheSet(key, value, ttlMs)] when the app clock shows [now]; [json]
    is [JSON.stringify(value)], [None] when that is [undefined]. *)
Definition cacheSet (now : Z) (key : string) (json : option string) (ttlMs : Js.number)
    (d : Database) : CacheError + Database :=
  match new_Date now ttlMs with
  | None => inl InvalidTime
  | Some expiresAt =>
      match json with
      | None =>
          inl (UndefinedValue
                 ("cacheSet(" +:+ key +:+ "): value is undefined; cannot serialize to JSON"))
      | Some text =>
          match jsonb_in text, timestamptz_in expiresAt with
          | Some payload, Some expires =>
              inr {| submissions := submissions d;
                     submission_events := submission_events d;
                     cache := <[key := {| cache_payload := payload; expires_at := expires |}]>
                                (cache d) |}
          | _, _ => inl QueryFailed
          end
      end
  end.

End WithCasts.

End Cache.

(* ===================================================================== *)
(** * core/cache/memory.ts: the cache kept in the process *)
(* ===================================================================== *)

Module MemoryCache.

(** [a + b] on numbers. *)
Definition plus (a b : Js.number) : Js.number :=
  match a, b with
  | Js.NaN, _ | _, Js.NaN => Js.NaN
  | Js.Infinity s, Js.Infinity t => if Bool.eqb s t then Js.Infinity s else Js.NaN
  | Js.Infinity s, _ | _, Js.Infinity s => Js.Infinity s
  | Js.Num x, Js.Num y => Js.to_number (x + y)
  end.

(** [a >= b] on numbers. *)
Definition ge (a b : Js.number) : bool :=
  match a, b with
  | Js.NaN, _ | _, Js.NaN => false
  | Js.Num x, Js.Num y => y <=? x
  | Js.Infinity s, Js.Infinity t => negb s || t
  | Js.Infinity s, Js.Num _ => negb s
  | Js.Num _, Js.Infinity t => t
  end.

Record Entry (T : Type) : Type := {
  value : T;
  expiresAt : Js.number
}.
Arguments value {T} _.
Arguments expiresAt {T} _.

Section WithValues.
Context {T : Type}.

(** [cacheGet(key)] when [Date.now()] is [now]: the value and the map
    after the call. *)
Definition cacheGet (now : Z) (key : string) (map : gmap string (Entry T))
  : option T * gmap string (Entry T) :=
  match map !! key with
  | None => (None, map)
  | Some e =>
      if ge (Js.Num now) (expiresAt e) then (None, delete key map)
      else (Some (value e), map)
  end.

(** [cacheSet(key, value, ttlMs)] *)
Definition cacheSet (now : Z) (key : string) (v : T) (ttlMs : Js.number)
    (map : gmap string (Entry T)) : gmap string (Entry T) :=
  <[key := {| value := v; expiresAt := plus (Js.Num now) ttlMs |}]> map.

End WithValues.

End MemoryCache.

(* ===================================================================== *)
(** * modules/courses/controller.ts: the keys of the cached pages *)
(* ===================================================================== *)

Module Courses.

(** [keyFor(start, pageSize)]; the two arguments are given as the template
    literal renders them. *)
Definition keyFor (start pageSize : string) : string :=
  "courses:v1:start=" +:+ start +:+ ":size=" +:+ pageSize.

End Courses.

(* ===================================================================== *)
(** * utils/uploads.ts, middlewares/multerErrors.ts and the error handler *)
(* ===================================================================== *)

Module Uploads.
Import Controller.

(** An error on its way through the error middlewares: whether it is a
    [MulterError], its [code], its [message] (empty when it has none) and
    its [statusCode] when that is a number. *)
Record HttpError : Type := {
  is_MulterError : bool;
  err_code : option string;
  err_message : string;
  statusCode : option Z
}.

Definition allowed : list string :=
  [ "application/pdf";
    "application/vnd.openxmlformats-officedocument.wordprocessingml.document";
    "image/jpeg";
    "image/png";
    "text/plain" ].

(** [fileFilter]: [None] is [cb(null, true)]. *)
Definition fileFilter (mimetype : string) : option HttpError :=
  if bool_decide (mimetype ∈ allowed) then None
  else Some {| is_MulterError := false; err_code := None;
               err_message := "Unsupported mime: " +:+ mimetype;
               statusCode := None |}.

(** Lower case of the letters [A]..[Z]. *)
Definition lower (c : ascii) : ascii :=
  let n := N_of_ascii c in
  if ((65 <=? n) && (n <=? 90))%N then ascii_of_N (n + 32) else c.

Fixpoint lower_case (s : string) : string :=
  match s with
  | EmptyString => EmptyString
  | String c rest => String (lower c) (lower_case rest)
  end.

(** [/w/i.test(s)] for a word [w] of letters of [a]..[z], [A]..[Z] and
    other characters below 128: with the flag [i] a character of the
    input matches one of the word when they are the same letter in
    either case. *)
Definition test_i (w s : string) : bool :=
  Js.test (Js.word (lower_case w)) (lower_case s).

Definition with_statusCode (status : Z) (err : HttpError) : HttpError :=
  {| is_MulterError := is_MulterError err; err_code := err_code err;
     err_message := err_message err; statusCode := Some status |}.

(** [multerErrors]: the error that it passes to [next]. *)
Definition multerErrors (err : HttpError) : HttpError :=
  if is_MulterError err then
    if bool_decide (err_code err = Some "LIMIT_FILE_SIZE")
    then with_statusCode 413 err
    else with_statusCode 400 err
  else if test_i "Unsupported mime" (err_message err)
  then with_statusCode 415 err
  else err.

Definition mapStatusToCode (status : Z) : string :=
  if status =? 400 then "BadRequest"
  else if status =? 401 then "Unauthorized"
  else if status =? 403 then "Forbidden"
  else if status =? 404 then "NotFound"
  else if status =? 429 then "TooManyRequests"
  else if 500 <=? status then "InternalError" else "BadRequest".

(** [notFoundHandler] *)
Definition notFoundHandler (req : Request) (method path : string) : Response :=
  sendError req 404 "NotFound" ("No route: " +:+ method +:+ " " +:+ path).

(** [errorHandler]; [res_statusCode] is [res.statusCode] when the error
    arrives. *)
Definition errorHandler (req : Request) (res_statusCode : Z) (err : HttpError) : Response :=
  let status :=
    match statusCode err with
    | Some explicit => explicit
    | None => if 400 <=? res_statusCode then res_statusCode else 500
    end in
  let code := mapStatusToCode status in
  let message := if bool_decide (err_message err = "") then "Unexpected error"
                 else err_message err in
  sendError req status code message.

End Uploads.

(* ===================================================================== *)
(** * storage/local.ts: the artifact store on the local file system *)
(* ===================================================================== *)

(** The functions of Node's [path] that the provider calls, for a POSIX
    host ([path] is [path.posix], [path.sep] is [/]). *)

Module Path.

(** [s.split("/")] *)
Fixpoint split (s : string) : list string :=
  match s with
  | EmptyString => [EmptyString]
  | String c rest =>
      if Ascii.eqb c "/" then EmptyString :: split rest
      else match split rest with
           | segment :: segments => String c segment :: segments
           | [] => [String c EmptyString]
           end
  end.

(** [parts.join("/")] *)
Definition join_slash (parts : list string) : string := String.concat "/" parts.

(** One segment of [normalizeString]; the segments kept so far are a
    stack, the last one on top. *)
Definition segment (allowAboveRoot : bool) (stack : list string) (s : string)
  : list string :=
  if bool_decide (s = "") || bool_decide (s = ".") then stack
  else if bool_decide (s = "..") then
    match stack with
    | top :: below =>
        if bool_decide (top = "..") then
          if allowAboveRoot then ".." :: stack else stack
        else below
    | [] => if allowAboveRoot then [".."] else []
    end
  else s :: stack.

(** [normalizeString(path, allowAboveRoot, "/", isPosixPathSeparator)]:
    empty segments and [.] go, [..] takes the segment before it. *)
Definition normalizeString (path : string) (allowAboveRoot : bool) : string :=
  join_slash (rev (fold_left (segment allowAboveRoot) (split path) [])).

Definition starts_with_slash (s : string) : bool :=
  match s with
  | String c _ => Ascii.eqb c "/"
  | EmptyString => false
  end.

Fixpoint ends_with_slash (s : string) : bool :=
  match s with
  | EmptyString => false
  | String c EmptyString => Ascii.eqb c "/"
  | String _ rest => ends_with_slash rest
  end.

(** [path.posix.normalize(path)] *)
Definition normalize (path : string) : string :=
  if bool_decide (path = "") then "."
  else
    let isAbsolute := starts_with_slash path in
    let trailingSeparator := ends_with_slash path in
    let p := normalizeString path (negb isAbsolute) in
    if bool_decide (p = "") then
      if isAbsolute then "/" else if trailingSeparator then "./" else "."
    else
      let p := if trailingSeparator then p +:+ "/" else p in
      if isAbsolute then "/" +:+ p else p.

(** [path.posix.join(...parts)] *)
Definition join (parts : list string) : string :=
  match List.filter (fun p => negb (bool_decide (p = ""))) parts with
  | [] => "."
  | given => normalize (join_slash given)
  end.

(** The loop of [path.posix.resolve], from the last argument to the
    first and then the working directory, until a part is absolute. *)
Fixpoint resolve_loop (parts : list string) (resolvedPath : string) : string * bool :=
  match parts with
  | [] => (resolvedPath, false)
  | path :: before =>
      if bool_decide (path = "") then resolve_loop before resolvedPath
      else if starts_with_slash path then (path +:+ "/" +:+ resolvedPath, true)
      else resolve_loop before (path +:+ "/" +:+ resolvedPath)
  end.

(** [path.posix.resolve(...parts)] in the working directory [cwd]. *)
Definition resolve (cwd : string) (parts : list string) : string :=
  let '(resolvedPath, resolvedAbsolute) := resolve_loop (rev parts ++ [cwd]) "" in
  let resolvedPath := normalizeString resolvedPath (negb resolvedAbsolute) in
  if resolvedAbsolute then "/" +:+ resolvedPath
  else if bool_decide (resolvedPath = "") then "." else resolvedPath.

(** A path segment that [normalizeString] keeps as it is: not empty, not
    [.] or [..], and without a slash or a backslash. *)
Definition no_slash (s : string) : Prop :=
  forallb (fun c : ascii => negb (Ascii.eqb c "/") && negb (Ascii.eqb c "092"))
    (list_ascii_of_string s) = true.

Definition plain (s : string) : bool :=
  negb (bool_decide (s = "")) && negb (bool_decide (s = "."))
  && negb (bool_decide (s = ".."))
  && forallb (fun c : ascii => negb (Ascii.eqb c "/") && negb (Ascii.eqb c "092"))
       (list_ascii_of_string s).

(** The segments that are not empty. *)
Definition kept (segments : list string) : list string :=
  List.filter (fun s => negb (bool_decide (s = ""))) segments.

(** A part that [resolve] goes past: not empty and not absolute. *)
Definition relative (s : string) : Prop := s <> "" /\ starts_with_slash s = false.

(** An absolute path in normal form, by its segments. *)
Definition absolute (segments : list string) : string := "/" +:+ join_slash segments.

End Path.

Module LocalFs.
Import Service.

(** The two calls that the provider makes on [fs.promises]. *)
Class FileSystem (Fs : Type) : Type := {
  mkdir_recursive : string -> Fs -> outcome () * Fs;
  writeFile : string -> list byte -> Fs -> outcome () * Fs
}.

Definition Error (message : string) : Exn :=
  {| exn_http := None; exn_code := None; exn_message := message |}.

(** [p.replace(/\\/g, "/")] *)
Fixpoint toPosix (p : string) : string :=
  match p with
  | EmptyString => EmptyString
  | String c rest => String (if Ascii.eqb c "092" then "/"%char else c) (toPosix rest)
  end.

Definition alphanumeric (c : ascii) : bool :=
  let n := N_of_ascii c in
  (((48 <=? n) && (n <=? 57)) || ((65 <=? n) && (n <=? 90)) || ((97 <=? n) && (n <=? 122)))%N.

(** [/^\.[a-z0-9]+$/i.test(ext)] *)
Definition extension_pattern (ext : string) : bool :=
  match ext with
  | String "." (String c rest) => alphanumeric c && forallb alphanumeric (list_ascii_of_string rest)
  | _ => false
  end.

Section WithFileSystem.

Context {Fs : Type} `{FileSystem Fs}.
Variable cwd : string.
Variable sha256_hex : list byte -> string.

(** [this.root], by default. *)
Definition root : string := Path.resolve cwd [cwd; "artifacts"].

(** [safeJoin(root, ...parts)] *)
Definition safeJoin (root : string) (parts : list string) : outcome string :=
  let resolved := Path.resolve cwd (root :: parts) in
  let normalizedRoot := Path.resolve cwd [root] in
  if negb (String.prefix (normalizedRoot +:+ "/") resolved)
  then Throw (Error "Path traversal detected")
  else Return resolved.

(** The extension with its leading dot. *)
Definition dotted (ext : string) : string :=
  if String.prefix "." ext then ext else "." +:+ ext.

(** [grade ? grade : "class"] *)
Definition dir_of (args : SaveArgs) : string :=
  match save_grade args with
  | Some grade => if bool_decide (grade = "") then "class" else grade
  | None => "class"
  end.

(** The logical path of an artifact. *)
Definition storagePath_of (args : SaveArgs) : string :=
  let ext := dotted (save_ext args) in
  let relDirPosix :=
    toPosix (Path.join [dir_of args; save_assignmentId args; save_submissionId args]) in
  let fileName := "original" +:+ Uploads.lower_case ext in
  toPosix (Path.join [relDirPosix; fileName]).

(** [LocalFsStorage.saveOriginal] *)
Definition saveOriginal (args : SaveArgs) (fs : Fs) : outcome SavedObject * Fs :=
  let ext := dotted (save_ext args) in
  if negb (extension_pattern ext)
  then (Throw (Error ("Invalid file extension: " +:+ ext)), fs)
  else
    let sha256 := sha256_hex (save_buf args) in
    let storagePath := storagePath_of args in
    match safeJoin root (removelast (Path.split storagePath)) with
    | Throw e => (Throw e, fs)
    | Return absDir =>
        match safeJoin root [storagePath] with
        | Throw e => (Throw e, fs)
        | Return absolutePath =>
            match mkdir_recursive absDir fs with
            | (Throw e, fs1) => (Throw e, fs1)
            | (Return _, fs1) =>
                match writeFile absolutePath (save_buf args) fs1 with
                | (Throw e, fs2) => (Throw e, fs2)
                | (Return _, fs2) =>
                    (Return {| storagePath := storagePath;
                               absolutePath := absolutePath;
                               saved_sha256 := sha256;
                               saved_size := Js.buf_length (save_buf args) |}, fs2)
                end
            end
        end
    end.

(** [LocalFsStorage.getReadLocator] *)
Definition getReadLocator (storagePath : string) : outcome ReadLocator :=
  match safeJoin root (Path.split (toPosix storagePath)) with
  | Throw e => Throw e
  | Return absolutePath => Return (LocalLocator absolutePath)
  end.


End WithFileSystem.

End LocalFs.

(* ===================================================================== *)
(** * service.ts on a database that can refuse a statement *)
(* ===================================================================== *)

(** [Db] refuses an [INSERT] for the constraints of the migrations only,
    and [Service] lets the other requests in once, before the [INSERT] of
    the row.  A database also refuses a statement whose parameters it
    cannot read (a text with a NUL character, a payload that is not
    [jsonb]) or that does not reach it, and the other requests run at
    every [await].  Here each statement of [createSubmission] can be
    refused, [refuses] gives the error and a refused statement changes
    nothing, and [between k] is what the other requests do to the
    database before the statement at place [k] runs. *)

Module Refusing.
Import Db Service.

Inductive Statement : Type :=
| SelectByTriple (a s h : string)
| InsertSubmission (row : SubmissionRow)
| InsertEvent (e : EventRow)
| DeleteCacheByPrefix (prefix : string).

(** The database after an accepted statement. *)
Definition with_row (d : Database) (row : SubmissionRow) : Database :=
  {| submissions := submissions d ++ [row];
     submission_events := submission_events d;
     cache := cache d |}.

Definition with_event (d : Database) (e : EventRow) : Database :=
  {| submissions := submissions d;
     submission_events := submission_events d ++ [e];
     cache := cache d |}.

Definition without_prefix (d : Database) (prefix : string) : Database :=
  (delete_cache_by_prefix d prefix).2.

Section Places.

Variable between : nat -> Database -> Database.

(** The database that each statement meets, from the database [d] at the
    call and the statements accepted before. *)
Definition at_lookup (d : Database) : Database := between 0 d.

Definition at_insert (d : Database) : Database := between 1 (at_lookup d).

Definition at_requery (d : Database) : Database := between 2 (at_insert d).

Definition at_created (d : Database) (row : SubmissionRow) : Database :=
  between 3 (with_row (at_insert d) row).

Definition at_delete (d : Database) (row : SubmissionRow) (created : EventRow) : Database :=
  between 4 (with_event (at_created d row) created).

Definition at_follow_up (d : Database) (row : SubmissionRow) (created : EventRow)
  : Database :=
  between 5 (without_prefix (at_delete d row created) "courses:v1:").

End Places.

Section WithProvider.

Context {Store : Type} `{StorageProvider Store}.
Variable sha256_hex : list byte -> string.
Variable refuses : Statement -> Database -> option Exn.
Variable between : nat -> Database -> Database.

#[local] Existing Instance M_ret.
#[local] Existing Instance M_bind.

(** The answer to a statement: the error of the refusal, the error of the
    constraint, or the result. *)
Definition answer {A : Type} (s : Statement) (d : Database) (r : string + A) : Exn + A :=
  match refuses s d with
  | Some e => inl e
  | None =>
      match r with
      | inl sqlstate => inl (pg_error sqlstate)
      | inr a => inr a
      end
  end.

(** The other requests take their turn before the statement at place [k]. *)
Definition turn (k : nat) (m : Machine Store) : Machine Store :=
  {| db := between k (db m); store := store m; journal := journal m |}.

Definition query_by_triple (k : nat) (a s h : string) : M Store (option SubmissionRow) :=
  fun m0 =>
    let m := turn k m0 in
    match answer (SelectByTriple a s h) (db m) (inr (select_by_triple (db m) a s h)) with
    | inl e => (Throw e, m)
    | inr q => (Return q, m)
    end.

Definition query_insert_submission (k : nat) (row : SubmissionRow) : M Store () :=
  fun m0 =>
    let m := log (CallInsertSubmission row) (turn k m0) in
    match answer (InsertSubmission row) (db m) (insert_submission (db m) row) with
    | inl e => (Throw e, m)
    | inr db' => (Return (), {| db := db'; store := store m; journal := journal m |})
    end.

Definition query_insert_event (k : nat) (e : EventRow) : M Store () :=
  fun m0 =>
    let m := log (CallInsertEvent e) (turn k m0) in
    match answer (InsertEvent e) (db m) (insert_event (db m) e) with
    | inl e => (Throw e, m)
    | inr db' => (Return (), {| db := db'; store := store m; journal := journal m |})
    end.

Definition cacheDelByPrefix (k : nat) (prefix : string) : M Store Z :=
  fun m0 =>
    let m := log (CallCacheDelByPrefix prefix) (turn k m0) in
    match answer (DeleteCacheByPrefix prefix) (db m)
            (inr (delete_cache_by_prefix (db m) prefix)) with
    | inl e => (Throw e, m)
    | inr (removed, db') =>
        (Return removed, {| db := db'; store := store m; journal := journal m |})
    end.

(** [SubmissionsService.createSubmission] *)
Definition createSubmission (env : Env) (opts : CreateOpts) : M Store CreateResult :=
  (* Defensive max-size check (10 MB) *)
  if MAX_BYTES <? Js.buf_length (buf opts) then throw too_large
  else
    (* Idempotency pre-check using (assignmentId, studentId, sha256) *)
    let contentSha := sha256_hex (buf opts) in
    q ← query_by_triple 0 (assignmentId opts) (studentId opts) contentSha;
    match q with
    | Some hit => mret (hit_result hit)
    | None =>
        let ext := pickExt (opt_mime opts) in
        let submissionId := candidateId env in
        (* Persist original in storage *)
        saved ← storage_saveOriginal
                  {| save_buf := buf opts; save_grade := grade opts;
                     save_assignmentId := assignmentId opts;
                     save_submissionId := submissionId; save_ext := ext |};
        (* Initial extraction state *)
        let d := decideExtraction (opt_mime opts) (buf opts) in
        (* Insert main submission row *)
        inserted ←
          try_catch
            (query_insert_submission 1 (new_row opts submissionId contentSha saved d);;
             mret None)
            (fun e =>
               if bool_decide (exn_code e = Some "23505") then
                 r ← query_by_triple 2 (assignmentId opts) (studentId opts) contentSha;
                 match r with
                 | Some hit => mret (Some (hit_result hit))
                 | None => throw e
                 end
               else throw e);
        match inserted with
        | Some winner => mret winner
        | None =>
            (* Emit created event *)
            query_insert_event 3 (created_event opts submissionId saved);;
            (* Invalidate related caches *)
            cacheDelByPrefix 4 "courses:v1:";;
            (* Emit a follow-up event when parsed immediately *)
            (if bool_decide (extractionStatus d = parsed)
             then query_insert_event 5 (parsed_event opts submissionId)
             else if ocrRequired d
                  then query_insert_event 5 (ocr_pending_event opts submissionId)
                  else mret ());;
            mret {| submissionId := submissionId;
                    result_status := received;
                    result_extractionStatus := extractionStatus d;
                    result_ocrRequired := ocrRequired d |}
        end
    end.

(** The event after [created], by classification. *)
Definition follow_up_event (opts : CreateOpts) (id : string) : EventRow :=
  if bool_decide (extractionStatus (decideExtraction (opt_mime opts) (buf opts)) = parsed)
  then parsed_event opts id else ocr_pending_event opts id.

(** What a call returns for the submission that it stored itself. *)
Definition fresh (env : Env) (opts : CreateOpts) : CreateResult :=
  {| submissionId := candidateId env;
     result_status := received;
     result_extractionStatus :=
       extractionStatus (decideExtraction (opt_mime opts) (buf opts));
     result_ocrRequired := ocrRequired (decideExtraction (opt_mime opts) (buf opts)) |}.

End WithProvider.

(** A database that refuses nothing, and other requests that run only
    before the [INSERT] of the row: the setting of [Service]. *)
Definition nothing (s : Statement) (d : Database) : option Exn := None.

Definition once (env : Env) (k : nat) (d : Database) : Database :=
  match k with
  | 1%nat => meanwhile env d
  | _ => d
  end.

End Refusing.

(* ===================================================================== *)
(** * More examples *)
(* ===================================================================== *)

Module MoreExamples.
Import Db Service Examples.


(** What the first submission of [hello] returns, and what the store in
    memory gives back for it. *)
Definition hello_result : CreateResult :=
  {| submissionId := "sub_1"; result_status := received;
     result_extractionStatus := parsed; result_ocrRequired := false |}.

Definition hello_saved : SavedObject :=
  {| storagePath := "class/a1/sub_1/original.txt";
     absolutePath := "/artifacts/class/a1/sub_1/original.txt";
     saved_sha256 := "sha:hello"; saved_size := 5 |}.

(** Casts that accept every text and every time. *)
Definition jsonb_any (text : string) : option string := Some text.
Definition timestamptz_exact (ms : Z) : option Z := Some (1000 * ms).

(** A file system kept in memory, where no call fails. *)
#[global] Instance MemoryFs : LocalFs.FileSystem (gmap string (list byte)) := {|
  LocalFs.mkdir_recursive _ fs := (Return (), fs);
  LocalFs.writeFile path content fs := (Return (), <[path := content]> fs)
|}.

(** A database that cannot read the payload of an event. *)
Definition refuse_events (s : Refusing.Statement) (d : Database) : option Exn :=
  match s with
  | Refusing.InsertEvent _ => Some (pg_error "22P05")
  | _ => None
  end.

(** No other request. *)
Definition alone (k : nat) (d : Database) : Database := d.

(** A cache with a page of the courses list and a page of another list. *)
Definition cached : Machine (gmap string (list byte)) :=
  {| db := {| submissions := []; submission_events := [];
              cache := {[ Courses.keyFor "0" "50"
                            := {| cache_payload := "[1]"; expires_at := 9 |};
                          "users:v1:start=0:size=50"
                            := {| cache_payload := "[2]"; expires_at := 9 |} ]} |};
     store := ∅; journal := [] |}.

(** A cache with an entry that expires at 3 and one that expires at 9. *)
Definition two_entries : Database :=
  {| submissions := []; submission_events := [];
     cache := {[ "old" := {| cache_payload := "[1]"; expires_at := 3 |};
                 "new" := {| cache_payload := "[2]"; expires_at := 9 |} ]} |}.

End MoreExamples.

(* ===================================================================== *)
(** * Sample runs *)
(* ===================================================================== *)

Module Samples.
Import Db Service Examples.

(** The cursor of the comment in cursor.ts: [?cursor=MTAw] is offset 100. *)
Example encodeCursor_100 : Cursor.encodeCursor 100 = "MTAw".
Proof. vm_compute. reflexivity. Qed.

Example decodeCursor_MTAw : Cursor.decodeCursor (Some "MTAw") = 100.
Proof. vm_compute. reflexivity. Qed.

Example decodeCursor_garbage : Cursor.decodeCursor (Some "%%%") = 0.
Proof. vm_compute. reflexivity. Qed.

Example String_of_2_pow_63 : Js.String_of_number (2 ^ 63) = "9223372036854776000".
Proof. vm_compute. reflexivity. Qed.

Example String_of_2_pow_70 : Js.String_of_number (2 ^ 70) = "1.1805916207174113e+21".
Proof. vm_compute. reflexivity. Qed.

Example parseInt_reads_a_prefix : Js.parseInt10 "  -12abc" = Js.Num (-12).
Proof. vm_compute. reflexivity. Qed.

Example parseInt_no_digits : Js.parseInt10 "abc" = Js.NaN.
Proof. vm_compute. reflexivity. Qed.

Example pdf_with_text_operators :
  PdfHeuristics.pdfLikelyHasTextLayer (Js.bytes_of "1 0 obj BT (Hi) Tj ET endobj") = true.
Proof. vm_compute. reflexivity. Qed.

Example pdf_without_marker :
  PdfHeuristics.pdfLikelyHasTextLayer (Js.bytes_of "%PDF-1.4 scanned BTET") = false.
Proof. vm_compute. reflexivity. Qed.

(** The scenario of the specification: [hello] for (a1, s1) is stored as
    parsed; the same call again returns the same id and leaves one row
    and one [created] event. *)
Example hello_once :
  (createSubmission digest (quiet "sub_1") hello start).1
  = Return {| submissionId := "sub_1"; result_status := received;
              result_extractionStatus := parsed; result_ocrRequired := false |}.
Proof. vm_compute. reflexivity. Qed.

Example hello_twice :
  createSubmission digest (quiet "sub_2") hello after_hello
  = (Return {| submissionId := "sub_1"; result_status := received;
               result_extractionStatus := parsed; result_ocrRequired := false |},
     after_hello)
  /\ List.length (submissions (db after_hello)) = 1%nat
  /\ map event_type (submission_events (db after_hello))
     = ["submission.created"; "submission.parsed"].
Proof. repeat split; vm_compute; reflexivity. Qed.

(** An empty upload passes the service's checks and fails on the table's
    [CHECK (size > 0)], after the artifact has been written. *)
Example empty_text_fails_the_size_check :
  (createSubmission digest (quiet "sub_1") (pdf "") start).1
  = Throw (pg_error check_violation).
Proof. vm_compute. reflexivity. Qed.

End Samples.

(* ===================================================================== *)
(** * Facts about the built-ins *)
(* ===================================================================== *)

Module JsFacts.
Import Js.

(** ** Strings and patterns *)

Lemma app_assoc (a b c : string) : (a +:+ b) +:+ c = a +:+ (b +:+ c).
Proof. induction a as [|x a IH]; simpl; [reflexivity | f_equal; exact IH]. Qed.

Lemma app_empty_r (a : string) : a +:+ "" = a.
Proof. induction a as [|x a IH]; simpl; [reflexivity | f_equal; exact IH]. Qed.

Lemma strip_prefix_spec (w s rest : string) :
  strip_prefix w s = Some rest <-> s = w +:+ rest.
Proof.
  revert s. induction w as [|a w IH]; intros s; simpl.
  - split; [intros [= ->]; reflexivity | intros ->; reflexivity].
  - destruct s as [|b s].
    + split; discriminate.
    + destruct (Ascii.eqb_spec a b) as [->|Hne].
      * rewrite IH. split; [intros ->; reflexivity | intros [= ->]; reflexivity].
      * split; [discriminate | intros [= Hab _]; congruence].
Qed.

Lemma run_word (w s : string) (k : string -> bool) :
  run (word w) s k = match strip_prefix w s with Some rest => k rest | None => false end.
Proof.
  revert s. induction w as [|a w IH]; intros s; simpl; [reflexivity|].
  destruct s as [|b s]; [reflexivity|].
  destruct (Ascii.eqb a b); simpl; [apply IH | reflexivity].
Qed.

Lemma run_word_true (w s : string) (k : string -> bool) :
  run (word w) s k = true <-> exists rest, s = w +:+ rest /\ k rest = true.
Proof.
  rewrite run_word. split.
  - destruct (strip_prefix w s) as [rest|] eqn:E; [|discriminate].
    intros Hk. exists rest. split; [now apply strip_prefix_spec | exact Hk].
  - intros (rest & Hs & Hk). apply strip_prefix_spec in Hs. now rewrite Hs.
Qed.

(** The rounds of [[\s\S]+?]: at least one character, then the rest. *)
Lemma rounds_any (step : string -> (string -> bool) -> bool)
    (k : string -> bool) (fuel : nat) (s : string) :
  (forall s0 k0, step s0 k0 = match s0 with
                              | EmptyString => false
                              | String _ s' => k0 s'
                              end) ->
  (String.length s < fuel)%nat ->
  rounds step k fuel s = true
  <-> exists c mid rest, s = String c (mid +:+ rest) /\ k rest = true.
Proof.
  intros Hstep. revert s. induction fuel as [|fuel IH]; intros s Hlen; [lia|].
  cbn [rounds]. rewrite Hstep. destruct s as [|c s].
  - split; [discriminate | intros (c & mid & rest & [=] & _)].
  - simpl in Hlen. rewrite orb_true_iff, IH by lia. split.
    + intros [Hk | (c' & mid & rest & -> & Hk)].
      * exists c, "", s. auto.
      * exists c, (String c' mid), rest. auto.
    + intros (c0 & mid & rest & [= <- ->] & Hk).
      destruct mid as [|c' mid]; [left; exact Hk | right].
      exists c', mid, rest. auto.
Qed.

Lemma run_plus_any (k : string -> bool) (s : string) :
  run (PlusLazy AnyChar) s k = true
  <-> exists mid rest, s = mid +:+ rest /\ mid <> "" /\ k rest = true.
Proof.
  cbn [run]. rewrite rounds_any; [|reflexivity|lia]. split.
  - intros (c & mid & rest & -> & Hk). exists (String c mid), rest. auto.
  - intros (mid & rest & -> & Hne & Hk). destruct mid as [|c mid]; [congruence|].
    exists c, mid, rest. auto.
Qed.

Lemma test_true (r : regex) (s : string) :
  test r s = true
  <-> exists pre rest, s = pre +:+ rest /\ run r rest (fun _ => true) = true.
Proof.
  induction s as [|c s IH]; simpl; rewrite orb_true_iff.
  - split.
    + intros [Hr | ?]; [|discriminate]. exists "", "". auto.
    + intros (pre & rest & Hs & Hr). left.
      destruct pre; [simpl in Hs; subst rest; exact Hr | discriminate].
  - rewrite IH. split.
    + intros [Hr | (pre & rest & -> & Hr)].
      * exists "", (String c s). auto.
      * exists (String c pre), rest. auto.
    + intros (pre & rest & Hs & Hr). destruct pre as [|c' pre]; simpl in Hs.
      * subst rest. left. exact Hr.
      * injection Hs as -> ->. right. exists pre, rest. auto.
Qed.

Lemma test_word (w s : string) :
  test (word w) s = true <-> contains w s.
Proof.
  rewrite test_true. unfold contains. split.
  - intros (pre & rest & -> & Hr). apply run_word_true in Hr as (post & -> & _).
    exists pre, post. reflexivity.
  - intros (pre & post & ->). exists pre, (w +:+ post). split; [reflexivity|].
    apply run_word_true. exists post. auto.
Qed.

End JsFacts.

(* ===================================================================== *)
(** * The PDF marker pattern *)
(* ===================================================================== *)

Module PdfFacts.
Import Js JsFacts PdfHeuristics.

Lemma marker_pattern_spec (s : string) :
  test marker_pattern s = true <-> has_text_marker s.
Proof.
  rewrite test_true. unfold has_text_marker, contains, marker_pattern. split.
  - intros (pre & rest & -> & Hr). cbn [run] in Hr.
    rewrite !orb_true_iff in Hr. destruct Hr as [Hr | [Hr | Hr]].
    + apply run_word_true in Hr as (post & -> & _). left. eauto.
    + apply run_word_true in Hr as (post & -> & _). right; left. eauto.
    + apply run_word_true in Hr as (r1 & -> & Hr).
      apply run_plus_any in Hr as (mid & r2 & -> & Hne & Hr).
      apply run_word_true in Hr as (post & -> & _).
      right; right. exists pre, mid, post. auto.
  - intros [(pre & post & ->) | [(pre & post & ->) | (pre & mid & post & -> & Hne)]].
    + exists pre, ("/Font" +:+ post). split; [reflexivity|].
      cbn [run]. rewrite !orb_true_iff. left.
      apply run_word_true. exists post. auto.
    + exists pre, ("/ToUnicode" +:+ post). split; [reflexivity|].
      cbn [run]. rewrite !orb_true_iff. right; left.
      apply run_word_true. exists post. auto.
    + exists pre, ("BT" +:+ mid +:+ "ET" +:+ post). split; [reflexivity|].
      cbn [run]. rewrite !orb_true_iff. right; right.
      apply run_word_true. exists (mid +:+ "ET" +:+ post). split; [reflexivity|].
      apply run_plus_any. exists mid, ("ET" +:+ post). split; [reflexivity|].
      split; [exact Hne|]. apply run_word_true. exists post. auto.
Qed.

End PdfFacts.

(* ===================================================================== *)
(** * Decimal digits and [parseInt] *)
(* ===================================================================== *)

Module NumberFacts.
Import Js JsFacts.

Lemma digit_of_digit_char (d : Z) : 0 <= d < 10 -> digit_of (digit_char d) = Some d.
Proof.
  intros Hd.
  assert (Hc : d = 0 \/ d = 1 \/ d = 2 \/ d = 3 \/ d = 4 \/ d = 5 \/ d = 6 \/ d = 7
               \/ d = 8 \/ d = 9) by lia.
  repeat (destruct Hc as [-> | Hc]; [reflexivity|]). subst d. reflexivity.
Qed.

Lemma digit_no_space (c : ascii) (d : Z) (s : string) :
  digit_of c = Some d -> strip_one_space (String c s) = None.
Proof.
  destruct c as [[] [] [] [] [] [] [] []]; intros Hd; vm_compute in Hd;
    try discriminate; reflexivity.
Qed.

Lemma digit_no_sign (c : ascii) (d : Z) :
  digit_of c = Some d -> c <> "-"%char /\ c <> "+"%char.
Proof.
  destruct c as [[] [] [] [] [] [] [] []]; intros Hd; vm_compute in Hd;
    try discriminate; split; discriminate.
Qed.

Lemma trim_start_digit (c : ascii) (d : Z) (s : string) :
  digit_of c = Some d -> trim_start (String c s) = String c s.
Proof.
  intros Hd. unfold trim_start. cbn [String.length skip_spaces].
  now rewrite (digit_no_space c d s Hd).
Qed.

(** Reading back what [decimal_loop] prints. *)
Lemma digits_value_loop (fuel : nat) (n : Z) (acc : string) :
  0 <= n < 2 ^ Z.of_nat (S fuel) ->
  digits_value (decimal_loop (S fuel) n acc) None = digits_value acc (Some n).
Proof.
  revert n acc. induction fuel as [|fuel IH]; intros n acc Hn.
  - assert (Hlt : n < 10) by (cbn in Hn; lia).
    cbn [decimal_loop]. apply Z.ltb_lt in Hlt as Hb. rewrite Hb.
    cbn [digits_value]. rewrite Z.mod_small by lia.
    rewrite digit_of_digit_char by lia. cbn [default]. unfold id. do 2 f_equal; lia.
  - remember (S fuel) as f eqn:Ef.
    cbn [decimal_loop]. destruct (Z.ltb_spec n 10) as [Hlt|Hge].
    + cbn [digits_value]. rewrite Z.mod_small by lia.
      rewrite digit_of_digit_char by lia. cbn [default]. unfold id. do 2 f_equal; lia.
    + rewrite IH.
      * cbn [digits_value]. rewrite digit_of_digit_char
          by (apply Z.mod_pos_bound; lia).
        cbn [default]. unfold id. do 2 f_equal. pose proof (Z.div_mod n 10 ltac:(lia)). lia.
      * split; [apply Z.div_pos; lia|].
        rewrite Nat2Z.inj_succ, Z.pow_succ_r in Hn by lia.
        apply Z.div_lt_upper_bound; lia.
Qed.

Lemma log2_fuel (n : Z) : 0 <= n -> n < 2 ^ Z.of_nat (S (Z.to_nat (Z.log2 n))).
Proof.
  intros Hn. rewrite Nat2Z.inj_succ, Z2Nat.id by apply Z.log2_nonneg.
  destruct (Z.eq_dec n 0) as [->|Hne]; [reflexivity|].
  apply Z.log2_spec. lia.
Qed.

Lemma decimal_loop_head (fuel : nat) (n : Z) (acc : string) :
  0 <= n ->
  exists d rest, decimal_loop (S fuel) n acc = String (digit_char d) rest /\ 0 <= d < 10.
Proof.
  revert n acc. induction fuel as [|fuel IH]; intros n acc Hn.
  - cbn [decimal_loop]. exists (n mod 10).
    destruct (n <? 10); eexists; (split; [reflexivity | apply Z.mod_pos_bound; lia]).
  - remember (S fuel) as f. cbn [decimal_loop]. destruct (n <? 10).
    + exists (n mod 10). eexists. split; [reflexivity | apply Z.mod_pos_bound; lia].
    + subst f. apply IH. apply Z.div_pos; lia.
Qed.

Lemma digits_value_decimal (n : Z) : 0 <= n -> digits_value (decimal n) None = Some n.
Proof.
  intros Hn. unfold decimal. rewrite digits_value_loop by (split; [lia | apply log2_fuel; lia]).
  reflexivity.
Qed.

Lemma parseInt10_decimal (n : Z) : 0 <= n -> parseInt10 (decimal n) = to_number n.
Proof.
  intros Hn. unfold parseInt10.
  destruct (decimal_loop_head (Z.to_nat (Z.log2 n)) n "" Hn) as (d & rest & Hs & Hd).
  fold (decimal n) in Hs. pose proof (digits_value_decimal n Hn) as Hv.
  rewrite Hs in *. pose proof (digit_of_digit_char d Hd) as Hdig.
  rewrite (trim_start_digit _ d rest Hdig).
  destruct (digit_no_sign _ _ Hdig) as [Hm Hp].
  destruct (digit_char d) as [b0 b1 b2 b3 b4 b5 b6 b7] eqn:Ec.
  destruct b0, b1, b2, b3, b4, b5, b6, b7;
    try (exfalso; apply Hm; reflexivity); try (exfalso; apply Hp; reflexivity);
    cbv beta iota; rewrite Hv; reflexivity.
Qed.

End NumberFacts.

(* ===================================================================== *)
(** * Buffers and base64url *)
(* ===================================================================== *)

Module BufferFacts.
Import Js JsFacts.

Lemma latin1_bytes_of (s : string) : latin1 (bytes_of s) = s.
Proof.
  induction s as [|c s IH]; cbn; [reflexivity|].
  now rewrite ascii_of_byte_of_ascii, IH.
Qed.

Lemma bytes_of_latin1 (l : list byte) : bytes_of (latin1 l) = l.
Proof.
  induction l as [|b l IH]; cbn; [reflexivity|].
  now rewrite byte_of_ascii_of_byte, IH.
Qed.

Lemma Z_of_byte_range (b : byte) : 0 <= Z_of_byte b < 256.
Proof.
  unfold Z_of_byte. pose proof (Byte.to_N_bounded b). lia.
Qed.

Lemma byte_of_Z_of_byte (b : byte) : byte_of_Z (Z_of_byte b) = b.
Proof.
  unfold byte_of_Z, Z_of_byte. rewrite N2Z.id, <- ascii_of_byte_via_N.
  apply byte_of_ascii_of_byte.
Qed.

Lemma sextet_table :
  forallb (fun v => match unbase64 (sextet_char v) with
                    | Some w => (w =? v) && negb (Ascii.eqb (sextet_char v) "=")
                    | None => false
                    end) (map Z.of_nat (seq 0 64)) = true.
Proof. vm_compute. reflexivity. Qed.

Lemma unbase64_sextet_char (v : Z) :
  0 <= v < 64 ->
  unbase64 (sextet_char v) = Some v /\ Ascii.eqb (sextet_char v) "=" = false.
Proof.
  intros Hv. pose proof sextet_table as Ht.
  rewrite forallb_forall in Ht. specialize (Ht v).
  assert (Hin : In v (map Z.of_nat (seq 0 64))).
  { apply in_map_iff. exists (Z.to_nat v). split; [lia|]. apply in_seq. lia. }
  specialize (Ht Hin). destruct (unbase64 (sextet_char v)) as [w|]; [|discriminate].
  apply andb_true_iff in Ht as [Hw Hne]. apply Z.eqb_eq in Hw. subst w.
  split; [reflexivity|]. now apply negb_true_iff.
Qed.

Lemma sextets_cons (v : Z) (rest : string) :
  0 <= v < 64 -> sextets (String (sextet_char v) rest) = v :: sextets rest.
Proof.
  intros Hv. destruct (unbase64_sextet_char v Hv) as [Hu Hne].
  cbn [sextets]. now rewrite Hne, Hu.
Qed.

Lemma regroup (x y z : Z) :
  0 <= x < 256 -> 0 <= y < 256 -> 0 <= z < 256 ->
  let a := x / 4 in
  let b := x mod 4 * 16 + y / 16 in
  let c := y mod 16 * 4 + z / 64 in
  let d := z mod 64 in
  (0 <= a < 64 /\ 0 <= b < 64 /\ 0 <= c < 64 /\ 0 <= d < 64)
  /\ a * 4 + b / 16 = x
  /\ b mod 16 * 16 + c / 4 = y
  /\ c mod 4 * 64 + d = z.
Proof.
  intros Hx Hy Hz a b c d. subst a b c d.
  repeat split; Z.div_mod_to_equations; lia.
Qed.

Lemma base64url_round_trip (buf : list byte) :
  base64url_decode (base64url_encode buf) = buf.
Proof.
  unfold base64url_decode.
  assert (Hgen : forall n (l : list byte), (List.length l <= n)%nat ->
                   bytes_of_sextets (sextets (base64url_encode l)) = l).
  2:{ apply (Hgen (List.length buf)). lia. }
  induction n as [n IH] using (well_founded_induction lt_wf).
  intros [|b1 [|b2 [|b3 rest]]] Hlen; [reflexivity| | |].
  - pose proof (Z_of_byte_range b1) as H1.
    destruct (regroup (Z_of_byte b1) 0 0 H1) as ((Ha & Hb & _) & Hx & _); [lia..|].
    cbn [base64url_encode].
    replace (Z_of_byte b1 mod 4 * 16) with (Z_of_byte b1 mod 4 * 16 + 0 / 16)
      by (change (0 / 16) with 0; lia).
    rewrite !sextets_cons by assumption. cbn [sextets bytes_of_sextets].
    rewrite Hx, byte_of_Z_of_byte. reflexivity.
  - pose proof (Z_of_byte_range b1) as H1. pose proof (Z_of_byte_range b2) as H2.
    destruct (regroup (Z_of_byte b1) (Z_of_byte b2) 0 H1 H2)
      as ((Ha & Hb & Hc & _) & Hx & Hy & _); [lia|].
    cbn [base64url_encode].
    replace (Z_of_byte b2 mod 16 * 4) with (Z_of_byte b2 mod 16 * 4 + 0 / 64)
      by (change (0 / 64) with 0; lia).
    rewrite !sextets_cons by assumption. cbn [sextets bytes_of_sextets].
    rewrite Hx, Hy, !byte_of_Z_of_byte. reflexivity.
  - pose proof (Z_of_byte_range b1) as H1. pose proof (Z_of_byte_range b2) as H2.
    pose proof (Z_of_byte_range b3) as H3.
    destruct (regroup (Z_of_byte b1) (Z_of_byte b2) (Z_of_byte b3) H1 H2 H3)
      as ((Ha & Hb & Hc & Hd) & Hx & Hy & Hz).
    cbn [base64url_encode]. rewrite !sextets_cons by assumption.
    cbn [bytes_of_sextets]. rewrite Hx, Hy, Hz, !byte_of_Z_of_byte.
    do 3 f_equal. apply (IH (List.length rest)); cbn in Hlen; lia.
Qed.

Lemma utf8_round_trip (s : string) :
  utf8_text (base64url_decode (base64url_encode (utf8_bytes s))) = s.
Proof.
  unfold utf8_text, utf8_bytes. now rewrite base64url_round_trip, latin1_bytes_of.
Qed.

End BufferFacts.

(* ===================================================================== *)
(** * [String(n)] reads back *)
(* ===================================================================== *)

Module PrintFacts.
Import Js JsFacts NumberFacts BufferFacts.

Lemma round53_safe (n : Z) : 0 <= n < 2 ^ 53 -> round53 n = n.
Proof.
  intros Hn. unfold round53.
  destruct (Z.eq_dec n 0) as [->|Hne]; [reflexivity|].
  assert (Z.log2 n < 53) by (apply Z.log2_lt_pow2; lia).
  destruct (Z.leb_spec (Z.log2 n - 52) 0); [reflexivity | lia].
Qed.

Lemma shortest_at_spec (x j v : Z) :
  0 <= x -> 0 <= j -> shortest_at x j = Some v ->
  round53 v = x /\ 0 <= v <= (x / 10 ^ j + 1) * 10 ^ j.
Proof.
  intros Hx Hj. unfold shortest_at.
  assert (Hp : 0 < 10 ^ j) by (apply Z.pow_pos_nonneg; lia).
  assert (Hq : 0 <= x / 10 ^ j) by (apply Z.div_pos; lia).
  destruct (Z.eqb_spec (round53 (x / 10 ^ j * 10 ^ j)) x) as [Hlo|Hlo];
    destruct (Z.eqb_spec (round53 (x / 10 ^ j * 10 ^ j + 10 ^ j)) x) as [Hhi|Hhi];
    intros [= <-]; repeat match goal with |- context [if ?b then _ else _] => destruct b end;
    (split; [assumption | nia]).
Qed.

Lemma shortest_from_spec (x : Z) (k j : nat) :
  0 <= x -> round53 x = x -> x < 10 ^ Z.of_nat (S k) -> (j <= k)%nat ->
  round53 (shortest_from x j) = x /\ 0 <= shortest_from x j <= 10 ^ Z.of_nat (S k).
Proof.
  intros Hx Hr Hlt. induction j as [|j IH]; intros Hj.
  - cbn [shortest_from]. destruct (shortest_at x (Z.of_nat 0)) as [v|] eqn:E.
    + apply shortest_at_spec in E as [Hv Hb]; [|lia..]. split; [exact Hv|].
      cbn in Hb. rewrite Z.div_1_r in Hb. lia.
    + split; [exact Hr | lia].
  - cbn [shortest_from]. destruct (shortest_at x (Z.of_nat (S j))) as [v|] eqn:E.
    + apply shortest_at_spec in E as [Hv Hb]; [|lia..]. split; [exact Hv|].
      split; [lia|]. eapply Z.le_trans; [apply Hb|].
      set (p := 10 ^ Z.of_nat (S j)) in *.
      assert (Hp : 0 < p) by (apply Z.pow_pos_nonneg; lia).
      assert (Hsplit : 10 ^ Z.of_nat (S k) = 10 ^ (Z.of_nat (S k) - Z.of_nat (S j)) * p).
      { unfold p. rewrite <- Z.pow_add_r by lia. f_equal. lia. }
      rewrite Hsplit in *. apply Z.mul_le_mono_nonneg_r; [lia|].
      assert (x / p < 10 ^ (Z.of_nat (S k) - Z.of_nat (S j))); [|lia].
      apply Z.div_lt_upper_bound; lia.
    + apply IH. lia.
Qed.

(** The number of digits that [decimal_loop] prints. *)
Lemma decimal_loop_length (fuel : nat) (n : Z) (acc : string) :
  0 <= n < 2 ^ Z.of_nat (S fuel) ->
  exists k : nat,
    String.length (decimal_loop (S fuel) n acc) = (S k + String.length acc)%nat
    /\ n < 10 ^ Z.of_nat (S k)
    /\ (k <> O -> 10 ^ Z.of_nat k <= n).
Proof.
  revert n acc. induction fuel as [|fuel IH]; intros n acc Hn.
  - assert (Hlt : n < 10) by (cbn in Hn; lia).
    cbn [decimal_loop]. apply Z.ltb_lt in Hlt as Hb. rewrite Hb.
    exists O. cbn. repeat split; [lia | congruence].
  - remember (S fuel) as f eqn:Ef.
    cbn [decimal_loop]. destruct (Z.ltb_spec n 10) as [Hlt|Hge].
    + exists O. cbn. repeat split; [lia | congruence].
    + destruct (IH (n / 10) (String (digit_char (n mod 10)) acc)) as (k & Hk & Hub & Hlb).
      * split; [apply Z.div_pos; lia|].
        rewrite Nat2Z.inj_succ, Z.pow_succ_r in Hn by lia.
        apply Z.div_lt_upper_bound; lia.
      * exists (S k). cbn [String.length] in Hk. split; [lia|].
        pose proof (Z.div_mod n 10 ltac:(lia)) as Hdm.
        pose proof (Z.mod_pos_bound n 10 ltac:(lia)) as Hm.
        split.
        -- rewrite (Nat2Z.inj_succ (S k)), Z.pow_succ_r by lia. lia.
        -- intros _. rewrite Nat2Z.inj_succ, Z.pow_succ_r by lia.
           destruct k as [|k]; [cbn; lia|]. specialize (Hlb ltac:(congruence)). lia.
Qed.

Lemma shortest_decimal_spec (x : Z) :
  0 <= x < 10 ^ 21 -> round53 x = x ->
  round53 (shortest_decimal x) = x /\ 0 <= shortest_decimal x < 10 ^ 21.
Proof.
  intros Hx Hr. unfold shortest_decimal, decimal.
  destruct (decimal_loop_length (Z.to_nat (Z.log2 x)) x "") as (k & Hk & Hub & Hlb).
  { split; [lia | apply log2_fuel; lia]. }
  rewrite Hk. cbn [String.length Nat.add Nat.pred]. rewrite Nat.add_0_r.
  destruct (shortest_from_spec x k k) as [Hv Hb]; [lia | assumption.. | lia |].
  split; [exact Hv|]. split; [lia|].
  assert (Hk21 : (S k <= 21)%nat).
  { destruct (Nat.le_gt_cases (S k) 21) as [|Hgt]; [assumption|].
    assert (10 ^ 21 <= 10 ^ Z.of_nat k) by (apply Z.pow_le_mono_r; lia).
    specialize (Hlb ltac:(lia)). lia. }
  assert (10 ^ Z.of_nat (S k) <= 10 ^ 21) by (apply Z.pow_le_mono_r; lia).
  destruct (Z.eq_dec (shortest_from x k) (10 ^ 21)) as [Heq|Hne]; [|lia].
  rewrite Heq in Hv. vm_compute in Hv. lia.
Qed.

Lemma String_of_number_reads_back (x : Z) :
  0 <= x < 10 ^ 21 -> round53 x = x ->
  parseInt10 (String_of_number x) = Num x.
Proof.
  intros Hx Hr. destruct (shortest_decimal_spec x Hx Hr) as [Hv Hb].
  unfold String_of_number.
  destruct (Z.ltb_spec (shortest_decimal x) (10 ^ 21)); [|lia].
  rewrite parseInt10_decimal by lia. unfold to_number.
  assert (Hov : 10 ^ 21 < OVERFLOW) by (vm_compute; reflexivity).
  rewrite Z.abs_eq by lia.
  destruct (Z.leb_spec OVERFLOW (shortest_decimal x)); [lia|].
  rewrite Hv. f_equal.
  destruct (Z.eq_dec (shortest_decimal x) 0) as [Hz|Hz].
  - rewrite Hz in Hv. cbn in Hv. subst x. now rewrite Hz.
  - rewrite Z.sgn_pos by lia. lia.
Qed.

Lemma String_of_number_not_empty (x : Z) :
  0 <= x < 10 ^ 21 -> round53 x = x -> String_of_number x <> "".
Proof.
  intros Hx Hr Hs. pose proof (String_of_number_reads_back x Hx Hr) as Hp.
  rewrite Hs in Hp. discriminate.
Qed.

End PrintFacts.

Module CursorFacts.
Import Js JsFacts NumberFacts BufferFacts PrintFacts Cursor.

Lemma decode_encode (n : Z) :
  0 <= n < 10 ^ 21 -> round53 n = n -> decodeCursor (Some (encodeCursor n)) = n.
Proof.
  intros Hn Hr. unfold decodeCursor.
  pose proof (utf8_round_trip (String_of_number n)) as Hrt.
  fold (encodeCursor n) in Hrt.
  destruct (encodeCursor n) as [|c s] eqn:E.
  - cbn in Hrt. symmetry in Hrt. now apply String_of_number_not_empty in Hrt.
  - rewrite Hrt, String_of_number_reads_back by assumption.
    cbn [isFinite ge0 andb]. destruct (Z.leb_spec 0 n); [reflexivity | lia].
Qed.

Lemma ten_to_21 :
  is_natural_number (10 ^ 21)
  /\ String_of_number (10 ^ 21) = "1e+21"
  /\ encodeCursor (10 ^ 21) = "MWUrMjE"
  /\ decodeCursor (Some (encodeCursor (10 ^ 21))) = 1.
Proof. repeat split; vm_compute; try reflexivity; congruence. Qed.

End CursorFacts.

(* ===================================================================== *)
(** * The paths of [createSubmission] *)
(* ===================================================================== *)

Module ServiceFacts.
Import Db Service.

Lemma select_by_triple_Some (d : Database) (a s h : string) (hit : SubmissionRow) :
  select_by_triple d a s h = Some hit ->
  hit ∈ submissions d /\ same_triple a s h hit = true.
Proof.
  unfold select_by_triple. intros Hh. apply head_Some_elem_of in Hh.
  apply list_elem_of_In, filter_In in Hh as [Hin Ht]. split; [|exact Ht].
  now apply list_elem_of_In.
Qed.

Lemma select_by_triple_finds (d : Database) (a s h : string) (row : SubmissionRow) :
  row ∈ submissions d -> same_triple a s h row = true ->
  exists hit, select_by_triple d a s h = Some hit.
Proof.
  intros Hin Ht. unfold select_by_triple.
  destruct (List.filter (same_triple a s h) (submissions d)) as [|x l] eqn:E.
  - assert (Hx : In row (List.filter (same_triple a s h) (submissions d))).
    { apply filter_In. split; [now apply list_elem_of_In | exact Ht]. }
    rewrite E in Hx. destruct Hx.
  - exists x. reflexivity.
Qed.

Lemma select_by_triple_None (d : Database) (a s h : string) :
  select_by_triple d a s h = None ->
  existsb (same_triple a s h) (submissions d) = false.
Proof.
  unfold select_by_triple. intros Hn.
  destruct (existsb (same_triple a s h) (submissions d)) eqn:E; [|reflexivity].
  apply existsb_exists in E as (x & Hin & Hx).
  assert (Hf : In x (List.filter (same_triple a s h) (submissions d))).
  { apply filter_In. auto. }
  destruct (List.filter (same_triple a s h) (submissions d)); [destruct Hf | discriminate].
Qed.

Lemma insert_submission_inr (d d' : Database) (r : SubmissionRow) :
  insert_submission d r = inr d' ->
  d' = {| submissions := submissions d ++ [r];
          submission_events := submission_events d;
          cache := cache d |}.
Proof.
  unfold insert_submission.
  destruct (negb (size_check r)); [discriminate|].
  destruct (primary_key_taken d r || triplet_taken d r); [discriminate|].
  now intros [= <-].
Qed.

Lemma insert_event_ok (d : Database) (e : EventRow) :
  event_type e ∈ event_type_check ->
  existsb (fun r => bool_decide (submission_id r = event_submission_id e)) (submissions d)
    = true ->
  insert_event d e = inr {| submissions := submissions d;
                            submission_events := submission_events d ++ [e];
                            cache := cache d |}.
Proof.
  intros Ht Hfk. unfold insert_event.
  rewrite bool_decide_eq_true_2 by exact Ht. rewrite Hfk. reflexivity.
Qed.

Lemma existsb_last (r : SubmissionRow) (l : list SubmissionRow) :
  existsb (fun r' => bool_decide (submission_id r' = submission_id r)) (l ++ [r]) = true.
Proof.
  rewrite existsb_app. cbn. rewrite bool_decide_eq_true_2 by reflexivity.
  now rewrite orb_true_r.
Qed.

Section WithProvider.
Context {Store : Type} `{StorageProvider Store}.
Variable sha256_hex : list byte -> string.

Ltac step :=
  unfold createSubmission, mbind, M_bind, mret, M_ret, throw, try_catch,
    query_by_triple, storage_saveOriginal, yield, query_insert_submission,
    query_insert_event, cacheDelByPrefix, log; cbn [db store journal].

Lemma create_too_large (env : Env) (opts : CreateOpts) (m : Machine Store) :
  MAX_BYTES < Js.buf_length (buf opts) ->
  createSubmission sha256_hex env opts m = (Throw too_large, m).
Proof.
  intros Hlen. unfold createSubmission.
  destruct (Z.ltb_spec MAX_BYTES (Js.buf_length (buf opts))); [reflexivity | lia].
Qed.

Lemma create_hit (env : Env) (opts : CreateOpts) (m : Machine Store) (hit : SubmissionRow) :
  Js.buf_length (buf opts) <= MAX_BYTES ->
  select_by_triple (db m) (assignmentId opts) (studentId opts) (sha256_hex (buf opts))
    = Some hit ->
  createSubmission sha256_hex env opts m = (Return (hit_result hit), m).
Proof.
  intros Hlen Hsel. unfold createSubmission.
  destruct (Z.ltb_spec MAX_BYTES (Js.buf_length (buf opts))); [lia|].
  step. rewrite Hsel. reflexivity.
Qed.

Lemma create_storage_fails (env : Env) (opts : CreateOpts) (m : Machine Store)
    (e : Exn) (store' : Store) :
  Js.buf_length (buf opts) <= MAX_BYTES ->
  select_by_triple (db m) (assignmentId opts) (studentId opts) (sha256_hex (buf opts))
    = None ->
  saveOriginal (save_args env opts) (store m) = (Throw e, store') ->
  createSubmission sha256_hex env opts m
  = (Throw e, {| db := db m; store := store';
                 journal := journal m ++ [CallSaveOriginal (save_args env opts)] |}).
Proof.
  intros Hlen Hsel Hsave. unfold createSubmission.
  destruct (Z.ltb_spec MAX_BYTES (Js.buf_length (buf opts))); [lia|].
  step. rewrite Hsel. fold (save_args env opts). rewrite Hsave. reflexivity.
Qed.

Lemma create_insert_fails (env : Env) (opts : CreateOpts) (m : Machine Store)
    (saved : SavedObject) (store' : Store) (sqlstate : string) :
  Js.buf_length (buf opts) <= MAX_BYTES ->
  select_by_triple (db m) (assignmentId opts) (studentId opts) (sha256_hex (buf opts))
    = None ->
  saveOriginal (save_args env opts) (store m) = (Return saved, store') ->
  insert_submission (meanwhile env (db m)) (the_row sha256_hex env opts saved) = inl sqlstate ->
  createSubmission sha256_hex env opts m
  = (match select_by_triple (meanwhile env (db m)) (assignmentId opts) (studentId opts)
             (sha256_hex (buf opts)) with
     | Some winner =>
         if bool_decide (sqlstate = unique_violation)
         then Return (hit_result winner) else Throw (pg_error sqlstate)
     | None => Throw (pg_error sqlstate)
     end,
     {| db := meanwhile env (db m); store := store';
        journal := journal m ++ [CallSaveOriginal (save_args env opts);
                                 CallInsertSubmission (the_row sha256_hex env opts saved)] |}).
Proof.
  intros Hlen Hsel Hsave Hins. unfold createSubmission.
  destruct (Z.ltb_spec MAX_BYTES (Js.buf_length (buf opts))); [lia|].
  step. rewrite Hsel. fold (save_args env opts). rewrite Hsave. cbn [db store journal].
  fold (the_row sha256_hex env opts saved). rewrite Hins. cbn [exn_code pg_error].
  rewrite <- app_assoc. cbn [app].
  unfold unique_violation.
  destruct (bool_decide (sqlstate = "23505")) eqn:E.
  - apply bool_decide_eq_true in E. subst sqlstate.
    rewrite bool_decide_eq_true_2 by reflexivity. cbn [db].
    destruct (select_by_triple (meanwhile env (db m)) _ _ _); reflexivity.
  - apply bool_decide_eq_false in E.
    rewrite bool_decide_eq_false_2 by congruence.
    destruct (select_by_triple (meanwhile env (db m)) _ _ _); reflexivity.
Qed.

Lemma create_stored (env : Env) (opts : CreateOpts) (m : Machine Store)
    (saved : SavedObject) (store' : Store) (d' : Database) :
  Js.buf_length (buf opts) <= MAX_BYTES ->
  select_by_triple (db m) (assignmentId opts) (studentId opts) (sha256_hex (buf opts))
    = None ->
  saveOriginal (save_args env opts) (store m) = (Return saved, store') ->
  insert_submission (meanwhile env (db m)) (the_row sha256_hex env opts saved) = inr d' ->
  createSubmission sha256_hex env opts m
  = (Return {| submissionId := candidateId env;
               result_status := received;
               result_extractionStatus :=
                 extractionStatus (decideExtraction (opt_mime opts) (buf opts));
               result_ocrRequired :=
                 ocrRequired (decideExtraction (opt_mime opts) (buf opts)) |},
     {| db := stored sha256_hex env opts saved (meanwhile env (db m));
        store := store';
        journal :=
          journal m
          ++ [CallSaveOriginal (save_args env opts);
              CallInsertSubmission (the_row sha256_hex env opts saved);
              CallInsertEvent (created_event opts (candidateId env) saved);
              CallCacheDelByPrefix "courses:v1:"]
          ++ map CallInsertEvent
               (follow_up opts (candidateId env)
                  (decideExtraction (opt_mime opts) (buf opts))) |}).
Proof.
  intros Hlen Hsel Hsave Hins. unfold createSubmission.
  destruct (Z.ltb_spec MAX_BYTES (Js.buf_length (buf opts))); [lia|].
  step. rewrite Hsel. fold (save_args env opts). rewrite Hsave. cbn [db store journal].
  fold (the_row sha256_hex env opts saved). rewrite Hins. cbn [db store journal].
  apply insert_submission_inr in Hins. subst d'.
  set (row := the_row sha256_hex env opts saved).
  set (d := decideExtraction (opt_mime opts) (buf opts)).
  set (created := created_event opts (candidateId env) saved).
  rewrite (insert_event_ok _ created);
    [| cbn; set_solver | cbn [submissions]; apply (existsb_last row)].
  cbn [db store journal delete_cache_by_prefix submissions submission_events cache].
  unfold stored, follow_up. fold row d created.
  destruct (bool_decide (extractionStatus d = parsed)).
  - rewrite insert_event_ok;
      [| cbn; set_solver | cbn [submissions]; apply (existsb_last row)].
    cbn [db store journal submissions submission_events cache map].
    rewrite <- !app_assoc. reflexivity.
  - destruct (ocrRequired d).
    + rewrite insert_event_ok;
        [| cbn; set_solver | cbn [submissions]; apply (existsb_last row)].
      cbn [db store journal submissions submission_events cache map].
      rewrite <- !app_assoc. reflexivity.
    + cbn [db store journal submissions submission_events cache map].
      rewrite <- !app_assoc, app_nil_r. reflexivity.
Qed.

End WithProvider.
End ServiceFacts.
(* ===================================================================== *)
(** * The content classifier *)
(* ===================================================================== *)

Module ClassifierClaims.
Import Db Service ServiceFacts Examples PdfHeuristics PdfFacts.

(** C4.  [decideExtraction] is a function of the mime type and the bytes
    alone.  For every buffer: [text/plain] gives [parsed], no OCR and the
    stub text; [image/jpeg] and [image/png] give [pending_ocr], OCR and no
    text; a mime type that is none of the two image types, PDF, DOCX and
    [text/plain] gives [pending_ocr], OCR and no text. *)
Theorem decideExtraction_policy (bytes : list byte) :
  decideExtraction "text/plain" bytes
  = {| ocrRequired := false; extractionStatus := parsed;
       extractedText := Some "[stub] Extracted text from document" |}
  /\ decideExtraction "image/jpeg" bytes
     = {| ocrRequired := true; extractionStatus := pending_ocr; extractedText := None |}
  /\ decideExtraction "image/png" bytes
     = {| ocrRequired := true; extractionStatus := pending_ocr; extractedText := None |}
  /\ forall mime : string,
       mime ∉ ["image/jpeg"; "image/png"; "application/pdf"; DOCX; "text/plain"] ->
       decideExtraction mime bytes
       = {| ocrRequired := true; extractionStatus := pending_ocr; extractedText := None |}.
Proof.
  repeat split.
  intros mime Hm. unfold decideExtraction.
  repeat match goal with
         | |- context [bool_decide (mime = ?x)] =>
             rewrite (bool_decide_eq_false_2 (mime = x))
               by (intros ->; apply Hm; repeat constructor)
         end.
  reflexivity.
Qed.

Lemma decideExtraction_policy_witness :
  decideExtraction "application/zip" []
  = {| ocrRequired := true; extractionStatus := pending_ocr; extractedText := None |}.
Proof.
  apply (proj2 (proj2 (proj2 (decideExtraction_policy [])))).
  intros Hin. repeat (apply elem_of_cons in Hin as [Hin|Hin]; [discriminate|]).
  inversion Hin.
Defined.

Lemma decideExtraction_pdf (bytes : list byte) :
  decideExtraction "application/pdf" bytes
  = if pdfLikelyHasTextLayer bytes
    then {| ocrRequired := false; extractionStatus := parsed;
            extractedText := Some "[stub] Extracted text from PDF" |}
    else {| ocrRequired := true; extractionStatus := pending_ocr; extractedText := None |}.
Proof. reflexivity. Qed.

Section WithProvider.
Context {Store : Type} `{StorageProvider Store}.
Variable sha256_hex : list byte -> string.

(** C5.  [pdfLikelyHasTextLayer] looks at the first
    [min(length, 2 * 1024 * 1024)] bytes only, and is true exactly when
    they contain [/Font], [/ToUnicode], or a [BT] followed, after at least
    one character, by an [ET].  For [application/pdf] a true answer
    classifies as [parsed] with the placeholder text and no OCR, a false
    one as [pending_ocr] with OCR; a call of [createSubmission] that
    stores the upload returns that classification and stores it in the
    row. *)
Theorem pdf_text_layer_classification (bytes : list byte) :
  let head := take (Z.to_nat (Z.min (Js.buf_length bytes) (2 * 1024 * 1024))) bytes in
  let text := pdfLikelyHasTextLayer bytes in
  (text = true <-> has_text_marker (Js.latin1 head))
  /\ decideExtraction "application/pdf" bytes
     = (if text
        then {| ocrRequired := false; extractionStatus := parsed;
                extractedText := Some "[stub] Extracted text from PDF" |}
        else {| ocrRequired := true; extractionStatus := pending_ocr;
                extractedText := None |})
  /\ forall (env : Env) (opts : CreateOpts) (m : Machine Store) saved store' d',
       buf opts = bytes ->
       opt_mime opts = "application/pdf" ->
       Js.buf_length bytes <= MAX_BYTES ->
       select_by_triple (db m) (assignmentId opts) (studentId opts) (sha256_hex bytes)
         = None ->
       saveOriginal (save_args env opts) (store m) = (Return saved, store') ->
       insert_submission (meanwhile env (db m)) (the_row sha256_hex env opts saved)
         = inr d' ->
       exists m' row,
         createSubmission sha256_hex env opts m
         = (Return {| submissionId := candidateId env;
                      result_status := received;
                      result_extractionStatus := if text then parsed else pending_ocr;
                      result_ocrRequired := negb text |}, m')
         /\ last (submissions (db m')) = Some row
         /\ submission_id row = candidateId env
         /\ extraction_status row = (if text then parsed else pending_ocr)
         /\ ocr_required row = negb text
         /\ extracted_text row
            = (if text then Some "[stub] Extracted text from PDF" else None).
Proof.
  intros head text. split; [|split].
  - apply marker_pattern_spec.
  - apply decideExtraction_pdf.
  - intros env opts m saved store' d' Hbuf Hmime Hlen Hsel Hsave Hins.
    rewrite <- Hbuf in Hlen, Hsel.
    rewrite (create_stored sha256_hex env opts m saved store' d' Hlen Hsel Hsave Hins).
    unfold stored, the_row, new_row. rewrite Hmime, Hbuf, decideExtraction_pdf.
    subst text. destruct (pdfLikelyHasTextLayer bytes);
      eexists _, _; (split; [reflexivity|]); cbn [db submissions];
      (split; [apply last_snoc|]); cbn; auto.
Qed.

End WithProvider.

Lemma pdf_text_layer_classification_witness :
  exists m' row,
    createSubmission digest (quiet "sub_1") (pdf "%PDF-1.4 /Font") start
    = (Return {| submissionId := "sub_1"; result_status := received;
                 result_extractionStatus := parsed; result_ocrRequired := false |}, m')
    /\ last (submissions (db m')) = Some row
    /\ extraction_status row = parsed
    /\ extracted_text row = Some "[stub] Extracted text from PDF".
Proof.
  destruct (pdf_text_layer_classification digest (Js.bytes_of "%PDF-1.4 /Font"))
    as (_ & _ & Hrun).
  edestruct (Hrun (quiet "sub_1") (pdf "%PDF-1.4 /Font") start)
    as (m' & row & Hcall & Hlast & _ & Hst & _ & Htxt).
  - reflexivity.
  - reflexivity.
  - vm_compute. discriminate.
  - reflexivity.
  - reflexivity.
  - vm_compute. reflexivity.
  - exists m', row. auto.
Defined.

End ClassifierClaims.

(* ===================================================================== *)
(** * The submission service *)
(* ===================================================================== *)

Module ServiceClaims.
Import Db Service ServiceFacts Examples.

Lemma events_of_app (a b : list Call) : events_of (a ++ b) = events_of a ++ events_of b.
Proof. apply omap_app. Qed.

Lemma events_of_events (l : list EventRow) : events_of (map CallInsertEvent l) = l.
Proof. induction l as [|e l IH]; cbn; [reflexivity | f_equal; exact IH]. Qed.

Lemma follow_up_types (opts : CreateOpts) (id : string) (d : Extraction) :
  Forall (fun e => (event_type e = "submission.parsed"
                    \/ event_type e = "submission.ocr_pending")
                   /\ event_submission_id e = id) (follow_up opts id d).
Proof.
  unfold follow_up. destruct (bool_decide _); [|destruct (ocrRequired d)];
    [constructor; [cbn; auto | constructor] .. | constructor].
Qed.

Lemma zeros_length (n : Z) : 0 <= n -> Js.buf_length (buf (zeros n)) = n.
Proof.
  intros Hn. unfold Js.buf_length, zeros. cbn [buf].
  rewrite length_replicate. lia.
Qed.

Section WithProvider.
Context {Store : Type} `{StorageProvider Store}.
Variable sha256_hex : list byte -> string.

(** C1.  When a call passes the size check and a row with the same
    (assignmentId, studentId, sha256 of the bytes) exists, the call returns
    the id, extraction status and OCR flag of such a row (the oldest one;
    the one row when the triple is unique) with status [received], and
    leaves the machine as it was: the database (no event, no cache row
    gone), the artifact store, and the journal (no call that could change
    either was issued). *)
Theorem createSubmission_idempotent_hit
    (env : Env) (opts : CreateOpts) (m : Machine Store) (row : SubmissionRow) :
  Js.buf_length (buf opts) <= MAX_BYTES ->
  row ∈ submissions (db m) ->
  same_triple (assignmentId opts) (studentId opts) (sha256_hex (buf opts)) row = true ->
  exists hit : SubmissionRow,
    select_by_triple (db m) (assignmentId opts) (studentId opts) (sha256_hex (buf opts))
      = Some hit
    /\ hit ∈ submissions (db m)
    /\ same_triple (assignmentId opts) (studentId opts) (sha256_hex (buf opts)) hit = true
    /\ ((forall r, r ∈ submissions (db m) ->
           same_triple (assignmentId opts) (studentId opts) (sha256_hex (buf opts)) r = true ->
           r = row) -> hit = row)
    /\ createSubmission sha256_hex env opts m
       = (Return {| submissionId := submission_id hit;
                    result_status := received;
                    result_extractionStatus := extraction_status hit;
                    result_ocrRequired := ocr_required hit |}, m).
Proof.
  intros Hlen Hin Hsame.
  destruct (select_by_triple_finds _ _ _ _ _ Hin Hsame) as [hit Hsel].
  destruct (select_by_triple_Some _ _ _ _ _ Hsel) as [Hhit Ht].
  exists hit. repeat split; try assumption.
  - intros Huniq. now apply Huniq.
  - now apply create_hit.
Qed.

(** C2, as the code has it.  When the [INSERT] of a call fails with
    SQLSTATE 23505, the service looks the triple up again in the database
    that the [INSERT] met.  If that finds a row, the call returns the id,
    extraction status and OCR flag of that row with status [received]; if
    it finds none, the 23505 error is thrown again.  In both cases nothing
    but the artifact write and the failed [INSERT] has been issued.  A
    conflict on the triple is always recovered: the second look-up then
    finds a row.  It finds none only when no row has the triple, and the
    conflict was then on the primary key. *)
Theorem createSubmission_conflict_defers_to_winner
    (env : Env) (opts : CreateOpts) (m : Machine Store)
    (saved : SavedObject) (store' : Store) :
  Js.buf_length (buf opts) <= MAX_BYTES ->
  select_by_triple (db m) (assignmentId opts) (studentId opts) (sha256_hex (buf opts))
    = None ->
  saveOriginal (save_args env opts) (store m) = (Return saved, store') ->
  insert_submission (meanwhile env (db m)) (the_row sha256_hex env opts saved)
    = inl unique_violation ->
  let after :=
    {| db := meanwhile env (db m); store := store';
       journal := journal m ++ [CallSaveOriginal (save_args env opts);
                                CallInsertSubmission (the_row sha256_hex env opts saved)] |} in
  match select_by_triple (meanwhile env (db m)) (assignmentId opts) (studentId opts)
          (sha256_hex (buf opts)) with
  | Some winner =>
      createSubmission sha256_hex env opts m
      = (Return {| submissionId := submission_id winner;
                   result_status := received;
                   result_extractionStatus := extraction_status winner;
                   result_ocrRequired := ocr_required winner |}, after)
  | None =>
      createSubmission sha256_hex env opts m = (Throw (pg_error unique_violation), after)
  end
  /\ (triplet_taken (meanwhile env (db m)) (the_row sha256_hex env opts saved) = true ->
      exists winner,
        select_by_triple (meanwhile env (db m)) (assignmentId opts) (studentId opts)
          (sha256_hex (buf opts)) = Some winner
        /\ createSubmission sha256_hex env opts m = (Return (hit_result winner), after))
  /\ (select_by_triple (meanwhile env (db m)) (assignmentId opts) (studentId opts)
        (sha256_hex (buf opts)) = None ->
      triplet_taken (meanwhile env (db m)) (the_row sha256_hex env opts saved) = false
      /\ primary_key_taken (meanwhile env (db m)) (the_row sha256_hex env opts saved)
         = true).
Proof.
  intros Hlen Hsel Hsave Hins after.
  pose proof (create_insert_fails sha256_hex env opts m saved store' _ Hlen Hsel Hsave Hins)
    as Hrun.
  rewrite bool_decide_eq_true_2 in Hrun by reflexivity. fold after in Hrun.
  assert (Htaken : triplet_taken (meanwhile env (db m)) (the_row sha256_hex env opts saved)
                   = existsb (same_triple (assignmentId opts) (studentId opts)
                                (sha256_hex (buf opts)))
                       (submissions (meanwhile env (db m)))) by reflexivity.
  split; [|split].
  - rewrite Hrun. destruct (select_by_triple (meanwhile env (db m)) _ _ _); reflexivity.
  - rewrite Htaken. intros Hex. apply existsb_exists in Hex as (row & Hin & Hrow).
    apply list_elem_of_In in Hin.
    destruct (select_by_triple_finds _ _ _ _ row Hin Hrow) as (winner & Hwinner).
    exists winner. split; [exact Hwinner|]. rewrite Hrun, Hwinner. reflexivity.
  - intros Hnone. apply select_by_triple_None in Hnone. rewrite Htaken.
    split; [exact Hnone|].
    unfold insert_submission in Hins.
    destruct (negb (size_check (the_row sha256_hex env opts saved))); [discriminate|].
    rewrite Htaken, Hnone, orb_false_r in Hins.
    destruct (primary_key_taken _ _); [reflexivity | discriminate].
Qed.

(** C3.  A payload of exactly 10,485,760 bytes passes: when no row has its
    triple, the artifact store saves it and the [INSERT] goes through, the
    call returns status [received] under the candidate id and the row is
    in the table.  A payload of more than 10,485,760 bytes is rejected
    with the error [too_large] (http 413), and the machine is as it was:
    no artifact write, no [INSERT], nothing issued. *)
Theorem createSubmission_size_boundary (env : Env) (opts : CreateOpts) (m : Machine Store) :
  (Js.buf_length (buf opts) = 10485760 ->
   forall saved store' d',
     select_by_triple (db m) (assignmentId opts) (studentId opts) (sha256_hex (buf opts))
       = None ->
     saveOriginal (save_args env opts) (store m) = (Return saved, store') ->
     insert_submission (meanwhile env (db m)) (the_row sha256_hex env opts saved) = inr d' ->
     exists r m',
       createSubmission sha256_hex env opts m = (Return r, m')
       /\ submissionId r = candidateId env
       /\ result_status r = received
       /\ the_row sha256_hex env opts saved ∈ submissions (db m'))
  /\ (10485760 < Js.buf_length (buf opts) ->
      createSubmission sha256_hex env opts m = (Throw too_large, m)
      /\ exn_http too_large = Some 413
      /\ exn_code too_large = Some "too_large").
Proof.
  split.
  - intros Hlen saved store' d' Hsel Hsave Hins.
    assert (Hle : Js.buf_length (buf opts) <= MAX_BYTES)
      by (rewrite Hlen; unfold MAX_BYTES; lia).
    rewrite (create_stored sha256_hex env opts m saved store' d' Hle Hsel Hsave Hins).
    eexists _, _. split; [reflexivity|]. cbn [submissionId result_status db].
    repeat split. unfold stored. cbn [submissions].
    apply elem_of_app. right. apply list_elem_of_here.
  - intros Hlen. split; [|split; reflexivity].
    apply create_too_large. unfold MAX_BYTES. lia.
Qed.

(** C6.  The event rows that a call of [createSubmission] inserts are
    none at all, or the [submission.created] event of its candidate id
    followed by at most the [submission.parsed] or the
    [submission.ocr_pending] event of the same id.  Each of their types is
    one of [submission.created], [submission.updated],
    [submission.parsed], [submission.ocr_pending], never the legacy
    [submission.received], and they go to the end of the table in that
    order, so [created] is before [parsed] and [ocr_pending]. *)
Theorem createSubmission_event_vocabulary
    (env : Env) (opts : CreateOpts) (m : Machine Store) :
  let m' := (createSubmission sha256_hex env opts m).2 in
  exists (calls : list Call) (base : list EventRow),
    journal m' = journal m ++ calls
    /\ submission_events (db m') = base ++ events_of calls
    /\ (base = submission_events (db m)
        \/ base = submission_events (meanwhile env (db m)))
    /\ Forall (fun e => event_type e ∈ ["submission.created"; "submission.updated";
                                         "submission.parsed"; "submission.ocr_pending"]
                        /\ event_type e <> legacy_event_type
                        /\ event_submission_id e = candidateId env)
         (events_of calls)
    /\ (events_of calls = []
        \/ exists first rest,
             events_of calls = first :: rest
             /\ event_type first = "submission.created"
             /\ (rest = [] \/ exists second, rest = [second])
             /\ Forall (fun e => event_type e = "submission.parsed"
                                 \/ event_type e = "submission.ocr_pending") rest).
Proof.
  intros m'. subst m'.
  destruct (Z.ltb_spec MAX_BYTES (Js.buf_length (buf opts))) as [Hbig|Hlen].
  { rewrite create_too_large by exact Hbig. exists [], (submission_events (db m)).
    cbn. rewrite !app_nil_r. auto 10. }
  destruct (select_by_triple (db m) (assignmentId opts) (studentId opts)
              (sha256_hex (buf opts))) as [hit|] eqn:Hsel.
  { rewrite (create_hit sha256_hex env opts m hit Hlen Hsel).
    exists [], (submission_events (db m)). cbn. rewrite !app_nil_r. auto 10. }
  destruct (saveOriginal (save_args env opts) (store m)) as [[saved|e] store'] eqn:Hsave.
  2:{ rewrite (create_storage_fails sha256_hex env opts m e store' Hlen Hsel Hsave).
      exists [CallSaveOriginal (save_args env opts)], (submission_events (db m)).
      cbn. rewrite !app_nil_r. auto 10. }
  destruct (insert_submission (meanwhile env (db m)) (the_row sha256_hex env opts saved))
    as [sqlstate|d'] eqn:Hins.
  { rewrite (create_insert_fails sha256_hex env opts m saved store' sqlstate
               Hlen Hsel Hsave Hins).
    eexists _, (submission_events (meanwhile env (db m))).
    cbn [snd journal db]. split; [reflexivity|]. cbn. rewrite !app_nil_r. auto 10. }
  rewrite (create_stored sha256_hex env opts m saved store' d' Hlen Hsel Hsave Hins).
  eexists _, (submission_events (meanwhile env (db m))).
  cbn [snd journal db]. split; [reflexivity|].
  rewrite events_of_app, events_of_events. cbn [events_of omap app].
  pose proof (follow_up_types opts (candidateId env)
                (decideExtraction (opt_mime opts) (buf opts))) as Hfu.
  split; [reflexivity|]. split; [auto|]. split.
  - constructor.
    + cbn. split; [apply list_elem_of_here|]. split; [discriminate | reflexivity].
    + eapply Forall_impl; [exact Hfu|]. intros e [Ht Hid]. cbn beta.
      split; [|split; [|exact Hid]].
      * destruct Ht as [-> | ->]; repeat constructor.
      * unfold legacy_event_type. destruct Ht as [-> | ->]; discriminate.
  - right. eexists _, _. split; [reflexivity|]. split; [reflexivity|]. split.
    + unfold follow_up. destruct (bool_decide _); [|destruct (ocrRequired _)]; eauto.
    + eapply Forall_impl; [exact Hfu|]. intros e [Ht _]. exact Ht.
Qed.

End WithProvider.

Lemma createSubmission_idempotent_hit_witness :
  exists hit : SubmissionRow,
    createSubmission digest (quiet "sub_2") hello after_hello
    = (Return (hit_result hit), after_hello).
Proof.
  destruct (createSubmission_idempotent_hit digest (quiet "sub_2") hello after_hello
              (the_row digest (quiet "sub_1") hello
                 {| storagePath := "class/a1/sub_1/original.txt";
                    absolutePath := "/artifacts/class/a1/sub_1/original.txt";
                    saved_sha256 := "sha:hello"; saved_size := 5 |}))
    as (hit & _ & _ & _ & _ & Hrun).
  - vm_compute. discriminate.
  - vm_compute. apply list_elem_of_here.
  - vm_compute. reflexivity.
  - exists hit. exact Hrun.
Defined.

Lemma createSubmission_conflict_defers_to_winner_witness :
  (createSubmission digest raced hello start).1
  = Return {| submissionId := "sub_1"; result_status := received;
              result_extractionStatus := parsed; result_ocrRequired := false |}.
Proof.
  destruct (createSubmission_conflict_defers_to_winner digest raced hello start
              {| storagePath := "class/a1/sub_2/original.txt";
                 absolutePath := "/artifacts/class/a1/sub_2/original.txt";
                 saved_sha256 := "sha:hello"; saved_size := 5 |}
              (<["class/a1/sub_2/original.txt" := buf hello]> ∅))
    as (_ & Htriple & _).
  - vm_compute. discriminate.
  - reflexivity.
  - reflexivity.
  - vm_compute. reflexivity.
  - destruct Htriple as (winner & Hwinner & Hrun); [vm_compute; reflexivity|].
    rewrite Hrun. vm_compute in Hwinner. injection Hwinner as <-. reflexivity.
Defined.

(** C2, counterexample to the unconditional reading: here the candidate
    id is taken by another student's row, the [INSERT] fails with 23505 on
    the primary key, the second look-up by triple finds nothing, and the
    caller gets the 23505 error. *)
Lemma createSubmission_conflict_can_surface :
  let saved := {| storagePath := "class/a1/sub_1/original.txt";
                  absolutePath := "/artifacts/class/a1/sub_1/original.txt";
                  saved_sha256 := "sha:hello"; saved_size := 5 |} in
  Js.buf_length (buf hello) <= MAX_BYTES
  /\ select_by_triple (db taken) (assignmentId hello) (studentId hello) (digest (buf hello))
     = None
  /\ saveOriginal (save_args (quiet "sub_1") hello) (store taken)
     = (Return saved, <["class/a1/sub_1/original.txt" := buf hello]> ∅)
  /\ insert_submission (meanwhile (quiet "sub_1") (db taken))
       (the_row digest (quiet "sub_1") hello saved) = inl unique_violation
  /\ (createSubmission digest (quiet "sub_1") hello taken).1
     = Throw (pg_error unique_violation).
Proof.
  cbv zeta. split; [vm_compute; discriminate|]. repeat split; vm_compute; reflexivity.
Qed.

Lemma createSubmission_size_boundary_witness :
  (exists r m', createSubmission digest (quiet "sub_1") (zeros 10485760) start = (Return r, m')
                /\ submissionId r = "sub_1" /\ result_status r = received)
  /\ createSubmission digest (quiet "sub_1") (zeros 10485761) start = (Throw too_large, start).
Proof.
  split.
  - destruct (createSubmission_size_boundary digest (quiet "sub_1") (zeros 10485760) start)
      as [Hok _].
    edestruct Hok as (r & m' & Hrun & Hid & Hst & _).
    + apply zeros_length. lia.
    + reflexivity.
    + reflexivity.
    + unfold insert_submission, size_check, the_row, new_row.
      cbn [size saved_size save_buf save_args].
      rewrite zeros_length by lia. reflexivity.
    + exists r, m'. auto.
  - destruct (createSubmission_size_boundary digest (quiet "sub_1") (zeros 10485761) start)
      as [_ Hbig].
    apply Hbig. rewrite zeros_length by lia. lia.
Defined.

End ServiceClaims.

(* ===================================================================== *)
(** * Cursors *)
(* ===================================================================== *)

Module CursorClaims.
Import Js Cursor PrintFacts CursorFacts.

(** C7, as the code has it.  For every non-negative integer-valued number
    [n] below [10^21], so for every safe integer,
    [decodeCursor(encodeCursor(n)) = n].  [decodeCursor] returns 0 for an
    absent cursor, for the empty one, and for every cursor whose decoded
    text [parseInt] does not read as a finite non-negative integer. *)
Theorem cursor_round_trip_below_1e21 :
  (forall n : Z, is_natural_number n -> n < 10 ^ 21 ->
     decodeCursor (Some (encodeCursor n)) = n)
  /\ (forall n : Z, 0 <= n <= MAX_SAFE_INTEGER ->
        decodeCursor (Some (encodeCursor n)) = n)
  /\ decodeCursor None = 0
  /\ decodeCursor (Some "") = 0
  /\ (forall c : string,
        match parseInt10 (utf8_text (base64url_decode c)) with
        | Num z => z < 0
        | _ => True
        end -> decodeCursor (Some c) = 0).
Proof.
  split; [|split; [|split; [|split]]].
  - intros n [Hn Hr] Hlt. apply decode_encode; [lia | exact Hr].
  - intros n Hn. unfold MAX_SAFE_INTEGER in Hn.
    apply decode_encode; [lia | apply round53_safe; lia].
  - reflexivity.
  - reflexivity.
  - intros c Hc. unfold decodeCursor. destruct c as [|a c]; [reflexivity|].
    destruct (parseInt10 _) as [|z|]; try reflexivity.
    cbn [isFinite ge0 andb]. destruct (Z.leb_spec 0 z); [lia | reflexivity].
Qed.

Lemma cursor_round_trip_below_1e21_witness :
  decodeCursor (Some (encodeCursor 100)) = 100
  /\ decodeCursor (Some (encodeCursor 9007199254740991)) = 9007199254740991
  /\ decodeCursor (Some "LTU") = 0
  /\ decodeCursor (Some "!!!") = 0.
Proof.
  destruct cursor_round_trip_below_1e21 as (Hrt & Hsafe & _ & _ & Hbad).
  split; [|split; [|split]].
  - apply Hrt; [|lia]. split; [|reflexivity].
    split; [lia | vm_compute; reflexivity].
  - apply Hsafe. unfold MAX_SAFE_INTEGER. lia.
  - apply Hbad. vm_compute. reflexivity.
  - apply Hbad. vm_compute. exact I.
Defined.

(** C7, counterexample above the bound: [10^21] is a non-negative
    integer-valued number, [String] prints it as [1e+21], and [parseInt]
    reads that back as 1. *)
Lemma cursor_round_trip_fails_at_1e21 :
  is_natural_number (10 ^ 21)
  /\ String_of_number (10 ^ 21) = "1e+21"
  /\ decodeCursor (Some (encodeCursor (10 ^ 21))) = 1
  /\ decodeCursor (Some (encodeCursor (10 ^ 21))) <> 10 ^ 21.
Proof.
  destruct ten_to_21 as (Hn & Hs & _ & Hd).
  repeat split; try assumption; try apply Hn. rewrite Hd. lia.
Qed.

End CursorClaims.

(* ===================================================================== *)
(** * The controller *)
(* ===================================================================== *)

Module ControllerClaims.
Import Db Service ServiceFacts Examples Controller.

(** C8.  The page size of [GET /submissions] has no lower clamp:
    [pageSize=-5] passes to the service as the limit -5 (and the query
    then fails, [LIMIT] must not be negative), and [pageSize=0] becomes
    20, not 1. *)
Theorem pageSize_below_one_not_clamped :
  pageSize_of (get (Some "-5")) = Js.Num (-5)
  /\ pageSize_of (get (Some "0")) = Js.Num 20
  /\ (Controller.listSubmissions (get (Some "-5")) after_hello).1
     = Throw (pg_error invalid_row_count_in_limit_clause).
Proof. repeat split; vm_compute; reflexivity. Qed.

(** What does hold of the page size: 20 when the parameter is missing
    or not numeric, 200 above 200, and never more than 200. *)
Lemma pageSize_defaults_and_cap (req : Request) :
  (query_pageSize req = None -> pageSize_of req = Js.Num 20)
  /\ (Js.parseInt10 (query_String (query_pageSize req) "20") = Js.NaN ->
      pageSize_of req = Js.Num 20)
  /\ (forall z, Js.parseInt10 (query_String (query_pageSize req) "20") = Js.Num z ->
        200 < z -> pageSize_of req = Js.Num 200)
  /\ match pageSize_of req with
     | Js.Num l => l <= 200
     | Js.Infinity negative => negative = true
     | Js.NaN => False
     end.
Proof.
  unfold pageSize_of. repeat split.
  - intros ->. reflexivity.
  - intros ->. reflexivity.
  - intros z -> Hz. unfold Js.or_else. cbn [Js.truthy].
    destruct (Z.eqb_spec z 0); [lia|]. cbn. f_equal. lia.
  - destruct (Js.parseInt10 _) as [|z|[]]; cbn; try lia; try reflexivity.
    unfold Js.or_else. cbn [Js.truthy]. destruct (z =? 0); cbn; lia.
Qed.

Section WithProvider.
Context {Store : Type} `{StorageProvider Store}.
Variable sha256_hex : list byte -> string.

(** C9.  When a request carries a file, the content source is the file's
    bytes, mime type and name whatever [editorText] is: the response and
    the machine are the same for every [editorText], and with both ids
    present they are what the service answers for the file.  The
    bad-request answer about the content source is what a request with
    both ids gets when it has neither a file nor a string [editorText],
    and only such a request has no content source: with a content source,
    a file or a string [editorText], the handler calls the service and
    answers as the service does. *)
Theorem postSubmission_file_wins
    (env : Env) (req : Request) (f : UploadedFile) (m : Machine Store) :
  file req = Some f ->
  content_source req = Some (buffer f, mimetype f, originalname f)
  /\ (forall v, postSubmission sha256_hex env (with_editorText v req) m
                = postSubmission sha256_hex env req m)
  /\ (trim (string_or_empty (body_assignmentId req)) <> ""
      /\ trim (string_or_empty (body_studentId req)) <> "" ->
      postSubmission sha256_hex env req m
      = respond req (createSubmission sha256_hex env
                       (create_opts req (buffer f, mimetype f, originalname f)) m))
  /\ (forall req' : Request,
        trim (string_or_empty (body_assignmentId req')) <> ""
        /\ trim (string_or_empty (body_studentId req')) <> "" ->
        (content_source req' = None
         <-> file req' = None /\ forall text, body_editorText req' <> JString text)
        /\ (content_source req' = None ->
            postSubmission sha256_hex env req' m
            = (sendError req' 400 "BadRequest"
                 "Upload a file (file) or provide editorText.", m))
        /\ (forall source,
              content_source req' = Some source ->
              postSubmission sha256_hex env req' m
              = respond req' (createSubmission sha256_hex env (create_opts req' source) m))
        /\ (forall text,
              file req' = None -> body_editorText req' = JString text ->
              postSubmission sha256_hex env req' m
              = respond req'
                  (createSubmission sha256_hex env
                     (create_opts req' (Js.utf8_bytes text, "text/plain", "editor.txt"))
                     m))).
Proof.
  intros Hfile. split; [|split; [|split]].
  - unfold content_source. now rewrite Hfile.
  - intros v. unfold postSubmission, content_source, with_editorText. cbn.
    rewrite Hfile. reflexivity.
  - intros [Ha Hs]. unfold postSubmission, content_source, respond, create_opts.
    rewrite !bool_decide_eq_false_2 by assumption. cbn [orb]. rewrite Hfile.
    reflexivity.
  - intros req' [Ha Hs].
    assert (Hcalls : forall source,
              content_source req' = Some source ->
              postSubmission sha256_hex env req' m
              = respond req' (createSubmission sha256_hex env (create_opts req' source) m)).
    { intros [[b mime] name] Hsource. unfold postSubmission, respond, create_opts.
      rewrite !bool_decide_eq_false_2 by assumption. cbn [orb]. rewrite Hsource.
      reflexivity. }
    split; [|split; [|split]].
    + unfold content_source. destruct (file req') as [f'|].
      * split; [discriminate | intros [[=] _]].
      * destruct (body_editorText req') as [|text|t text].
        -- split; [intros _; split; [reflexivity | discriminate] | reflexivity].
        -- split; [discriminate | intros [_ Hn]; now destruct (Hn text)].
        -- split; [intros _; split; [reflexivity | discriminate] | reflexivity].
    + intros Hnone. unfold postSubmission.
      rewrite !bool_decide_eq_false_2 by assumption. cbn [orb]. now rewrite Hnone.
    + exact Hcalls.
    + intros text Hnofile Htext. apply Hcalls. unfold content_source.
      now rewrite Hnofile, Htext.
Qed.

(** C10, as the code has it.  [listSubmissions(limit, offset)] of the
    service returns as [count] the number of items of the page it
    returns, which is at most the limit, and changes nothing; it is not
    the number of rows of the table (with two rows and limit 1 the count
    is 1).  So the count of a [GET /submissions] response is the number
    of its items and at most the page size that the controller computed
    (itself at most 200); that is at most the page size of the request
    when the request asks for 1 or more. *)
Theorem listSubmissions_count_is_page_length
    (limit offset : Js.number) (req : Request) (m : Machine Store) :
  match Service.listSubmissions limit offset m with
  | (Return r, m') =>
      count r = Z.of_nat (List.length (items r))
      /\ match limit with Js.Num l => count r <= l | _ => False end
      /\ m' = m
  | (Throw _, m') => m' = m
  end
  /\ match Controller.listSubmissions req m with
     | (Return res, _) =>
         match res_body res, pageSize_of req with
         | ListBody rows n, Js.Num l =>
             n = Z.of_nat (List.length rows) /\ n <= l /\ l <= 200
         | _, _ => False
         end
     | (Throw _, _) => True
     end
  /\ (forall z : Z,
        Js.parseInt10 (query_String (query_pageSize req) "20") = Js.Num z ->
        1 <= z ->
        match Controller.listSubmissions req m with
        | (Return res, _) =>
            match res_body res with
            | ListBody _ n => n <= z
            | _ => False
            end
        | (Throw _, _) => True
        end)
  /\ exists r : ListResult,
       Service.listSubmissions (Js.Num 1) (Js.Num 0) after_two = (Return r, after_two)
       /\ count r = 1
       /\ List.length (submissions (db after_two)) = 2%nat.
Proof.
  assert (Hpage : forall lim off,
    match Service.listSubmissions lim off m with
    | (Return r, m') =>
        count r = Z.of_nat (List.length (items r))
        /\ match lim with Js.Num l => count r <= l | _ => False end
        /\ m' = m
    | (Throw _, m') => m' = m
    end).
  { intros lim off. unfold Service.listSubmissions, select_page.
    destruct (bigint_param lim) as [e|l] eqn:El; [reflexivity|].
    destruct (bigint_param off) as [e|o] eqn:Eo; [reflexivity|].
    destruct (Z.ltb_spec o 0); [reflexivity|].
    destruct (Z.ltb_spec l 0); [reflexivity|].
    cbn [items count]. split; [reflexivity|]. split; [|reflexivity].
    destruct lim as [|z|]; try discriminate. unfold bigint_param in El.
    destruct (10 ^ 21 <=? Z.abs z); [discriminate|].
    destruct ((z <? - 2 ^ 63) || (2 ^ 63 <=? z)); [discriminate|].
    injection El as <-. rewrite length_take. lia. }
  assert (Hhandler :
    match Controller.listSubmissions req m with
    | (Return res, _) =>
        match res_body res, pageSize_of req with
        | ListBody rows n, Js.Num l =>
            n = Z.of_nat (List.length rows) /\ n <= l /\ l <= 200
        | _, _ => False
        end
    | (Throw _, _) => True
    end).
  { unfold Controller.listSubmissions.
    specialize (Hpage (pageSize_of req)
                  (Js.Num (Cursor.decodeCursor (Some (query_String (query_cursor req) ""))))).
    destruct (Service.listSubmissions _ _ m) as [[r|e] m']; [|exact I].
    destruct Hpage as (Hc & Hl & _). cbn [res_body].
    pose proof (pageSize_defaults_and_cap req) as (_ & _ & _ & Hcap).
    destruct (pageSize_of req) as [|l|]; try contradiction.
    rewrite length_map. auto. }
  split; [apply Hpage|]. split; [exact Hhandler|]. split.
  - intros z Hz Hz1.
    assert (Hsize : pageSize_of req = Js.Num (Z.min z 200)).
    { unfold pageSize_of. rewrite Hz. unfold Js.or_else. cbn [Js.truthy].
      destruct (Z.eqb_spec z 0); [lia | reflexivity]. }
    destruct (Controller.listSubmissions req m) as [[res|e] m']; [|exact I].
    rewrite Hsize in Hhandler.
    destruct (res_body res) as [r|rows n|code message c]; try contradiction. lia.
  - eexists. split; [vm_compute; reflexivity|]. split; vm_compute; reflexivity.
Qed.

(** C10, counterexample with a requested page size of 0: the request
    [GET /submissions?pageSize=0] asks for a page size of 0, the handler
    makes that 20, and on a table of two rows the response has the
    count 2. *)
Lemma listSubmissions_count_exceeds_requested_zero :
  Js.parseInt10 (query_String (query_pageSize (get (Some "0"))) "20") = Js.Num 0
  /\ pageSize_of (get (Some "0")) = Js.Num 20
  /\ match (Controller.listSubmissions (get (Some "0")) after_two).1 with
     | Return res =>
         match res_body res with
         | ListBody rows n => n = 2 /\ List.length rows = 2%nat
         | _ => False
         end
     | Throw _ => False
     end.
Proof. repeat split; vm_compute; reflexivity. Qed.

End WithProvider.

Lemma postSubmission_file_wins_witness :
  content_source (post (Some essay) (JString "typed instead"))
  = Some (buffer essay, mimetype essay, originalname essay)
  /\ postSubmission digest (quiet "sub_1") (post (Some essay) JUndefined) start
     = postSubmission digest (quiet "sub_1") (post (Some essay) (JString "typed instead")) start
  /\ res_status (postSubmission digest (quiet "sub_1")
                   (post (Some essay) (JString "typed instead")) start).1 = 201.
Proof.
  destruct (postSubmission_file_wins digest (quiet "sub_1")
              (post (Some essay) (JString "typed instead")) essay start eq_refl)
    as (Hsrc & Hsame & _).
  split; [exact Hsrc|]. split; [exact (Hsame JUndefined)|].
  vm_compute. reflexivity.
Defined.

End ControllerClaims.

(* ===================================================================== *)
(** * Beyond the claims: the service, the handlers, the caches, the
      upload errors and the local artifact store *)
(* ===================================================================== *)

Module ServiceExtras.
Import Db Service ServiceFacts Examples Schema MoreExamples.

Lemma existsb_false_filter {A : Type} (f : A -> bool) (l : list A) :
  existsb f l = false -> List.filter f l = [].
Proof.
  induction l as [|x l IH]; cbn; [reflexivity|].
  destruct (f x); [discriminate | exact IH].
Qed.

Lemma insert_submission_fresh (d d' : Database) (r : SubmissionRow) :
  insert_submission d r = inr d' ->
  size_check r = true /\ primary_key_taken d r = false /\ triplet_taken d r = false.
Proof.
  unfold insert_submission.
  destruct (size_check r); cbn; [|discriminate].
  destruct (primary_key_taken d r); cbn; [discriminate|].
  destruct (triplet_taken d r); cbn; [discriminate|]. auto.
Qed.

(** Under the primary key a row is found by its id. *)
Lemma select_by_id_finds (d : Database) (row : SubmissionRow) :
  primary_key d -> row ∈ submissions d -> select_by_id d (submission_id row) = Some row.
Proof.
  unfold primary_key, select_by_id.
  induction (submissions d) as [|r l IH]; intros Hnd Hin.
  - now apply elem_of_nil in Hin.
  - cbn in Hnd. apply NoDup_cons in Hnd as [Hr Hl]. cbn.
    apply elem_of_cons in Hin as [->|Hin].
    + now rewrite bool_decide_eq_true_2.
    + rewrite bool_decide_eq_false_2; [now apply IH|].
      intros Heq. apply Hr. rewrite Heq. apply list_elem_of_fmap. eauto.
Qed.

Section WithProvider.
Context {Store : Type} `{StorageProvider Store}.
Variable sha256_hex : list byte -> string.

Lemma the_row_same_triple (env : Env) (opts : CreateOpts) (saved : SavedObject) :
  same_triple (assignmentId opts) (studentId opts) (sha256_hex (buf opts))
    (the_row sha256_hex env opts saved) = true.
Proof.
  unfold same_triple, the_row, new_row. cbn.
  now rewrite !bool_decide_eq_true_2 by reflexivity.
Qed.

Lemma select_after_stored (env : Env) (opts : CreateOpts) (saved : SavedObject)
    (d d' : Database) :
  insert_submission d (the_row sha256_hex env opts saved) = inr d' ->
  select_by_triple (stored sha256_hex env opts saved d) (assignmentId opts)
    (studentId opts) (sha256_hex (buf opts))
  = Some (the_row sha256_hex env opts saved).
Proof.
  intros Hins. apply insert_submission_fresh in Hins as (_ & _ & Htr).
  unfold triplet_taken in Htr. cbn [the_row new_row sha256 assignment_id student_id] in Htr.
  unfold select_by_triple, stored. cbn [submissions].
  rewrite List.filter_app, (existsb_false_filter _ _ Htr). cbn [List.filter app].
  now rewrite the_row_same_triple.
Qed.

(** X1.  [createSubmission] is idempotent: when a call has returned a
    result, the same call again (whatever id it would have generated and
    whatever the other requests do in between) returns the same result
    and changes nothing: no row, no event, no artifact, no cache row. *)
Theorem createSubmission_again
    (env1 env2 : Env) (opts : CreateOpts) (m m1 : Machine Store) (r : CreateResult) :
  createSubmission sha256_hex env1 opts m = (Return r, m1) ->
  createSubmission sha256_hex env2 opts m1 = (Return r, m1).
Proof.
  intros Hrun.
  destruct (Z.ltb_spec MAX_BYTES (Js.buf_length (buf opts))) as [Hbig|Hlen].
  { rewrite create_too_large in Hrun by exact Hbig. discriminate. }
  destruct (select_by_triple (db m) (assignmentId opts) (studentId opts)
              (sha256_hex (buf opts))) as [hit|] eqn:Hsel.
  { rewrite (create_hit sha256_hex env1 opts m hit Hlen Hsel) in Hrun.
    injection Hrun as <- <-. now apply create_hit. }
  destruct (saveOriginal (save_args env1 opts) (store m)) as [[saved|e] store'] eqn:Hsave.
  2:{ rewrite (create_storage_fails sha256_hex env1 opts m e store' Hlen Hsel Hsave) in Hrun.
      discriminate. }
  destruct (insert_submission (meanwhile env1 (db m)) (the_row sha256_hex env1 opts saved))
    as [sqlstate|d'] eqn:Hins.
  - rewrite (create_insert_fails sha256_hex env1 opts m saved store' sqlstate
               Hlen Hsel Hsave Hins) in Hrun.
    destruct (select_by_triple (meanwhile env1 (db m)) _ _ _) as [winner|] eqn:Hw;
      [|discriminate].
    destruct (bool_decide (sqlstate = unique_violation)); [|discriminate].
    injection Hrun as <- <-. apply create_hit; [exact Hlen | exact Hw].
  - rewrite (create_stored sha256_hex env1 opts m saved store' d' Hlen Hsel Hsave Hins)
      in Hrun.
    injection Hrun as <- <-.
    rewrite (create_hit sha256_hex env2 opts _ (the_row sha256_hex env1 opts saved) Hlen).
    + reflexivity.
    + cbn [db]. eapply select_after_stored. exact Hins.
Qed.

(** The two results of the classifier. *)
Lemma decideExtraction_cases (mime : string) (bytes : list byte) :
  let d := decideExtraction mime bytes in
  (ocrRequired d = true /\ extractionStatus d = pending_ocr /\ extractedText d = None)
  \/ (ocrRequired d = false /\ extractionStatus d = parsed
      /\ exists text, extractedText d = Some text).
Proof.
  unfold decideExtraction.
  assert (Hparsed : forall text : string,
            false = false /\ parsed = parsed /\ exists t, Some text = Some t)
    by (intros text; split; [reflexivity | split; [reflexivity | now exists text]]).
  destruct (bool_decide (mime = "image/jpeg") || bool_decide (mime = "image/png"));
    [left; repeat split|].
  destruct (bool_decide (mime = "application/pdf")).
  { destruct (PdfHeuristics.pdfLikelyHasTextLayer bytes);
      [right; apply Hparsed | left; repeat split]. }
  destruct (bool_decide (mime = DOCX) || bool_decide (mime = "text/plain"));
    [right; apply Hparsed | left; repeat split].
Qed.


(** X8.  The three fields of a classification agree: [ocrRequired] is
    true exactly when the status is [pending_ocr], which is exactly when
    there is no extracted text, and a [parsed] classification carries a
    text.  Only a PDF is classified by its bytes. *)
Theorem decideExtraction_coherent (mime : string) (bytes : list byte) :
  let d := decideExtraction mime bytes in
  (ocrRequired d = true <-> extractionStatus d = pending_ocr)
  /\ (extractedText d = None <-> extractionStatus d = pending_ocr)
  /\ (extractionStatus d = parsed <-> exists text, extractedText d = Some text)
  /\ (mime <> "application/pdf" ->
      forall other, decideExtraction mime bytes = decideExtraction mime other).
Proof.
  cbv zeta. split; [|split; [|split]].
  - destruct (decideExtraction_cases mime bytes) as [(-> & -> & _) | (-> & -> & _)];
      split; auto; discriminate.
  - destruct (decideExtraction_cases mime bytes) as [(_ & -> & ->) | (_ & -> & t & ->)];
      split; auto; discriminate.
  - destruct (decideExtraction_cases mime bytes) as [(_ & -> & ->) | (_ & -> & t & ->)];
      split; eauto; try discriminate. intros [? [=]].
  - intros Hne other. unfold decideExtraction.
    now rewrite (bool_decide_eq_false_2 _ Hne).
Qed.

(** The row behind a result. *)
Lemma create_row (env : Env) (opts : CreateOpts) (m m1 : Machine Store) (r : CreateResult) :
  createSubmission sha256_hex env opts m = (Return r, m1) ->
  exists row, row ∈ submissions (db m1)
    /\ r = hit_result row
    /\ same_triple (assignmentId opts) (studentId opts) (sha256_hex (buf opts)) row = true.
Proof.
  intros Hrun.
  destruct (Z.ltb_spec MAX_BYTES (Js.buf_length (buf opts))) as [Hbig|Hlen].
  { rewrite create_too_large in Hrun by exact Hbig. discriminate. }
  destruct (select_by_triple (db m) (assignmentId opts) (studentId opts)
              (sha256_hex (buf opts))) as [hit|] eqn:Hsel.
  { rewrite (create_hit sha256_hex env opts m hit Hlen Hsel) in Hrun.
    injection Hrun as <- <-. exists hit.
    apply select_by_triple_Some in Hsel as [? ?]. auto. }
  destruct (saveOriginal (save_args env opts) (store m)) as [[saved|e] store'] eqn:Hsave.
  2:{ rewrite (create_storage_fails sha256_hex env opts m e store' Hlen Hsel Hsave) in Hrun.
      discriminate. }
  destruct (insert_submission (meanwhile env (db m)) (the_row sha256_hex env opts saved))
    as [sqlstate|d'] eqn:Hins.
  - rewrite (create_insert_fails sha256_hex env opts m saved store' sqlstate
               Hlen Hsel Hsave Hins) in Hrun.
    destruct (select_by_triple (meanwhile env (db m)) _ _ _) as [winner|] eqn:Hw;
      [|discriminate].
    destruct (bool_decide (sqlstate = unique_violation)); [|discriminate].
    injection Hrun as <- <-. exists winner. cbn [db].
    apply select_by_triple_Some in Hw as [? ?]. auto.
  - rewrite (create_stored sha256_hex env opts m saved store' d' Hlen Hsel Hsave Hins)
      in Hrun.
    injection Hrun as <- <-. exists (the_row sha256_hex env opts saved). cbn [db].
    split; [|split].
    + unfold stored. cbn [submissions]. apply elem_of_app. right. apply list_elem_of_here.
    + reflexivity.
    + apply the_row_same_triple.
Qed.

(** X6.  What [createSubmission] returns can be read back: under the
    primary key, [getSubmission] of the returned id finds a row with that
    id, the returned extraction status and OCR flag, and the triple of
    the call. *)
Theorem createSubmission_then_getSubmission
    (env : Env) (opts : CreateOpts) (m m1 : Machine Store) (r : CreateResult) :
  createSubmission sha256_hex env opts m = (Return r, m1) ->
  primary_key (db m1) ->
  exists row,
    getSubmission (submissionId r) m1 = (Return (Some row), m1)
    /\ submission_id row = submissionId r
    /\ extraction_status row = result_extractionStatus r
    /\ ocr_required row = result_ocrRequired r
    /\ assignment_id row = assignmentId opts
    /\ student_id row = studentId opts
    /\ sha256 row = Some (sha256_hex (buf opts)).
Proof.
  intros Hrun Hpk.
  destruct (create_row env opts m m1 r Hrun) as (row & Hin & -> & Htriple).
  exists row. unfold getSubmission. cbn [hit_result submissionId result_extractionStatus
    result_ocrRequired].
  rewrite (select_by_id_finds _ _ Hpk Hin).
  unfold same_triple in Htriple.
  apply andb_true_iff in Htriple as [Htriple Hh].
  apply andb_true_iff in Htriple as [Ha Hs].
  apply bool_decide_eq_true in Ha, Hs, Hh. auto 10.
Qed.

(** X7.  After a call that stored a new submission, [getArtifactLocator]
    of its id asks the artifact store for the path that [saveOriginal]
    returned, in the store as that call left it. *)
Theorem createSubmission_then_getArtifactLocator
    (env : Env) (opts : CreateOpts) (m : Machine Store)
    (saved : SavedObject) (store' : Store) (d' : Database) :
  Js.buf_length (buf opts) <= MAX_BYTES ->
  select_by_triple (db m) (assignmentId opts) (studentId opts) (sha256_hex (buf opts))
    = None ->
  saveOriginal (save_args env opts) (store m) = (Return saved, store') ->
  insert_submission (meanwhile env (db m)) (the_row sha256_hex env opts saved) = inr d' ->
  let m1 := (createSubmission sha256_hex env opts m).2 in
  store m1 = store'
  /\ getArtifactLocator (candidateId env) m1
     = (match getReadLocator (storagePath saved) store' with
        | Return locator => Return (Some locator)
        | Throw e => Throw e
        end, m1).
Proof.
  intros Hlen Hsel Hsave Hins. cbv zeta.
  rewrite (create_stored sha256_hex env opts m saved store' d' Hlen Hsel Hsave Hins).
  cbn [snd]. split; [reflexivity|].
  unfold getArtifactLocator. cbn [db store].
  assert (Hid : select_by_id (stored sha256_hex env opts saved (meanwhile env (db m)))
                  (candidateId env) = Some (the_row sha256_hex env opts saved)).
  { destruct (insert_submission_fresh _ _ _ Hins) as (_ & Hpk & _).
    unfold primary_key_taken in Hpk.
    change (submission_id (the_row sha256_hex env opts saved)) with (candidateId env) in Hpk.
    unfold select_by_id, stored. cbn [submissions].
    rewrite List.filter_app, (existsb_false_filter _ _ Hpk). cbn.
    now rewrite bool_decide_eq_true_2. }
  rewrite Hid. cbn [the_row new_row storage_path].
  now destruct (getReadLocator (storagePath saved) store').
Qed.
End WithProvider.

(** ** On the example machines *)

Lemma createSubmission_again_witness :
  createSubmission digest (quiet "sub_2") hello after_hello = (Return hello_result, after_hello).
Proof.
  apply (createSubmission_again digest (quiet "sub_1") (quiet "sub_2") hello start).
  vm_compute. reflexivity.
Defined.


Lemma createSubmission_then_getSubmission_witness :
  exists row,
    getSubmission "sub_1" after_hello = (Return (Some row), after_hello)
    /\ extraction_status row = parsed
    /\ student_id row = "s1".
Proof.
  destruct (createSubmission_then_getSubmission digest (quiet "sub_1") hello start
              after_hello hello_result) as (row & Hget & _ & Hst & _ & _ & Hs & _).
  - vm_compute. reflexivity.
  - unfold primary_key. change (NoDup ["sub_1"]). apply NoDup_singleton.
  - exists row. auto.
Defined.

Lemma createSubmission_then_getArtifactLocator_witness :
  getArtifactLocator "sub_1" after_hello
  = (Return (Some (LocalLocator "/artifacts/class/a1/sub_1/original.txt")), after_hello).
Proof.
  destruct (createSubmission_then_getArtifactLocator digest (quiet "sub_1") hello start
              hello_saved (<["class/a1/sub_1/original.txt" := buf hello]> ∅)
              (match insert_submission (db start) (the_row digest (quiet "sub_1") hello
                                                      hello_saved) with
               | inr d' => d'
               | inl _ => empty_db
               end))
    as [_ Hloc].
  - vm_compute. discriminate.
  - vm_compute. reflexivity.
  - vm_compute. reflexivity.
  - vm_compute. reflexivity.
  - exact Hloc.
Defined.

End ServiceExtras.

Module ControllerExtras.
Import Db Service ServiceFacts Examples Controller Schema ServiceExtras.
Import Js NumberFacts PrintFacts CursorFacts.

Lemma decodeCursor_nonneg (c : option string) : 0 <= Cursor.decodeCursor c.
Proof.
  unfold Cursor.decodeCursor. destruct c as [[|a s]|]; try lia.
  destruct (parseInt10 _) as [|z|]; try lia. cbn.
  destruct (Z.leb_spec 0 z); lia.
Qed.

Lemma normalizeErrorCode_known (x : option string) : normalizeErrorCode x ∈ ERROR_CODES.
Proof.
  unfold normalizeErrorCode. destruct x as [c|].
  - destruct (bool_decide_reflect (c ∈ ERROR_CODES)); [assumption|].
    unfold ERROR_CODES. repeat constructor.
  - unfold ERROR_CODES. repeat constructor.
Qed.

Section WithProvider.
Context {Store : Type} `{StorageProvider Store}.
Variable sha256_hex : list byte -> string.

(** X9.  The answers of [postSubmission]: a 201 with the result that
    the service returned for the content source of the request, or an
    error body whose code is one of [ERROR_CODES] and
    that carries the request's correlation id.  A request without an id
    or without a content source gets 400 [BadRequest] and nothing is
    called.  A payload above the limit gets 413, with the code
    [InternalError]: the service's own code [too_large] is not one of
    [ERROR_CODES]. *)
Theorem postSubmission_answers (env : Env) (req : Request) (m : Machine Store) :
  let res := (postSubmission sha256_hex env req m).1 in
  let m1 := (postSubmission sha256_hex env req m).2 in
  ((res_status res = 201 /\ res_headers res = []
    /\ exists r source,
         res_body res = CreatedBody r
         /\ content_source req = Some source
         /\ createSubmission sha256_hex env (create_opts req source) m = (Return r, m1))
   \/ (res_headers res = withCorrelationHeader req
       /\ exists code message,
            res_body res = ErrorBody code message (req_correlationId req)
            /\ code ∈ ERROR_CODES))
  /\ (trim (string_or_empty (body_assignmentId req)) = ""
      \/ trim (string_or_empty (body_studentId req)) = ""
      \/ content_source req = None ->
      res_status res = 400 /\ m1 = m
      /\ exists message, res_body res = ErrorBody "BadRequest" message (req_correlationId req))
  /\ (forall source,
        trim (string_or_empty (body_assignmentId req)) <> "" ->
        trim (string_or_empty (body_studentId req)) <> "" ->
        content_source req = Some source ->
        MAX_BYTES < Js.buf_length source.1.1 ->
        res = sendError req 413 "InternalError" "Max file size is 10 MB" /\ m1 = m).
Proof.
  cbv zeta. unfold postSubmission.
  destruct (bool_decide_reflect (trim (string_or_empty (body_assignmentId req)) = ""))
    as [Ha|Ha]; cbn [orb].
  { cbn. split; [right; split; [reflexivity|]; do 2 eexists; split; [reflexivity|];
                 unfold ERROR_CODES; repeat constructor|].
    split; [eauto|]. intros; contradiction. }
  destruct (bool_decide_reflect (trim (string_or_empty (body_studentId req)) = ""))
    as [Hs|Hs]; cbn [orb].
  { cbn. split; [right; split; [reflexivity|]; do 2 eexists; split; [reflexivity|];
                 unfold ERROR_CODES; repeat constructor|].
    split; [eauto|]. intros; contradiction. }
  destruct (content_source req) as [[[b mime] name]|] eqn:Hsrc.
  2:{ cbn. split; [right; split; [reflexivity|]; do 2 eexists; split; [reflexivity|];
                   unfold ERROR_CODES; repeat constructor|].
      split; [eauto|]. intros; discriminate. }
  split; [|split].
  - destruct (createSubmission _ _ _ _) as [[r|e] m'] eqn:Hrun; cbn.
    + left. split; [reflexivity|]. split; [reflexivity|].
      exists r, (b, mime, name). split; [reflexivity|]. split; [reflexivity|]. exact Hrun.
    + right. split; [reflexivity|]. do 2 eexists. split; [reflexivity|].
      apply normalizeErrorCode_known.
  - intros [?|[?|?]]; [contradiction | contradiction | discriminate].
  - intros source _ _ [= <-] Hbig. cbn [fst] in Hbig.
    rewrite create_too_large by exact Hbig. cbn. auto.
Qed.

(** X10.  A page of [listSubmissions] for a page size of at least 1 and
    a table of fewer than 2^53 rows: the rows from the offset of the
    cursor, newest first.  [X-Next-Cursor] is set exactly when the page
    is full (also when no row follows), and it decodes to the offset of
    the next page. *)
Theorem listSubmissions_pages (req : Request) (m : Machine Store) (l : Z) :
  pageSize_of req = Js.Num l ->
  1 <= l ->
  Cursor.decodeCursor (Some (query_String (query_cursor req) "")) < 2 ^ 63 ->
  Z.of_nat (List.length (submissions (db m))) < 2 ^ 53 ->
  let o := Cursor.decodeCursor (Some (query_String (query_cursor req) "")) in
  let page := take (Z.to_nat l) (drop (Z.to_nat o) (rev (submissions (db m)))) in
  exists headers,
    Controller.listSubmissions req m
    = (Return {| res_status := 200; res_headers := headers;
                 res_body := ListBody (map toApi page) (Z.of_nat (List.length page)) |}, m)
    /\ (Z.of_nat (List.length page) < l -> headers = [])
    /\ (Z.of_nat (List.length page) = l ->
        exists c, headers = [("X-Next-Cursor", c)]
                  /\ Cursor.decodeCursor (Some c) = o + l).
Proof.
  intros Hl Hl1 Ho Hrows. cbv zeta.
  pose proof (decodeCursor_nonneg (Some (query_String (query_cursor req) ""))) as Ho0.
  set (o := Cursor.decodeCursor _) in *.
  assert (Hl200 : l <= 200).
  { pose proof (ControllerClaims.pageSize_defaults_and_cap req) as (_ & _ & _ & Hcap).
    now rewrite Hl in Hcap. }
  unfold Controller.listSubmissions, Service.listSubmissions, select_page.
  fold o. rewrite Hl. unfold bigint_param.
  assert (H21 : 2 ^ 63 < 10 ^ 21) by (vm_compute; reflexivity).
  assert (H63 : 200 < 2 ^ 63) by (vm_compute; reflexivity).
  assert (Hm63 : - 2 ^ 63 < 0) by (vm_compute; reflexivity).
  rewrite (proj2 (Z.leb_gt _ _)) by lia.
  rewrite (proj2 (Z.ltb_ge _ _)) by lia.
  rewrite (proj2 (Z.leb_gt _ _)) by lia. cbn [orb].
  rewrite (proj2 (Z.leb_gt _ _)) by lia.
  rewrite (proj2 (Z.ltb_ge _ _)) by lia.
  rewrite (proj2 (Z.leb_gt _ _)) by lia. cbn [orb].
  rewrite (proj2 (Z.ltb_ge _ _)) by lia.
  rewrite (proj2 (Z.ltb_ge _ _)) by lia.
  cbn [items count]. set (page := take _ _).
  eexists. split; [reflexivity|]. unfold strict_eq. split.
  - intros Hshort. rewrite (proj2 (Z.eqb_neq _ _)) by lia. reflexivity.
  - intros Hfull. rewrite (proj2 (Z.eqb_eq _ _)) by exact Hfull.
    assert (Hsafe : 0 <= o + l < 2 ^ 53).
    { split; [lia|]. subst page. rewrite length_take, length_drop, length_rev in Hfull. lia. }
    rewrite (round53_safe _ Hsafe).
    assert (H53 : 2 ^ 53 < 10 ^ 21) by (vm_compute; reflexivity).
    pose proof (decode_encode (o + l) ltac:(lia) (round53_safe _ Hsafe)) as Hrt.
    exists (Cursor.encodeCursor (o + l)). split; [|exact Hrt].
    rewrite bool_decide_eq_false_2; [reflexivity|].
    intros Hempty. rewrite Hempty in Hrt. change (Cursor.decodeCursor (Some EmptyString)) with 0 in Hrt. lia.
Qed.

(** X11.  What [postSubmission] created is served by [getSubmission]:
    the payload has the returned id, status and OCR flag, and the two
    ids of the request, trimmed. *)
Theorem postSubmission_then_getSubmission
    (env : Env) (req req' : Request) (m : Machine Store) (r : CreateResult) :
  res_body (postSubmission sha256_hex env req m).1 = CreatedBody r ->
  primary_key (db (postSubmission sha256_hex env req m).2) ->
  let m1 := (postSubmission sha256_hex env req m).2 in
  exists payload,
    Controller.getSubmission req' (submissionId r) m1 = (Return (ReplyJson payload), m1)
    /\ api_id payload = submissionId r
    /\ api_assignmentId payload = trim (string_or_empty (body_assignmentId req))
    /\ api_studentId payload = trim (string_or_empty (body_studentId req))
    /\ api_extractionStatus payload = result_extractionStatus r
    /\ api_ocrRequired payload = result_ocrRequired r.
Proof.
  cbv zeta. unfold postSubmission.
  destruct (bool_decide _ || bool_decide _); [discriminate|].
  destruct (content_source req) as [[[b mime] name]|]; [|discriminate].
  destruct (createSubmission _ _ _ _) as [[r0|e] m1] eqn:Hrun; [|discriminate].
  cbn [fst snd res_body]. intros [= ->] Hpk.
  destruct (create_row sha256_hex _ _ _ _ _ Hrun) as (row & Hin & -> & Htriple).
  exists (toApi row). unfold Controller.getSubmission, Service.getSubmission.
  cbn [hit_result submissionId result_extractionStatus result_ocrRequired].
  rewrite (select_by_id_finds _ _ Hpk Hin).
  unfold same_triple in Htriple. cbn [assignmentId studentId] in Htriple.
  apply andb_true_iff in Htriple as [Htriple _].
  apply andb_true_iff in Htriple as [Ha Hs].
  apply bool_decide_eq_true in Ha, Hs. cbn. auto 10.
Qed.

End WithProvider.
Lemma listSubmissions_pages_witness :
  exists headers,
    Controller.listSubmissions (get (Some "1")) after_two
    = (Return {| res_status := 200; res_headers := headers;
                 res_body := ListBody (map toApi (take 1 (rev (submissions (db after_two)))))
                               1 |}, after_two)
    /\ exists c, headers = [("X-Next-Cursor", c)] /\ Cursor.decodeCursor (Some c) = 1.
Proof.
  destruct (listSubmissions_pages (get (Some "1")) after_two 1) as (headers & Hrun & _ & Hfull).
  - vm_compute. reflexivity.
  - lia.
  - vm_compute. reflexivity.
  - vm_compute. reflexivity.
  - exists headers. split; [exact Hrun|]. apply Hfull. vm_compute. reflexivity.
Defined.

Lemma postSubmission_then_getSubmission_witness :
  exists payload,
    Controller.getSubmission (get None) "sub_1"
      (postSubmission digest (quiet "sub_1") (post (Some essay) JUndefined) start).2
    = (Return (ReplyJson payload),
       (postSubmission digest (quiet "sub_1") (post (Some essay) JUndefined) start).2)
    /\ api_studentId payload = "s1"
    /\ api_extractionStatus payload = parsed.
Proof.
  destruct (postSubmission_then_getSubmission digest (quiet "sub_1")
              (post (Some essay) JUndefined) (get None) start
              {| submissionId := "sub_1"; result_status := received;
                 result_extractionStatus := parsed; result_ocrRequired := false |})
    as (payload & Hget & _ & _ & Hs & He & _).
  - vm_compute. reflexivity.
  - unfold primary_key. change (NoDup ["sub_1"]). apply NoDup_singleton.
  - exists payload. split; [exact Hget|]. split; [|exact He].
    rewrite Hs. vm_compute. reflexivity.
Defined.

End ControllerExtras.

Module PathFacts.
Import Path LocalFs.

Lemma prefix_append (p s : string) : String.prefix p (p +:+ s) = true.
Proof.
  induction p as [|c p IH]; cbn; [now destruct s|].
  destruct (ascii_dec c c); [exact IH | congruence].
Qed.

Lemma split_not_nil (s : string) : split s <> [].
Proof.
  induction s as [|c s IH]; cbn; [discriminate|].
  destruct (Ascii.eqb c "/"); [discriminate|].
  destruct (split s); discriminate.
Qed.

Lemma split_app (a b : string) : split (a +:+ "/" +:+ b) = split a ++ split b.
Proof.
  induction a as [|c a IH]; [reflexivity|].
  change (String c a +:+ "/" +:+ b) with (String c (a +:+ "/" +:+ b)).
  cbn [split]. rewrite IH.
  destruct (Ascii.eqb c "/"); [reflexivity|].
  pose proof (split_not_nil a). destruct (split a); [contradiction | reflexivity].
Qed.

Lemma plain_spec (s : string) :
  plain s = true <-> s <> "" /\ s <> "." /\ s <> ".." /\ no_slash s.
Proof.
  unfold plain, no_slash. rewrite !andb_true_iff, !negb_true_iff, !bool_decide_eq_false.
  tauto.
Qed.

Lemma split_no_slash (s : string) : no_slash s -> split s = [s].
Proof.
  unfold no_slash. induction s as [|c s IH]; [reflexivity|].
  cbn. intros Hc. apply andb_true_iff in Hc as [Hc Hs].
  apply andb_true_iff in Hc as [Hc _]. apply negb_true_iff in Hc.
  rewrite Hc, (IH Hs). reflexivity.
Qed.

Lemma toPosix_no_slash (s : string) : no_slash s -> toPosix s = s.
Proof.
  unfold no_slash. induction s as [|c s IH]; [reflexivity|].
  cbn. intros Hc. apply andb_true_iff in Hc as [Hc Hs].
  apply andb_true_iff in Hc as [_ Hc]. apply negb_true_iff in Hc.
  rewrite Hc, (IH Hs). reflexivity.
Qed.

Lemma toPosix_app (a b : string) : toPosix (a +:+ b) = toPosix a +:+ toPosix b.
Proof. induction a as [|c a IH]; cbn; [reflexivity | now rewrite IH]. Qed.

Lemma join_slash_cons (p : string) (l : list string) :
  l <> [] -> join_slash (p :: l) = p +:+ "/" +:+ join_slash l.
Proof. destruct l; [contradiction | reflexivity]. Qed.

Lemma join_slash_app (a b : list string) :
  a <> [] -> b <> [] -> join_slash (a ++ b) = join_slash a +:+ "/" +:+ join_slash b.
Proof.
  intros Ha Hb. induction a as [|p a IH]; [contradiction|].
  destruct a as [|q a].
  - cbn [app]. now rewrite join_slash_cons.
  - change ((p :: q :: a) ++ b) with (p :: ((q :: a) ++ b)).
    rewrite !join_slash_cons by (try discriminate; now destruct a).
    rewrite IH by discriminate. now rewrite !JsFacts.app_assoc.
Qed.

Lemma split_join_plain (l : list string) :
  l <> [] -> Forall (fun s => plain s = true) l -> split (join_slash l) = l.
Proof.
  intros Hne Hall. induction Hall as [|p l Hp Hall IH]; [contradiction|].
  apply plain_spec in Hp as (_ & _ & _ & Hp).
  destruct l as [|q l].
  - cbn. now apply split_no_slash.
  - rewrite join_slash_cons by discriminate.
    rewrite split_app, split_no_slash by exact Hp. cbn [app]. f_equal.
    apply IH. discriminate.
Qed.

Lemma toPosix_join_plain (l : list string) :
  Forall (fun s => plain s = true) l -> toPosix (join_slash l) = join_slash l.
Proof.
  intros Hall. induction Hall as [|p l Hp Hall IH]; [reflexivity|].
  apply plain_spec in Hp as (_ & _ & _ & Hp).
  destruct l as [|q l].
  - cbn. now apply toPosix_no_slash.
  - rewrite join_slash_cons by discriminate.
    rewrite !toPosix_app, IH, toPosix_no_slash by exact Hp. reflexivity.
Qed.

(** Segments that are empty or plain: the plain ones are kept, in order. *)
Lemma fold_segment (allow : bool) (l stack : list string) :
  Forall (fun s => s = "" \/ plain s = true) l ->
  fold_left (segment allow) l stack = rev (kept l) ++ stack.
Proof.
  intros Hall. revert stack. induction Hall as [|s l Hs Hall IH]; intros stack;
    [reflexivity|].
  cbn [fold_left kept List.filter]. rewrite IH. destruct Hs as [->|Hs].
  - reflexivity.
  - apply plain_spec in Hs as (He & Hd & Hdd & _).
    unfold segment. rewrite !bool_decide_eq_false_2 by assumption. cbn [orb negb rev].
    now rewrite <- app_assoc.
Qed.

Lemma normalizeString_segments (path : string) (allow : bool) :
  Forall (fun s => s = "" \/ plain s = true) (split path) ->
  normalizeString path allow = join_slash (kept (split path)).
Proof.
  intros Hall. unfold normalizeString. rewrite fold_segment by exact Hall.
  now rewrite app_nil_r, rev_involutive.
Qed.

Lemma kept_plain (l : list string) : Forall (fun s => plain s = true) l -> kept l = l.
Proof.
  intros Hall. induction Hall as [|s l Hs Hall IH]; [reflexivity|].
  unfold kept in *. cbn [List.filter].
  apply plain_spec in Hs as (He & _). rewrite bool_decide_eq_false_2 by exact He.
  cbn [negb]. now rewrite IH.
Qed.

Lemma kept_app (a b : list string) : kept (a ++ b) = kept a ++ kept b.
Proof. apply List.filter_app. Qed.

Lemma Forall_plain_or (l : list string) :
  Forall (fun s => plain s = true) l -> Forall (fun s => s = "" \/ plain s = true) l.
Proof. intros Hall. eapply Forall_impl; [exact Hall|]. cbn. auto. Qed.

(** The loop of [resolve] over parts that are not empty and not absolute. *)
Lemma resolve_loop_relative (parts rest : list string) (acc : string) :
  Forall relative parts ->
  resolve_loop (rev parts ++ rest) acc
  = resolve_loop rest (fold_right (fun p r => p +:+ "/" +:+ r) acc parts).
Proof.
  intros Hall. revert rest. induction Hall as [|p ps [Hp Hrel] Hall IH]; intros rest;
    [reflexivity|].
  cbn [rev fold_right]. rewrite <- app_assoc. cbn [app]. rewrite IH.
  cbn [resolve_loop]. rewrite bool_decide_eq_false_2 by exact Hp. now rewrite Hrel.
Qed.

Lemma split_fold_right (parts : list string) :
  split (fold_right (fun p r => p +:+ "/" +:+ r) "" parts)
  = concat (map split parts) ++ [""].
Proof.
  induction parts as [|p ps IH]; [reflexivity|].
  cbn [fold_right map concat]. rewrite split_app, IH. now rewrite <- app_assoc.
Qed.

Lemma starts_with_slash_plain (s : string) : plain s = true -> relative s.
Proof.
  intros Hs. apply plain_spec in Hs as (He & _ & _ & Hs). split; [exact He|].
  destruct s as [|c s]; [reflexivity|]. unfold no_slash in Hs. cbn in Hs.
  apply andb_true_iff in Hs as [Hc _]. apply andb_true_iff in Hc as [Hc _].
  now apply negb_true_iff in Hc.
Qed.

Lemma split_absolute (segments : list string) :
  split (absolute segments) = "" :: split (join_slash segments).
Proof. reflexivity. Qed.

Lemma segments_join_plain (l : list string) :
  Forall (fun s => plain s = true) l ->
  Forall (fun s => s = "" \/ plain s = true) (split (join_slash l))
  /\ kept (split (join_slash l)) = l.
Proof.
  intros Hall. destruct l as [|p l].
  - cbn. split; [repeat constructor; auto | reflexivity].
  - rewrite split_join_plain by (discriminate || exact Hall).
    split; [now apply Forall_plain_or | now apply kept_plain].
Qed.

(** [resolve] of a normal absolute path and parts whose segments are
    empty or plain. *)
Lemma resolve_absolute (cwd : string) (R parts : list string) :
  Forall (fun s => plain s = true) R ->
  Forall relative parts ->
  Forall (fun s => s = "" \/ plain s = true) (concat (map split parts)) ->
  resolve cwd (absolute R :: parts)
  = absolute (R ++ kept (concat (map split parts))).
Proof.
  intros HR Hrel Hsegs. unfold resolve.
  change (rev (absolute R :: parts) ++ [cwd]) with ((rev parts ++ [absolute R]) ++ [cwd]).
  rewrite <- app_assoc. rewrite resolve_loop_relative by exact Hrel.
  cbn [app resolve_loop]. rewrite bool_decide_eq_false_2 by discriminate.
  cbn [starts_with_slash absolute String.append Ascii.eqb]. cbn -[split normalizeString].
  change (String "/" (join_slash R +:+ "/" +:+ ?x)) with (absolute R +:+ "/" +:+ x).
  destruct (segments_join_plain R HR) as [HsegR HkeptR].
  rewrite normalizeString_segments.
  - change (String "/" (join_slash R +:+ String "/" ?x))
      with (absolute R +:+ "/" +:+ x).
    rewrite split_app, split_absolute, split_fold_right.
    cbn [app kept List.filter bool_decide]. rewrite bool_decide_eq_true_2 by reflexivity.
    cbn [negb]. fold (kept (split (join_slash R) ++ concat (map split parts) ++ [""])).
    rewrite !kept_app, HkeptR. cbn. now rewrite app_nil_r.
  - change (String "/" (join_slash R +:+ String "/" ?x))
      with (absolute R +:+ "/" +:+ x).
    rewrite split_app, split_absolute, split_fold_right.
    constructor; [now left|]. apply Forall_app. split; [exact HsegR|].
    apply Forall_app. split; [exact Hsegs | repeat constructor; auto].
Qed.

End PathFacts.

Module CacheExtras.
Import Db Service ServiceFacts Examples Cache Courses MoreExamples.

Section WithCasts.
Variable jsonb_in : string -> option string.
Variable timestamptz_in : Z -> option Z.

(** X13.  What [cacheSet] stored is what [cacheGet] serves for the key,
    as long as the database clock is before the expiry; the other keys
    and the two tables are untouched, and [cacheDel] of the key removes
    one row, after which the key is not served. *)
Theorem cacheSet_then_cacheGet
    (app_now ttl : Z) (key text payload : string) (expires : Z) (d : Database) :
  Z.abs (app_now + ttl) <= MAX_TIME ->
  jsonb_in text = Some payload ->
  timestamptz_in (app_now + ttl) = Some expires ->
  exists d',
    cacheSet jsonb_in timestamptz_in app_now key (Some text) (Js.Num ttl) d = inr d'
    /\ submissions d' = submissions d
    /\ submission_events d' = submission_events d
    /\ (forall now, cacheGet now key d'
                    = if now <? expires then Some payload else None)
    /\ (forall now other, other <> key -> cacheGet now other d' = cacheGet now other d)
    /\ (cacheDel key d').1 = 1
    /\ (forall now, cacheGet now key (cacheDel key d').2 = None).
Proof.
  intros Hrange Hjson Htime. unfold cacheSet, new_Date.
  rewrite (proj2 (Z.leb_le _ _) Hrange), Hjson, Htime.
  eexists. split; [reflexivity|]. cbn [submissions submission_events].
  split; [reflexivity|]. split; [reflexivity|]. split; [|split; [|split]].
  - intros now. unfold cacheGet. cbn [cache]. now rewrite lookup_insert_eq.
  - intros now other Hne. unfold cacheGet. cbn [cache].
    now rewrite lookup_insert_ne by congruence.
  - unfold cacheDel. cbn [fst cache]. now rewrite lookup_insert_eq.
  - intros now. unfold cacheGet, cacheDel. cbn [snd cache]. now rewrite lookup_delete_eq.
Qed.

(** X14.  [cacheSet] fails with [Invalid time value] exactly when the
    time to live is not a number or the expiry is outside the range of
    a [Date]; whenever it succeeds, the cache differs by one upsert of
    the key. *)
Theorem cacheSet_failures
    (app_now : Z) (key : string) (json : option string) (ttlMs : Js.number) (d : Database) :
  (cacheSet jsonb_in timestamptz_in app_now key json ttlMs d = inl InvalidTime
   <-> forall t, ttlMs = Js.Num t -> MAX_TIME < Z.abs (app_now + t))
  /\ (forall d', cacheSet jsonb_in timestamptz_in app_now key json ttlMs d = inr d' ->
        exists t text payload expires,
          ttlMs = Js.Num t /\ json = Some text
          /\ jsonb_in text = Some payload /\ timestamptz_in (app_now + t) = Some expires
          /\ cache d' = <[key := {| cache_payload := payload; expires_at := expires |}]>
                          (cache d)).
Proof.
  unfold cacheSet, new_Date. split.
  - destruct ttlMs as [|t|s]; try (split; [discriminate || (intros _ t' [=]) | reflexivity]).
    destruct (Z.leb_spec (Z.abs (app_now + t)) MAX_TIME) as [Hle|Hgt].
    + split.
      * destruct json as [text|]; [|discriminate].
        destruct (jsonb_in text), (timestamptz_in (app_now + t)); discriminate.
      * intros Hall. specialize (Hall t eq_refl). lia.
    + split; [intros _ t' [= <-]; exact Hgt | reflexivity].
  - intros d'. destruct ttlMs as [|t|s]; try discriminate.
    destruct (Z.abs (app_now + t) <=? MAX_TIME); [|discriminate].
    destruct json as [text|]; [|discriminate].
    destruct (jsonb_in text) as [payload|] eqn:Hj; [|discriminate].
    destruct (timestamptz_in (app_now + t)) as [expires|] eqn:Ht; [|discriminate].
    intros [= <-]. exists t, text, payload, expires. auto 10.
Qed.

End WithCasts.

(** X15.  Sweeping is not seen by a reader: at any later time of the
    database clock [cacheGet] serves what it would have served without
    the sweep.  The rows that stay are those that expire later, and
    the number returned is the number of rows removed. *)
Theorem cacheSweepExpired_unseen (swept now : Z) (key : string) (d : Database) :
  swept <= now ->
  let d' := (cacheSweepExpired swept d).2 in
  cacheGet now key d' = cacheGet now key d
  /\ submissions d' = submissions d
  /\ submission_events d' = submission_events d
  /\ (forall k row, cache d' !! k = Some row <-> cache d !! k = Some row /\ swept < expires_at row)
  /\ (cacheSweepExpired swept d).1
     = Z.of_nat (base.size (cache d)) - Z.of_nat (base.size (cache d')).
Proof.
  intros Hle. cbv zeta. unfold cacheSweepExpired. cbn [fst snd cache submissions submission_events].
  split; [|split; [reflexivity|split; [reflexivity|split]]].
  - unfold cacheGet. cbn [cache].
    destruct (cache d !! key) as [row|] eqn:Hrow.
    + destruct (decide (expires_at row <= swept)) as [Hexp|Hlive].
      * rewrite (map_lookup_filter_None_2 _ _ key).
        -- destruct (Z.ltb_spec now (expires_at row)); [lia | reflexivity].
        -- right. intros row' Hrow'. rewrite Hrow in Hrow'. injection Hrow' as <-. cbn. lia.
      * now rewrite (map_lookup_filter_Some_2 _ _ key row Hrow Hlive).
    + rewrite (map_lookup_filter_None_2 _ _ key); [reflexivity | now left].
  - intros k row. rewrite map_lookup_filter_Some. cbn. split; intros [? ?]; split; auto; lia.
  - pose proof (map_size_disj_union
                  (filter (fun kv => expires_at kv.2 <= swept) (cache d))
                  (filter (fun kv => ~ expires_at kv.2 <= swept) (cache d))
                  (map_disjoint_filter_complement _ _)) as Hsize.
    rewrite map_filter_union_complement in Hsize. lia.
Qed.

(** ** The cache of memory.ts *)

Lemma to_number_safe (m : Z) : Z.abs m < 2 ^ 53 -> Js.to_number m = Js.Num m.
Proof.
  intros Hm. unfold Js.to_number.
  assert (Hover : 2 ^ 53 < Js.OVERFLOW) by (vm_compute; reflexivity).
  rewrite (proj2 (Z.leb_gt _ _)) by lia.
  rewrite PrintFacts.round53_safe by lia.
  f_equal. rewrite Z.mul_comm. apply Z.abs_sgn.
Qed.

(** X17.  The cache in memory: a value that was set is served while
    [Date.now()] is before the expiry, for a time to live that is not a
    number or is infinite it is served for ever, an expired entry is
    removed by the read that finds it, and other keys are not touched. *)
Theorem memory_cacheSet_then_cacheGet {T : Type}
    (now now' : Z) (key : string) (v : T) (ttlMs : Js.number)
    (map : gmap string (MemoryCache.Entry T)) :
  let map' := MemoryCache.cacheSet now key v ttlMs map in
  let got := MemoryCache.cacheGet now' key map' in
  (got = (Some v, map') \/ got = (None, delete key map))
  /\ (forall t, ttlMs = Js.Num t -> Z.abs (now + t) < 2 ^ 53 ->
        (got.1 = Some v <-> now' < now + t))
  /\ (ttlMs = Js.NaN \/ ttlMs = Js.Infinity false -> got = (Some v, map'))
  /\ (forall other, other <> key ->
        got.2 !! other = map !! other
        /\ (MemoryCache.cacheGet now' other map').1 = (MemoryCache.cacheGet now' other map).1).
Proof.
  cbv zeta. unfold MemoryCache.cacheGet at 1 2 3 4 5, MemoryCache.cacheSet.
  rewrite lookup_insert_eq. cbn [MemoryCache.expiresAt MemoryCache.value].
  split; [|split; [|split]].
  - destruct (MemoryCache.ge _ _); [right | left]; [|reflexivity].
    now rewrite delete_insert_eq.
  - intros t -> Hsafe. cbn [MemoryCache.plus]. rewrite to_number_safe by exact Hsafe.
    cbn [MemoryCache.ge]. destruct (Z.leb_spec (now + t) now'); cbn [fst]; split;
      [discriminate | intros; lia | intros; lia | reflexivity].
  - intros [-> | ->]; reflexivity.
  - intros other Hne. split.
    + destruct (MemoryCache.ge _ _); cbn [snd].
      * rewrite lookup_delete_ne by congruence. now rewrite lookup_insert_ne by congruence.
      * now rewrite lookup_insert_ne by congruence.
    + unfold MemoryCache.cacheGet. rewrite lookup_insert_ne by congruence.
      destruct (map !! other) as [e|]; [destruct (MemoryCache.ge _ _)|]; reflexivity.
Qed.

(** X18.  The two caches agree: when the database reads the expiry
    as written and its clock shows the same instant as the app's, an
    entry that [cacheSet] of the database cache stored is served exactly
    when the cache in memory would serve it. *)
Theorem caches_agree {T : Type}
    (jsonb_in : string -> option string) (timestamptz_in : Z -> option Z)
    (now now' ttl : Z) (key text : string) (v : T)
    (d d' : Database) (map : gmap string (MemoryCache.Entry T)) :
  timestamptz_in (now + ttl) = Some (1000 * (now + ttl)) ->
  cacheSet jsonb_in timestamptz_in now key (Some text) (Js.Num ttl) d = inr d' ->
  is_Some (cacheGet (1000 * now') key d')
  <-> is_Some (MemoryCache.cacheGet now' key (MemoryCache.cacheSet now key v (Js.Num ttl) map)).1.
Proof.
  intros Htime Hset. unfold cacheSet, new_Date in Hset.
  destruct (Z.leb_spec (Z.abs (now + ttl)) MAX_TIME) as [Hrange|]; [|discriminate].
  destruct (jsonb_in text) as [payload|]; [|discriminate].
  rewrite Htime in Hset. injection Hset as <-.
  assert (Hmax : MAX_TIME < 2 ^ 53) by (vm_compute; reflexivity).
  unfold cacheGet, MemoryCache.cacheGet, MemoryCache.cacheSet. cbn [cache].
  rewrite !lookup_insert_eq. cbn [expires_at cache_payload MemoryCache.expiresAt
    MemoryCache.value MemoryCache.plus].
  rewrite to_number_safe by lia. cbn [MemoryCache.ge].
  destruct (Z.ltb_spec (1000 * now') (1000 * (now + ttl)));
    destruct (Z.leb_spec (now + ttl) now'); cbn [fst]; try lia;
    split; intros [? Heq]; try discriminate Heq; eauto.
Qed.

Lemma cacheSet_then_cacheGet_witness :
  exists d',
    cacheSet jsonb_any timestamptz_exact 1000 (keyFor "0" "50") (Some "{}") (Js.Num 30000)
      empty_db = inr d'
    /\ cacheGet 30999999 (keyFor "0" "50") d' = Some "{}"
    /\ cacheGet 31000000 (keyFor "0" "50") d' = None.
Proof.
  destruct (cacheSet_then_cacheGet jsonb_any timestamptz_exact 1000 30000
              (keyFor "0" "50") "{}" "{}" 31000000 empty_db)
    as (d' & Hset & _ & _ & Hget & _).
  - vm_compute. discriminate.
  - reflexivity.
  - reflexivity.
  - exists d'. split; [exact Hset|]. split; rewrite Hget; reflexivity.
Defined.

Lemma cacheSweepExpired_unseen_witness :
  cacheGet 7 "new" (cacheSweepExpired 5 two_entries).2 = Some "[2]"
  /\ cacheGet 7 "old" (cacheSweepExpired 5 two_entries).2 = None
  /\ cache (cacheSweepExpired 5 two_entries).2 !! "old" = None
  /\ (cacheSweepExpired 5 two_entries).1 = 1.
Proof.
  destruct (cacheSweepExpired_unseen 5 7 "new" two_entries) as (Hnew & _); [lia|].
  split; [rewrite Hnew; vm_compute; reflexivity|].
  split; [vm_compute; reflexivity|]. split; vm_compute; reflexivity.
Defined.

Lemma caches_agree_witness :
  is_Some (cacheGet 2000000 "k"
             {| submissions := []; submission_events := [];
                cache := {[ "k" := {| cache_payload := "1"; expires_at := 31000000 |} ]} |})
  <-> is_Some (MemoryCache.cacheGet 2000 "k"
                 (MemoryCache.cacheSet 1000 "k" 1%nat (Js.Num 30000) ∅)).1.
Proof.
  apply (caches_agree jsonb_any timestamptz_exact 1000 2000 30000 "k" "1" 1%nat empty_db).
  - reflexivity.
  - reflexivity.
Defined.

End CacheExtras.

Module UploadExtras.
Import Js JsFacts Service Controller Uploads.

Lemma lower_case_app (a b : string) :
  lower_case (a +:+ b) = lower_case a +:+ lower_case b.
Proof. induction a as [|c a IH]; cbn; [reflexivity | now rewrite IH]. Qed.

Lemma test_i_prefix (w rest : string) : test_i w (w +:+ rest) = true.
Proof.
  unfold test_i. rewrite lower_case_app. apply test_word.
  exists "", (lower_case rest). reflexivity.
Qed.

Lemma mapStatusToCode_known (status : Z) : mapStatusToCode status ∈ ERROR_CODES.
Proof.
  unfold mapStatusToCode, ERROR_CODES.
  repeat match goal with |- context [if ?b then _ else _] => destruct b end;
    repeat constructor.
Qed.

(** X19.  The upload filter accepts a type exactly when [pickExt] has
    an extension for it.  A type that it refuses is answered, through
    [multerErrors] and [errorHandler], with 415 and the code
    [BadRequest]. *)
Theorem unsupported_mime_answer (req : Request) (res_statusCode : Z) (mimetype : string) :
  (mimetype ∈ allowed <-> fileFilter mimetype = None)
  /\ (mimetype ∈ allowed <-> pickExt mimetype <> "")
  /\ (mimetype ∉ allowed ->
      exists err, fileFilter mimetype = Some err
        /\ errorHandler req res_statusCode (multerErrors err)
           = sendError req 415 "BadRequest" ("Unsupported mime: " +:+ mimetype)).
Proof.
  split; [|split].
  - unfold fileFilter. destruct (bool_decide_reflect (mimetype ∈ allowed)); split;
      auto; try discriminate; contradiction.
  - split.
    + intros Hin. unfold allowed in Hin.
      repeat (apply elem_of_cons in Hin as [->|Hin]; [vm_compute; discriminate|]).
      now apply elem_of_nil in Hin.
    + unfold pickExt, allowed.
      repeat match goal with
             | |- context [bool_decide (?a = ?b)] =>
                 destruct (bool_decide_reflect (a = b)) as [->|?];
                 [intros _; repeat constructor|]
             end.
      intros Hne. now destruct Hne.
  - intros Hno. unfold fileFilter. rewrite bool_decide_eq_false_2 by exact Hno.
    eexists. split; [reflexivity|].
    unfold multerErrors. cbn [is_MulterError err_message].
    change ("Unsupported mime: " +:+ mimetype)
      with ("Unsupported mime" +:+ (": " +:+ mimetype)) at 1.
    rewrite (test_i_prefix "Unsupported mime" (": " +:+ mimetype)).
    unfold errorHandler. cbn [with_statusCode statusCode err_message].
    rewrite bool_decide_eq_false_2 by discriminate. reflexivity.
Qed.

(** X20.  The answers of the error handler behind [multerErrors]: an
    error body with a code of [ERROR_CODES], which is [InternalError]
    exactly for a status of 500 or more, and a message that is not
    empty.  An error of multer is answered with 413 for
    [LIMIT_FILE_SIZE] and 400 otherwise, both with [BadRequest]; any
    other error keeps the status it carries, whatever it is, or gets
    that of the response when that is 400 or more, and 500 otherwise. *)
Theorem errorHandler_answers (req : Request) (res_statusCode : Z) (err : HttpError) :
  let res := errorHandler req res_statusCode (multerErrors err) in
  (exists code message,
     res_body res = ErrorBody code message (req_correlationId req)
     /\ code ∈ ERROR_CODES
     /\ message <> ""
     /\ (code = "InternalError" <-> 500 <= res_status res))
  /\ (is_MulterError err = true ->
      res_status res = (if bool_decide (err_code err = Some "LIMIT_FILE_SIZE")
                        then 413 else 400)
      /\ exists message, res_body res = ErrorBody "BadRequest" message (req_correlationId req))
  /\ (is_MulterError err = false ->
      test_i "Unsupported mime" (err_message err) = false ->
      res_status res = match statusCode err with
                       | Some explicit => explicit
                       | None => if 400 <=? res_statusCode then res_statusCode else 500
                       end).
Proof.
  cbv zeta. split; [|split].
  - unfold errorHandler, sendError. cbn [res_body res_status].
    do 2 eexists. split; [reflexivity|]. split; [apply mapStatusToCode_known|]. split.
    + destruct (bool_decide_reflect (err_message (multerErrors err) = ""));
        [discriminate | assumption].
    + set (status := match statusCode (multerErrors err) with
                     | Some explicit => explicit
                     | None => _ end).
      unfold mapStatusToCode.
      repeat match goal with
             | |- context [?a =? ?b] => destruct (Z.eqb_spec a b)
             end; try (split; [discriminate | lia]).
      destruct (Z.leb_spec 500 status); split; auto; try discriminate; lia.
  - intros Hm. unfold multerErrors. rewrite Hm.
    destruct (bool_decide (err_code err = Some "LIMIT_FILE_SIZE"));
      unfold errorHandler; cbn; eauto.
  - intros Hm Hno. unfold multerErrors. rewrite Hm, Hno. reflexivity.
Qed.

End UploadExtras.

Module LocalFsExtras.
Import Js Db Service Path LocalFs PathFacts MoreExamples.

Lemma concat_split_plain (l : list string) :
  Forall (fun s => plain s = true) l -> concat (map split l) = l.
Proof.
  intros Hall. induction Hall as [|p l Hp Hall IH]; [reflexivity|].
  cbn [map concat]. apply plain_spec in Hp as (_ & _ & _ & Hp).
  now rewrite split_no_slash, IH.
Qed.

Lemma ends_with_slash_app (a b : string) :
  b <> "" -> ends_with_slash (a +:+ b) = ends_with_slash b.
Proof.
  intros Hb. induction a as [|c a IH]; [reflexivity|].
  change (String c a +:+ b) with (String c (a +:+ b)). cbn [ends_with_slash].
  rewrite IH. destruct (a +:+ b) eqn:E; [|reflexivity].
  destruct a; [cbn in E; contradiction | discriminate].
Qed.

Lemma ends_with_slash_no_slash (s : string) : no_slash s -> ends_with_slash s = false.
Proof.
  unfold no_slash. induction s as [|c s IH]; [reflexivity|].
  cbn. intros Hc. apply andb_true_iff in Hc as [Hc Hs].
  apply andb_true_iff in Hc as [Hc _]. apply negb_true_iff in Hc.
  destruct s; [exact Hc | now apply IH].
Qed.

Lemma join_slash_shape (l : list string) :
  l <> [] -> Forall (fun s => plain s = true) l ->
  join_slash l <> "" /\ starts_with_slash (join_slash l) = false
  /\ ends_with_slash (join_slash l) = false.
Proof.
  intros Hne Hall. induction Hall as [|p l Hp Hall IH]; [contradiction|].
  destruct (starts_with_slash_plain p Hp) as [He Hrel].
  apply plain_spec in Hp as (_ & _ & _ & Hp).
  destruct l as [|q l].
  - cbn. split; [exact He|]. split; [exact Hrel | now apply ends_with_slash_no_slash].
  - destruct IH as (Hne' & _ & Hend); [discriminate|].
    rewrite join_slash_cons by discriminate. split; [|split].
    + destruct p; [contradiction | discriminate].
    + destruct p; [contradiction | exact Hrel].
    + rewrite ends_with_slash_app by discriminate.
      change ("/" +:+ join_slash (q :: l)) with (String "/" (join_slash (q :: l))).
      cbn [ends_with_slash]. destruct (join_slash (q :: l)); [contradiction | exact Hend].
Qed.

Lemma normalize_plain (l : list string) :
  l <> [] -> Forall (fun s => plain s = true) l ->
  normalize (join_slash l) = join_slash l.
Proof.
  intros Hne Hall. destruct (join_slash_shape l Hne Hall) as (He & Hs & Ht).
  unfold normalize. rewrite bool_decide_eq_false_2 by exact He. rewrite Hs, Ht.
  cbn [negb]. rewrite normalizeString_segments;
    rewrite split_join_plain by assumption; [|now apply Forall_plain_or].
  rewrite kept_plain by exact Hall. now rewrite bool_decide_eq_false_2 by exact He.
Qed.

Lemma join_plain (l : list string) :
  l <> [] -> Forall (fun s => plain s = true) l -> Path.join l = join_slash l.
Proof.
  intros Hne Hall. unfold Path.join. fold (kept l). rewrite kept_plain by exact Hall.
  destruct l; [contradiction|]. now apply normalize_plain.
Qed.

Lemma lower_alphanumeric (c : ascii) :
  alphanumeric c = true ->
  negb (Ascii.eqb (Uploads.lower c) "/") && negb (Ascii.eqb (Uploads.lower c) "092") = true.
Proof.
  destruct c as [[] [] [] [] [] [] [] []]; vm_compute; congruence.
Qed.

Lemma no_slash_lower (s : string) :
  forallb alphanumeric (list_ascii_of_string s) = true -> no_slash (Uploads.lower_case s).
Proof.
  unfold no_slash. induction s as [|c s IH]; [reflexivity|].
  cbn. intros Hc. apply andb_true_iff in Hc as [Hc Hs].
  now rewrite (lower_alphanumeric c Hc), (IH Hs).
Qed.

Lemma plain_fileName (ext : string) :
  extension_pattern ext = true -> plain ("original" +:+ Uploads.lower_case ext) = true.
Proof.
  intros Hext. destruct ext as [|d [|c rest]]; try discriminate.
  { cbn in Hext. destruct d as [[] [] [] [] [] [] [] []]; discriminate. }
  assert (Hd : d = "."%char).
  { cbn in Hext. destruct d as [[] [] [] [] [] [] [] []]; try discriminate. reflexivity. }
  subst d. cbn in Hext. apply plain_spec.
  split; [discriminate|]. split; [discriminate|]. split; [discriminate|].
  pose proof (no_slash_lower (String c rest) Hext) as Hlow.
  unfold no_slash in *. cbn in *. exact Hlow.
Qed.

Section WithFileSystem.
Context {Fs : Type} `{FileSystem Fs}.
Variable sha256_hex : list byte -> string.

(** The segments of the working directory. *)
Variable C : list string.
Hypothesis C_plain : Forall (fun s => plain s = true) C.

Lemma root_absolute : root (absolute C) = absolute (C ++ ["artifacts"]).
Proof.
  unfold root. rewrite (resolve_absolute (absolute C) C ["artifacts"] C_plain).
  - reflexivity.
  - constructor; [split; [discriminate | reflexivity] | constructor].
  - constructor; [now right | constructor].
Qed.

Lemma safeJoin_inside (R parts : list string) :
  R <> [] ->
  Forall (fun s => plain s = true) R ->
  Forall relative parts ->
  Forall (fun s => s = "" \/ plain s = true) (concat (map split parts)) ->
  kept (concat (map split parts)) <> [] ->
  safeJoin (absolute C) (absolute R) parts
  = Return (absolute (R ++ kept (concat (map split parts)))).
Proof.
  intros HR Hplain Hrel Hsegs Hkept. unfold safeJoin.
  rewrite (resolve_absolute _ R parts Hplain Hrel Hsegs).
  rewrite (resolve_absolute _ R [] Hplain) by constructor.
  cbn [map concat kept List.filter]. rewrite app_nil_r.
  assert (Hshape : absolute (R ++ kept (concat (map split parts)))
                   = (absolute R +:+ "/") +:+ join_slash (kept (concat (map split parts)))).
  { unfold absolute. rewrite join_slash_app by assumption.
    now rewrite !JsFacts.app_assoc. }
  rewrite Hshape, prefix_append. reflexivity.
Qed.

(** X21.  Where the local provider puts an artifact.  In a working
    directory in normal form, for a directory, an assignment id and a
    submission id that are plain segments and an extension that passes
    the check, the artifact goes to
    [<cwd>/artifacts/<grade or class>/<assignment>/<submission>/original<ext>]
    and its storage path is that path below [artifacts]; and
    [getReadLocator] of the storage path gives the same absolute path
    back. *)
Theorem saveOriginal_layout (args : SaveArgs) (fs fs1 fs2 : Fs) :
  let file := "original" +:+ Uploads.lower_case (dotted (save_ext args)) in
  let segments := [dir_of args; save_assignmentId args; save_submissionId args] in
  plain (dir_of args) = true ->
  plain (save_assignmentId args) = true ->
  plain (save_submissionId args) = true ->
  extension_pattern (dotted (save_ext args)) = true ->
  mkdir_recursive (absolute (C ++ "artifacts" :: segments)) fs = (Return (), fs1) ->
  writeFile (absolute (C ++ "artifacts" :: segments ++ [file])) (save_buf args) fs1
    = (Return (), fs2) ->
  saveOriginal (absolute C) sha256_hex args fs
  = (Return {| storagePath := join_slash (segments ++ [file]);
               absolutePath := absolute (C ++ "artifacts" :: segments ++ [file]);
               saved_sha256 := sha256_hex (save_buf args);
               saved_size := Js.buf_length (save_buf args) |}, fs2)
  /\ getReadLocator (absolute C) (join_slash (segments ++ [file]))
     = Return (LocalLocator (absolute (C ++ "artifacts" :: segments ++ [file]))).
Proof.
  cbv zeta. intros Hd Ha Hs Hext Hmkdir Hwrite.
  set (file := "original" +:+ Uploads.lower_case (dotted (save_ext args))) in *.
  set (segments := [dir_of args; save_assignmentId args; save_submissionId args]) in *.
  assert (Hfile : plain file = true) by now apply plain_fileName.
  assert (Hsegs : Forall (fun s => plain s = true) segments) by (repeat constructor; assumption).
  assert (Hall : Forall (fun s => plain s = true) (segments ++ [file])).
  { apply Forall_app. split; [exact Hsegs | repeat constructor; exact Hfile]. }
  assert (Hroot : Forall (fun s => plain s = true) (C ++ ["artifacts"])).
  { apply Forall_app. split; [exact C_plain | repeat constructor]. }
  assert (Hpath : storagePath_of args = join_slash (segments ++ [file])).
  { unfold storagePath_of. fold file. fold segments.
    rewrite (join_plain segments) by (discriminate || exact Hsegs).
    rewrite toPosix_join_plain by exact Hsegs.
    unfold Path.join. cbn [List.filter].
    destruct (join_slash_shape segments ltac:(discriminate) Hsegs) as (Hne & _).
    rewrite bool_decide_eq_false_2 by exact Hne.
    apply plain_spec in Hfile as Hfile'. destruct Hfile' as (Hfne & _).
    rewrite bool_decide_eq_false_2 by exact Hfne. cbn [negb].
    change (join_slash [join_slash segments; file])
      with (join_slash segments +:+ "/" +:+ join_slash [file]).
    rewrite <- join_slash_app by discriminate.
    rewrite normalize_plain by (exact Hall || discriminate).
    now apply toPosix_join_plain. }
  assert (Hjoin : forall parts,
            parts <> [] -> Forall (fun s => plain s = true) parts ->
            safeJoin (absolute C) (root (absolute C)) parts
            = Return (absolute (C ++ "artifacts" :: parts))).
  { intros parts Hne Hparts. rewrite root_absolute.
    rewrite safeJoin_inside; rewrite ?concat_split_plain by exact Hparts.
    - rewrite kept_plain by exact Hparts. now rewrite <- app_assoc.
    - now destruct C.
    - exact Hroot.
    - eapply Forall_impl; [exact Hparts|]. apply starts_with_slash_plain.
    - now apply Forall_plain_or.
    - rewrite kept_plain by exact Hparts. exact Hne. }
  assert (Hwhole : safeJoin (absolute C) (root (absolute C)) [join_slash (segments ++ [file])]
                   = Return (absolute (C ++ "artifacts" :: segments ++ [file]))).
  { rewrite root_absolute.
    destruct (join_slash_shape (segments ++ [file]) ltac:(discriminate) Hall) as (Hne & Hst & _).
    rewrite safeJoin_inside; cbn [map concat]; rewrite ?app_nil_r,
      ?split_join_plain by (discriminate || exact Hall).
    - rewrite kept_plain by exact Hall. now rewrite <- app_assoc.
    - now destruct C.
    - exact Hroot.
    - repeat constructor; assumption.
    - now apply Forall_plain_or.
    - rewrite kept_plain by exact Hall. discriminate. }
  split.
  - unfold saveOriginal. rewrite Hext. cbn [negb]. rewrite Hpath.
    rewrite split_join_plain by (discriminate || exact Hall).
    change (removelast (segments ++ [file])) with segments.
    rewrite (Hjoin segments) by (discriminate || exact Hsegs).
    rewrite Hwhole, Hmkdir, Hwrite. reflexivity.
  - unfold getReadLocator. rewrite toPosix_join_plain by exact Hall.
    rewrite split_join_plain by (discriminate || exact Hall).
    rewrite (Hjoin (segments ++ [file])) by (discriminate || exact Hall).
    reflexivity.
Qed.

End WithFileSystem.

Section AnyDirectory.
Context {Fs : Type} `{FileSystem Fs}.
Variable sha256_hex : list byte -> string.
Variable cwd : string.


(** X23.  [saveOriginal] of the local provider stays inside its root:
    either it throws an error of its own and the file system is as it
    was, or the one directory it creates and the one file it writes are
    strictly below the root, and it fails only as those two calls
    fail. *)
Theorem saveOriginal_stays_inside (args : SaveArgs) (fs : Fs) :
  let inside path :=
    String.prefix (Path.resolve cwd [root cwd] +:+ "/") path = true in
  (exists message, saveOriginal cwd sha256_hex args fs = (Throw (Error message), fs))
  \/ exists absDir absolutePath,
       inside absDir /\ inside absolutePath
       /\ ((exists e fs1, mkdir_recursive absDir fs = (Throw e, fs1)
                          /\ saveOriginal cwd sha256_hex args fs = (Throw e, fs1))
           \/ (exists fs1 e fs2,
                 mkdir_recursive absDir fs = (Return (), fs1)
                 /\ writeFile absolutePath (save_buf args) fs1 = (Throw e, fs2)
                 /\ saveOriginal cwd sha256_hex args fs = (Throw e, fs2))
           \/ (exists fs1 fs2 saved,
                 mkdir_recursive absDir fs = (Return (), fs1)
                 /\ writeFile absolutePath (save_buf args) fs1 = (Return (), fs2)
                 /\ saveOriginal cwd sha256_hex args fs = (Return saved, fs2)
                 /\ Service.absolutePath saved = absolutePath)).
Proof.
  cbv zeta. unfold saveOriginal.
  destruct (extension_pattern (dotted (save_ext args))); cbn [negb]; [|left; eauto].
  unfold safeJoin.
  destruct (String.prefix _ (Path.resolve cwd (root cwd :: removelast _))) eqn:Hdir;
    cbn [negb]; [|left; eauto].
  destruct (String.prefix _ (Path.resolve cwd [root cwd; _])) eqn:Hfile;
    cbn [negb]; [|left; eauto].
  right. do 2 eexists. split; [exact Hdir|]. split; [exact Hfile|].
  destruct (mkdir_recursive _ fs) as [[[]|e] fs1] eqn:Hmkdir;
    [|left; exists e, fs1; split; reflexivity].
  destruct (writeFile _ _ fs1) as [[[]|e] fs2] eqn:Hwrite; right; [right | left].
  - do 3 eexists. split; [reflexivity|]. split; [exact Hwrite|]. split; reflexivity.
  - exists fs1, e, fs2. split; [reflexivity|]. split; [exact Hwrite | reflexivity].
Qed.

End AnyDirectory.

Lemma saveOriginal_layout_witness :
  saveOriginal "/srv/app" Examples.digest
    (save_args (Examples.quiet "sub_1") Examples.hello) ∅
  = (Return {| storagePath := "class/a1/sub_1/original.txt";
               absolutePath := "/srv/app/artifacts/class/a1/sub_1/original.txt";
               saved_sha256 := "sha:hello"; saved_size := 5 |},
     {[ "/srv/app/artifacts/class/a1/sub_1/original.txt" := buf Examples.hello ]})
  /\ getReadLocator "/srv/app" "class/a1/sub_1/original.txt"
     = Return (LocalLocator "/srv/app/artifacts/class/a1/sub_1/original.txt").
Proof.
  apply (saveOriginal_layout Examples.digest ["srv"; "app"]
           ltac:(repeat constructor)
           (save_args (Examples.quiet "sub_1") Examples.hello) ∅ ∅
           {[ "/srv/app/artifacts/class/a1/sub_1/original.txt" := buf Examples.hello ]});
    reflexivity.
Defined.

End LocalFsExtras.

(* ===================================================================== *)
(** * The service on a database that can refuse a statement *)
(* ===================================================================== *)

Module RefusingFacts.
Import Db Service ServiceFacts.

Lemma insert_event_inr (d d' : Database) (e : EventRow) :
  insert_event d e = inr d' -> d' = Refusing.with_event d e.
Proof.
  unfold insert_event.
  destruct (negb (bool_decide _)); [discriminate|].
  destruct (negb (existsb _ _)); [discriminate|]. now intros [= <-].
Qed.

Lemma answer_inr {A : Type} (refuses : Refusing.Statement -> Database -> option Exn)
    (s : Refusing.Statement) (d : Database) (r : string + A) (a : A) :
  Refusing.answer refuses s d r = inr a -> refuses s d = None /\ r = inr a.
Proof.
  unfold Refusing.answer. destruct (refuses s d); [discriminate|].
  destruct r; [discriminate|]. now intros [= ->].
Qed.

Section WithProvider.
Context {Store : Type} `{StorageProvider Store}.
Variable sha256_hex : list byte -> string.

Ltac open_service :=
  unfold Service.createSubmission, Refusing.createSubmission, mbind, M_bind, mret, M_ret,
    throw, try_catch, Service.query_by_triple, Refusing.query_by_triple,
    storage_saveOriginal, yield, Service.query_insert_submission,
    Refusing.query_insert_submission, Service.query_insert_event,
    Refusing.query_insert_event, Service.cacheDelByPrefix, Refusing.cacheDelByPrefix,
    Refusing.turn, Refusing.answer, log;
  cbv beta iota zeta delta [db store journal].

(** Without refusals, and with the other requests before the [INSERT] of
    the row only, the service is that of [Service]. *)
Lemma createSubmission_as_service (env : Env) (opts : CreateOpts) (m : Machine Store) :
  Refusing.createSubmission sha256_hex Refusing.nothing (Refusing.once env) env opts m
  = Service.createSubmission sha256_hex env opts m.
Proof.
  destruct m as [d st j]. open_service. unfold Refusing.nothing, Refusing.once.
  destruct (MAX_BYTES <? Js.buf_length (buf opts)); [reflexivity|].
  destruct (select_by_triple d _ _ _); [reflexivity|].
  destruct (saveOriginal _ st) as [[saved|e] st']; [|reflexivity].
  cbv beta iota zeta delta [db store journal].
  destruct (insert_submission _ _) as [sqlstate|d1]; cbv beta iota zeta delta [db store journal].
  - destruct (bool_decide _); [|reflexivity].
    destruct (select_by_triple _ _ _ _); reflexivity.
  - destruct (insert_event d1 _) as [s1|d2]; cbv beta iota zeta delta [db store journal]; [reflexivity|].
    destruct (delete_cache_by_prefix d2 _) as [removed d3]. cbv beta iota zeta delta [db store journal].
    destruct (bool_decide _).
    + destruct (insert_event d3 _); reflexivity.
    + destruct (ocrRequired _); [destruct (insert_event d3 _)|]; reflexivity.
Qed.

Variable refuses : Refusing.Statement -> Database -> option Exn.
Variable between : nat -> Database -> Database.

(** The run of a call, place by place. *)
Lemma create_run (env : Env) (opts : CreateOpts) (m : Machine Store) :
  let a := assignmentId opts in
  let s := studentId opts in
  let h := sha256_hex (buf opts) in
  let d0 := Refusing.at_lookup between (db m) in
  let d1 := Refusing.at_insert between (db m) in
  let d2 := Refusing.at_requery between (db m) in
  Refusing.createSubmission sha256_hex refuses between env opts m
  = if MAX_BYTES <? Js.buf_length (buf opts) then (Throw too_large, m)
    else
      match Refusing.answer refuses (Refusing.SelectByTriple a s h) d0
              (inr (select_by_triple d0 a s h)) with
      | inl e => (Throw e, {| db := d0; store := store m; journal := journal m |})
      | inr (Some hit) =>
          (Return (hit_result hit), {| db := d0; store := store m; journal := journal m |})
      | inr None =>
          match saveOriginal (save_args env opts) (store m) with
          | (Throw e, st) =>
              (Throw e, {| db := d0; store := st;
                           journal := journal m ++ [CallSaveOriginal (save_args env opts)] |})
          | (Return saved, st) =>
              let row := the_row sha256_hex env opts saved in
              let created := created_event opts (candidateId env) saved in
              let follow := Refusing.follow_up_event opts (candidateId env) in
              let j1 := journal m ++ [CallSaveOriginal (save_args env opts);
                                      CallInsertSubmission row] in
              let issued (calls : list Call) :=
                journal m ++ CallSaveOriginal (save_args env opts)
                             :: CallInsertSubmission row :: calls in
              match Refusing.answer refuses (Refusing.InsertSubmission row) d1
                      (insert_submission d1 row) with
              | inl e =>
                  if bool_decide (exn_code e = Some "23505") then
                    match Refusing.answer refuses (Refusing.SelectByTriple a s h) d2
                            (inr (select_by_triple d2 a s h)) with
                    | inl e' => (Throw e', {| db := d2; store := st; journal := j1 |})
                    | inr (Some winner) =>
                        (Return (hit_result winner),
                         {| db := d2; store := st; journal := j1 |})
                    | inr None => (Throw e, {| db := d2; store := st; journal := j1 |})
                    end
                  else (Throw e, {| db := d1; store := st; journal := j1 |})
              | inr _ =>
                  let d3 := Refusing.at_created between (db m) row in
                  let d4 := Refusing.at_delete between (db m) row created in
                  let d5 := Refusing.at_follow_up between (db m) row created in
                  match Refusing.answer refuses (Refusing.InsertEvent created) d3
                          (insert_event d3 created) with
                  | inl e =>
                      (Throw e, {| db := d3; store := st;
                                   journal := issued [CallInsertEvent created] |})
                  | inr _ =>
                      match Refusing.answer refuses
                              (Refusing.DeleteCacheByPrefix "courses:v1:") d4
                              (inr (delete_cache_by_prefix d4 "courses:v1:")) with
                      | inl e =>
                          (Throw e,
                           {| db := d4; store := st;
                              journal := issued [CallInsertEvent created;
                                                CallCacheDelByPrefix "courses:v1:"] |})
                      | inr _ =>
                          match Refusing.answer refuses (Refusing.InsertEvent follow) d5
                                  (insert_event d5 follow) with
                          | inl e =>
                              (Throw e,
                               {| db := d5; store := st;
                                  journal := issued [CallInsertEvent created;
                                                    CallCacheDelByPrefix "courses:v1:";
                                                    CallInsertEvent follow] |})
                          | inr d' =>
                              (Return (Refusing.fresh env opts),
                               {| db := d'; store := st;
                                  journal := issued [CallInsertEvent created;
                                                    CallCacheDelByPrefix "courses:v1:";
                                                    CallInsertEvent follow] |})
                          end
                      end
                  end
              end
          end
      end.
Proof.
  cbv zeta. destruct m as [d st j]. open_service.
  unfold Refusing.at_follow_up, Refusing.at_delete, Refusing.at_created,
    Refusing.at_requery, Refusing.at_insert, Refusing.at_lookup.
  destruct (MAX_BYTES <? Js.buf_length (buf opts)); [reflexivity|].
  destruct (refuses (Refusing.SelectByTriple _ _ _) (between 0 d)); [reflexivity|].
  destruct (select_by_triple (between 0 d) _ _ _); [reflexivity|].
  fold (save_args env opts).
  destruct (saveOriginal _ st) as [[saved|e] st']; [|reflexivity].
  cbv beta iota zeta delta [db store journal].
  fold (the_row sha256_hex env opts saved).
  set (row := the_row sha256_hex env opts saved).
  set (d1 := between 1 (between 0 d)).
  rewrite <- !app_assoc. cbn [app].
  destruct (refuses (Refusing.InsertSubmission row) d1) as [e|].
  { destruct (bool_decide (exn_code e = Some "23505")); [|reflexivity].
    destruct (refuses (Refusing.SelectByTriple _ _ _) (between 2 d1)); [reflexivity|].
    destruct (select_by_triple (between 2 d1) _ _ _); reflexivity. }
  destruct (insert_submission d1 row) as [sqlstate|d1'] eqn:Hins.
  { destruct (bool_decide (exn_code (pg_error sqlstate) = Some "23505")); [|reflexivity].
    destruct (refuses (Refusing.SelectByTriple _ _ _) (between 2 d1)); [reflexivity|].
    destruct (select_by_triple (between 2 d1) _ _ _); reflexivity. }
  apply insert_submission_inr in Hins. subst d1'. fold (Refusing.with_row d1 row).
  cbv beta iota zeta delta [db store journal].
  rewrite <- ?app_assoc. cbn [app].
  set (created := created_event opts (candidateId env) saved).
  set (d3 := between 3 (Refusing.with_row d1 row)).
  destruct (refuses (Refusing.InsertEvent created) d3); [reflexivity|].
  destruct (insert_event d3 created) as [sqlstate|d3'] eqn:Hev; [reflexivity|].
  assert (Hd3 : d3' = Refusing.with_event d3 created).
  { unfold insert_event in Hev.
    destruct (negb (bool_decide _)); [discriminate|].
    destruct (negb (existsb _ _)); [discriminate|]. now injection Hev as <-. }
  subst d3'. clear Hev. cbv beta iota zeta delta [db store journal].
  rewrite <- !app_assoc. cbn [app].
  set (d4 := between 4 (Refusing.with_event d3 created)).
  destruct (refuses (Refusing.DeleteCacheByPrefix "courses:v1:") d4); [reflexivity|].
  change (delete_cache_by_prefix d4 "courses:v1:")
    with (Z.of_nat (base.size (filter (fun kv => String.prefix "courses:v1:" kv.1 = true)
                                 (cache d4))),
          Refusing.without_prefix d4 "courses:v1:").
  cbv beta iota zeta delta [db store journal].
  rewrite <- ?app_assoc. cbn [app].
  set (d5 := between 5 (Refusing.without_prefix d4 "courses:v1:")).
  unfold Refusing.follow_up_event, Refusing.fresh.
  destruct (ServiceExtras.decideExtraction_cases (opt_mime opts) (buf opts))
    as [(Hocr & Hst & _) | (Hocr & Hst & _)]; cbv zeta in *; rewrite Hst, ?Hocr.
  - rewrite bool_decide_eq_false_2 by discriminate.
    cbv beta iota zeta delta [db store journal].
    rewrite <- ?app_assoc. cbn [app]. subst d5.
    destruct (refuses (Refusing.InsertEvent _) _); [reflexivity|].
    destruct (insert_event _ _); reflexivity.
  - rewrite bool_decide_eq_true_2 by reflexivity.
    cbv beta iota zeta delta [db store journal].
    rewrite <- ?app_assoc. cbn [app]. subst d5.
    destruct (refuses (Refusing.InsertEvent _) _); [reflexivity|].
    destruct (insert_event _ _); reflexivity.
Qed.

End WithProvider.
End RefusingFacts.

Module RefusingExtras.
Import Db Service ServiceFacts Refusing RefusingFacts Cache Courses.
Import Examples MoreExamples.

Section WithProvider.
Context {Store : Type} `{StorageProvider Store}.
Variable sha256_hex : list byte -> string.
Variable refuses : Statement -> Database -> option Exn.
Variable between : nat -> Database -> Database.


(** X3.  What a call that throws has written, on a database that may
    refuse any statement and with other requests running at every
    [await].  Either none of its statements on the database was
    accepted: it stopped at the size guard, the look-up, the artifact
    store, the [INSERT] of the row or the second look-up.  Or the row
    was accepted and the error is that of a later statement: the call
    stops there and takes nothing back, so the row stays without an
    event (the [INSERT] of [submission.created] failed), or with that
    event only, the cache untouched (the [DELETE] failed) or emptied
    (the last [INSERT] failed). *)
Theorem createSubmission_thrown_writes
    (env : Env) (opts : CreateOpts) (m m1 : Machine Store) (e : Exn) :
  Refusing.createSubmission sha256_hex refuses between env opts m = (Throw e, m1) ->
  ((db m1 = db m \/ db m1 = at_lookup between (db m)
    \/ db m1 = at_insert between (db m) \/ db m1 = at_requery between (db m))
   /\ (journal m1 = journal m
       \/ journal m1 = journal m ++ [CallSaveOriginal (save_args env opts)]
       \/ exists saved,
            journal m1
            = journal m ++ [CallSaveOriginal (save_args env opts);
                            CallInsertSubmission (the_row sha256_hex env opts saved)]))
  \/ (exists saved,
        let row := the_row sha256_hex env opts saved in
        let created := created_event opts (candidateId env) saved in
        let follow := follow_up_event opts (candidateId env) in
        let issued calls :=
          journal m ++ CallSaveOriginal (save_args env opts)
                       :: CallInsertSubmission row :: calls in
        saveOriginal (save_args env opts) (store m) = (Return saved, store m1)
        /\ insert_submission (at_insert between (db m)) row
           = inr (with_row (at_insert between (db m)) row)
        /\ ((answer refuses (InsertEvent created) (at_created between (db m) row)
               (insert_event (at_created between (db m) row) created) = inl e
             /\ db m1 = at_created between (db m) row
             /\ journal m1 = issued [CallInsertEvent created])
            \/ (answer refuses (DeleteCacheByPrefix "courses:v1:")
                  (at_delete between (db m) row created)
                  (inr (delete_cache_by_prefix (at_delete between (db m) row created)
                          "courses:v1:")) = inl e
                /\ db m1 = at_delete between (db m) row created
                /\ journal m1 = issued [CallInsertEvent created;
                                        CallCacheDelByPrefix "courses:v1:"])
            \/ (answer refuses (InsertEvent follow)
                  (at_follow_up between (db m) row created)
                  (insert_event (at_follow_up between (db m) row created) follow) = inl e
                /\ db m1 = at_follow_up between (db m) row created
                /\ journal m1 = issued [CallInsertEvent created;
                                        CallCacheDelByPrefix "courses:v1:";
                                        CallInsertEvent follow]))).
Proof.
  intros Hrun. rewrite create_run in Hrun. cbv zeta in Hrun.
  destruct (MAX_BYTES <? Js.buf_length (buf opts)).
  { injection Hrun as <- <-. left. auto. }
  destruct (answer refuses (SelectByTriple _ _ _) (at_lookup between (db m)) _)
    as [e0|[hit|]] eqn:Hlook; [| discriminate |].
  { injection Hrun as <- <-. left. cbn. auto. }
  destruct (saveOriginal _ (store m)) as [[saved|e0] st] eqn:Hsave.
  2:{ injection Hrun as <- <-. left. cbn. auto. }
  destruct (answer refuses (InsertSubmission _) _ _) as [e0|d1'] eqn:Hins.
  { left. destruct (bool_decide (exn_code e0 = Some "23505")).
    - destruct (answer refuses (SelectByTriple _ _ _) (at_requery between (db m)) _)
        as [e'|[winner|]]; try discriminate; injection Hrun as <- <-; cbn; eauto 10.
    - injection Hrun as <- <-. cbn. eauto 10. }
  right. exists saved. cbv zeta.
  apply answer_inr in Hins as [_ Hins]. pose proof (insert_submission_inr _ _ _ Hins) as ->.
  assert (Hstore : store m1 = st).
  { destruct (answer refuses (InsertEvent _) (at_created _ _ _) _);
      [now injection Hrun as <- <-|].
    destruct (answer refuses (DeleteCacheByPrefix _) _ _); [now injection Hrun as <- <-|].
    destruct (answer refuses (InsertEvent _) (at_follow_up _ _ _ _) _);
      [now injection Hrun as <- <- | discriminate]. }
  rewrite Hstore. split; [reflexivity|]. split; [exact Hins|].
  destruct (answer refuses (InsertEvent _) (at_created _ _ _) _) as [e0|d3'] eqn:Hcreated.
  { injection Hrun as <- <-. left. cbn. auto. }
  destruct (answer refuses (DeleteCacheByPrefix _) _ _) as [e0|d4'] eqn:Hdelete.
  { injection Hrun as <- <-. right; left. cbn. auto. }
  destruct (answer refuses (InsertEvent _) (at_follow_up _ _ _ _) _) as [e0|d5'] eqn:Hfollow;
    [|discriminate].
  injection Hrun as <- <-. right; right. cbn. auto.
Qed.

(** X16.  A call that returns after storing a new submission has emptied
    the cached pages of the courses list: in the database as its
    [DELETE] left it no key with the prefix [courses:v1:], so no key of
    [keyFor], is served, and every other key is served as before the
    [DELETE].  The database at the return is that one after the last
    turn of the other requests and the last event; when they leave the
    cache alone in that turn, no such key is served at the return. *)
Theorem createSubmission_clears_courses
    (env : Env) (opts : CreateOpts) (m m1 : Machine Store) (r : CreateResult)
    (saved : SavedObject) (store' : Store) (d' : Database) :
  Refusing.createSubmission sha256_hex refuses between env opts m = (Return r, m1) ->
  select_by_triple (at_lookup between (db m)) (assignmentId opts) (studentId opts)
    (sha256_hex (buf opts)) = None ->
  saveOriginal (save_args env opts) (store m) = (Return saved, store') ->
  answer refuses (InsertSubmission (the_row sha256_hex env opts saved))
    (at_insert between (db m))
    (insert_submission (at_insert between (db m)) (the_row sha256_hex env opts saved))
    = inr d' ->
  let row := the_row sha256_hex env opts saved in
  let created := created_event opts (candidateId env) saved in
  let met := at_delete between (db m) row created in
  let cleared := without_prefix met "courses:v1:" in
  db m1 = with_event (between 5 cleared) (follow_up_event opts (candidateId env))
  /\ (forall now key, String.prefix "courses:v1:" key = true ->
        cacheGet now key cleared = None)
  /\ (forall now start pageSize, cacheGet now (keyFor start pageSize) cleared = None)
  /\ (forall now key, String.prefix "courses:v1:" key = false ->
        cacheGet now key cleared = cacheGet now key met)
  /\ (cache (between 5 cleared) = cache cleared ->
      forall now key, String.prefix "courses:v1:" key = true ->
        cacheGet now key (db m1) = None).
Proof.
  intros Hrun Hsel Hsave Hins. cbv zeta. rewrite create_run in Hrun. cbv zeta in Hrun.
  destruct (MAX_BYTES <? Js.buf_length (buf opts)); [discriminate|].
  unfold answer at 1 in Hrun.
  destruct (refuses (SelectByTriple _ _ _) (at_lookup between (db m))); [discriminate|].
  rewrite Hsel, Hsave, Hins in Hrun.
  destruct (answer refuses (InsertEvent _) (at_created _ _ _) _) as [e|d3'] eqn:Hcreated;
    [discriminate|].
  destruct (answer refuses (DeleteCacheByPrefix _) _ _) as [e|d4'] eqn:Hdelete;
    [discriminate|].
  destruct (answer refuses (InsertEvent _) (at_follow_up _ _ _ _) _) as [e|d5'] eqn:Hfollow;
    [discriminate|].
  injection Hrun as <- <-. cbn [db].
  apply answer_inr in Hfollow as [_ Hfollow]. apply insert_event_inr in Hfollow. subst d5'.
  set (met := at_delete between (db m) _ _).
  assert (Hgone : forall now key, String.prefix "courses:v1:" key = true ->
            cacheGet now key (without_prefix met "courses:v1:") = None).
  { intros now key Hp. unfold cacheGet, without_prefix. cbn [delete_cache_by_prefix snd cache].
    rewrite (map_lookup_filter_None_2 _ _ key); [reflexivity|].
    right. intros row _. cbn. now rewrite Hp. }
  split; [reflexivity|]. split; [exact Hgone|]. split; [|split].
  - intros now start pageSize. apply Hgone. unfold keyFor.
    change ("courses:v1:start=" +:+ start +:+ ":size=" +:+ pageSize)
      with ("courses:v1:" +:+ ("start=" +:+ start +:+ ":size=" +:+ pageSize)).
    apply PathFacts.prefix_append.
  - intros now key Hp. unfold cacheGet, without_prefix. cbn [delete_cache_by_prefix snd cache].
    destruct (cache met !! key) as [row|] eqn:Hrow.
    + rewrite (map_lookup_filter_Some_2 _ _ key row Hrow); [reflexivity|].
      cbn. rewrite Hp. discriminate.
    + rewrite (map_lookup_filter_None_2 _ _ key); [reflexivity | now left].
  - intros Hquiet now key Hp. unfold cacheGet. cbn [with_event cache].
    unfold at_follow_up. fold met. rewrite Hquiet. apply (Hgone now key Hp).
Qed.

End WithProvider.


Lemma createSubmission_thrown_writes_witness :
  exists saved,
    db (Refusing.createSubmission digest refuse_events alone (quiet "sub_1") hello start).2
    = with_row (db start) (the_row digest (quiet "sub_1") hello saved).
Proof.
  destruct (createSubmission_thrown_writes digest refuse_events alone (quiet "sub_1") hello
              start
              (Refusing.createSubmission digest refuse_events alone (quiet "sub_1") hello
                 start).2
              (pg_error "22P05"))
    as [[_ [Hj | [Hj | (saved & Hj)]]]
       | (saved & _ & _ & [(_ & Hdb & _) | [(_ & _ & Hj) | (_ & _ & Hj)]])].
  - vm_compute. reflexivity.
  - vm_compute in Hj. discriminate.
  - vm_compute in Hj. discriminate.
  - vm_compute in Hj. discriminate.
  - exists saved. exact Hdb.
  - vm_compute in Hj. discriminate.
  - vm_compute in Hj. discriminate.
Defined.

Lemma createSubmission_clears_courses_witness :
  cacheGet 0 (keyFor "0" "50") (db cached) = Some "[1]"
  /\ cacheGet 0 (keyFor "0" "50")
       (db (Refusing.createSubmission digest nothing alone (quiet "sub_1") hello cached).2)
     = None
  /\ cacheGet 0 "users:v1:start=0:size=50"
       (db (Refusing.createSubmission digest nothing alone (quiet "sub_1") hello cached).2)
     = Some "[2]".
Proof.
  destruct (createSubmission_clears_courses digest nothing alone (quiet "sub_1") hello cached
              (Refusing.createSubmission digest nothing alone (quiet "sub_1") hello cached).2
              hello_result hello_saved
              (<["class/a1/sub_1/original.txt" := buf hello]> ∅)
              (with_row (db cached) (the_row digest (quiet "sub_1") hello hello_saved)))
    as (Hdb & _ & _ & Hkept & Hgone).
  - vm_compute. reflexivity.
  - vm_compute. reflexivity.
  - vm_compute. reflexivity.
  - vm_compute. reflexivity.
  - split; [vm_compute; reflexivity|]. split.
    + apply Hgone; reflexivity.
    + rewrite Hdb. unfold cacheGet. cbn [with_event cache alone].
      apply (Hkept 0 "users:v1:start=0:size=50"). reflexivity.
Defined.

End RefusingExtras.
